(** * Alert dispatcher: adapters, routing, rendering, polling and the
      interactive callback, embedded from the Go sources.

    Go strings are byte sequences; they are modelled by [string] (a list of
    8-bit [ascii]), so [String.length] is Go's [len].  Go maps are modelled
    by stdpp's [gmap]; a nil map reads like the empty map.  Every [range]
    over a map receives the order in which it visits the entries as an
    explicit argument, because Go leaves that order unspecified.  *)

From Stdlib Require Import ZArith NArith Lia List Ascii String Bool.
From stdpp Require Import gmap strings list fin_maps.

#[local] Set Warnings "-register-all".
#[local] Open Scope string_scope.

(** ** The parts of the Go runtime that are taken as parameters:
       binary64 arithmetic and printing, package [time], and the Unicode
       case tables used by [strings.ToLower] / [strings.ToUpper] on text
       that is not pure ASCII. *)
Record GoRuntime : Type := {
  float64 : Type;
  float64_zero : float64;
  (* strconv.ParseFloat(lit, 64) on a JSON number literal; None on a range error *)
  strconv_ParseFloat : string -> option float64;
  (* fmt.Sprintf("%.<prec>f", v) *)
  fmt_f : nat -> float64 -> string;
  (* v == float64(int64(v)) *)
  float64_is_int64 : float64 -> bool;
  time_Time : Type;
  (* time.Parse(layout, value) *)
  time_Parse : string -> string -> option time_Time;
  (* t.Format(layout) *)
  time_Format : time_Time -> string -> string;
  (* strings.Map(unicode.ToLower, s) and strings.Map(unicode.ToUpper, s) *)
  unicode_ToLower : string -> string;
  unicode_ToUpper : string -> string
}.

(** ** Package strings, strconv and fmt verbs on byte strings *)
Module GoStrings.

Definition byte_of (c : ascii) : N := N_of_ascii c.
Definition char_of (n : N) : ascii := ascii_of_N n.

Fixpoint bytes_of (s : string) : list N :=
  match s with
  | EmptyString => []
  | String c s' => byte_of c :: bytes_of s'
  end.

Fixpoint string_of (l : list N) : string :=
  match l with
  | [] => EmptyString
  | b :: l' => String (char_of b) (string_of l')
  end.

(** strings.HasPrefix *)
Fixpoint HasPrefix (s prefix : string) : bool :=
  match prefix, s with
  | EmptyString, _ => true
  | String p prefix', String c s' => Ascii.eqb p c && HasPrefix s' prefix'
  | String _ _, EmptyString => false
  end.

(** strings.Contains *)
Fixpoint Contains (s substr : string) : bool :=
  HasPrefix s substr ||
  match s with
  | EmptyString => false
  | String _ s' => Contains s' substr
  end.

(** strings.Index: None stands for -1. *)
Fixpoint Index (s substr : string) : option nat :=
  if HasPrefix s substr then Some O
  else
    match s with
    | EmptyString => None
    | String _ s' => option_map S (Index s' substr)
    end.

(** s[n:] for n <= len(s) *)
Fixpoint drop_bytes (n : nat) (s : string) : string :=
  match n, s with
  | O, _ => s
  | S n', String _ s' => drop_bytes n' s'
  | S _, EmptyString => EmptyString
  end.

(** s[:n] for n <= len(s) *)
Fixpoint take_bytes (n : nat) (s : string) : string :=
  match n, s with
  | O, _ => EmptyString
  | S n', String c s' => String c (take_bytes n' s')
  | S _, EmptyString => EmptyString
  end.

(** strings.Join *)
Fixpoint Join (elems : list string) (sep : string) : string :=
  match elems with
  | [] => EmptyString
  | [e] => e
  | e :: rest => e +:+ sep +:+ Join rest sep
  end.

(** strings.ReplaceAll for a non-empty [old]. *)
Fixpoint ReplaceAll_go (fuel : nat) (s old new : string) : string :=
  match fuel with
  | O => s
  | S fuel' =>
      match s with
      | EmptyString => EmptyString
      | String c s' =>
          if HasPrefix s old
          then new +:+ ReplaceAll_go fuel' (drop_bytes (String.length old) s) old new
          else String c (ReplaceAll_go fuel' s' old new)
      end
  end.

Definition ReplaceAll (s old new : string) : string :=
  ReplaceAll_go (S (String.length s)) s old new.

Definition is_ascii_byte (c : ascii) : bool := (byte_of c <? 128)%N.

Fixpoint is_ascii (s : string) : bool :=
  match s with
  | EmptyString => true
  | String c s' => is_ascii_byte c && is_ascii s'
  end.

Definition lower_byte (c : ascii) : ascii :=
  let n := byte_of c in
  if ((65 <=? n) && (n <=? 90))%N then char_of (n + 32) else c.

Definition upper_byte (c : ascii) : ascii :=
  let n := byte_of c in
  if ((97 <=? n) && (n <=? 122))%N then char_of (n - 32) else c.

Fixpoint map_bytes (f : ascii -> ascii) (s : string) : string :=
  match s with
  | EmptyString => EmptyString
  | String c s' => String (f c) (map_bytes f s')
  end.

Section CaseMapping.
Variable rt : GoRuntime.

(** strings.ToLower: a byte-wise map on pure ASCII text, the Unicode
    tables otherwise. *)
Definition ToLower (s : string) : string :=
  if is_ascii s then map_bytes lower_byte s else unicode_ToLower rt s.

(** strings.ToUpper *)
Definition ToUpper (s : string) : string :=
  if is_ascii s then map_bytes upper_byte s else unicode_ToUpper rt s.
End CaseMapping.

(** The UTF-8 encodings of the runes for which unicode.IsSpace holds:
    U+0009..U+000D, U+0020, U+0085, U+00A0, U+1680, U+2000..U+200A,
    U+2028, U+2029, U+202F, U+205F, U+3000. *)
Definition space_runes : list (list N) :=
  [ [9]; [10]; [11]; [12]; [13]; [32]; [194; 133]; [194; 160]; [225; 154; 128];
    [226; 128; 128]; [226; 128; 129]; [226; 128; 130]; [226; 128; 131];
    [226; 128; 132]; [226; 128; 133]; [226; 128; 134]; [226; 128; 135];
    [226; 128; 136]; [226; 128; 137]; [226; 128; 138];
    [226; 128; 168]; [226; 128; 169]; [226; 128; 175]; [226; 129; 159];
    [227; 128; 128] ]%N.

Fixpoint strip_prefix (p l : list N) : option (list N) :=
  match p, l with
  | [], _ => Some l
  | a :: p', b :: l' => if (a =? b)%N then strip_prefix p' l' else None
  | _ :: _, [] => None
  end.

Fixpoint strip_space_rune (runes : list (list N)) (l : list N) : option (list N) :=
  match runes with
  | [] => None
  | r :: runes' =>
      match strip_prefix r l with
      | Some l' => Some l'
      | None => strip_space_rune runes' l
      end
  end.

Fixpoint trim_left_go (fuel : nat) (l : list N) : list N :=
  match fuel with
  | O => l
  | S fuel' =>
      match strip_space_rune space_runes l with
      | Some l' => trim_left_go fuel' l'
      | None => l
      end
  end.

Definition trim_left (l : list N) : list N := trim_left_go (List.length l) l.

(** Trailing white space is removed by matching the reversed encodings on
    the reversed text. *)
Fixpoint trim_right_rev_go (fuel : nat) (r : list N) : list N :=
  match fuel with
  | O => r
  | S fuel' =>
      match strip_space_rune (List.map (@List.rev N) space_runes) r with
      | Some r' => trim_right_rev_go fuel' r'
      | None => r
      end
  end.

Definition trim_right (l : list N) : list N :=
  List.rev (trim_right_rev_go (List.length l) (List.rev l)).

(** strings.TrimSpace *)
Definition TrimSpace (s : string) : string :=
  string_of (trim_right (trim_left (bytes_of s))).

Definition digit_char (d : N) : ascii := char_of (48 + d).

Fixpoint utoa_go (fuel : nat) (n : N) (acc : string) : string :=
  match fuel with
  | O => acc
  | S fuel' =>
      let acc' := String (digit_char (n mod 10)) acc in
      if (n <? 10)%N then acc' else utoa_go fuel' (n / 10) acc'
  end.

(** The verb %d on a non-negative integer. *)
Definition utoa (n : N) : string := utoa_go (S (N.to_nat (N.log2 n))) n EmptyString.

(** The verb %d. *)
Definition itoa (z : Z) : string :=
  if (z <? 0)%Z then String "-" (utoa (Z.to_N (- z))) else utoa (Z.to_N z).

Definition is_digit (c : ascii) : bool :=
  let n := byte_of c in ((48 <=? n) && (n <=? 57))%N.

Fixpoint parse_digits (s : string) (acc : Z) : option Z :=
  match s with
  | EmptyString => Some acc
  | String c s' =>
      if is_digit c
      then parse_digits s' (10 * acc + Z.of_N (byte_of c - 48))%Z
      else None
  end.

Definition max_int64 : Z := 9223372036854775807.
Definition min_int64 : Z := -9223372036854775808.

(** strconv.ParseInt(s, 10, 64): an optional sign, then one or more decimal
    digits; None for a syntax or a range error. *)
Definition ParseInt (s : string) : option Z :=
  let '(neg, body) :=
    match s with
    | String "-" s' => (true, s')
    | String "+" s' => (false, s')
    | _ => (false, s)
    end in
  match body with
  | EmptyString => None
  | _ =>
      match parse_digits body 0 with
      | None => None
      | Some un =>
          if neg
          then (if (un <=? - min_int64)%Z then Some (- un)%Z else None)
          else (if (un <=? max_int64)%Z then Some un else None)
      end
  end.

(** Two's-complement wrap-around of int64 arithmetic. *)
Definition wrap64 (z : Z) : Z :=
  ((z - min_int64) mod 18446744073709551616 + min_int64)%Z.

End GoStrings.

(** ** crypto/sha256, crypto/hmac and encoding/hex *)
Module Crypto.
Import GoStrings.
#[local] Open Scope N_scope.

Definition mask32 : N := 4294967295.
Definition w32 (x : N) : N := N.land x mask32.
Definition rotr (x n : N) : N := N.lor (N.shiftr x n) (w32 (N.shiftl x (32 - n))).

Definition round_constants : list N :=
  [ 1116352408; 1899447441; 3049323471; 3921009573; 961987163; 1508970993;
    2453635748; 2870763221; 3624381080; 310598401; 607225278; 1426881987;
    1925078388; 2162078206; 2614888103; 3248222580; 3835390401; 4022224774;
    264347078; 604807628; 770255983; 1249150122; 1555081692; 1996064986;
    2554220882; 2821834349; 2952996808; 3210313671; 3336571891; 3584528711;
    113926993; 338241895; 666307205; 773529912; 1294757372; 1396182291;
    1695183700; 1986661051; 2177026350; 2456956037; 2730485921; 2820302411;
    3259730800; 3345764771; 3516065817; 3600352804; 4094571909; 275423344;
    430227734; 506948616; 659060556; 883997877; 958139571; 1322822218;
    1537002063; 1747873779; 1955562222; 2024104815; 2227730452; 2361852424;
    2428436474; 2756734187; 3204031479; 3329325298 ].

Record digest_state : Type := DigestState {
  ha : N; hb : N; hc : N; hd : N; he : N; hf : N; hg : N; hh : N
}.

Definition initial_state : digest_state :=
  DigestState 1779033703 3144134277 1013904242 2773480762
              1359893119 2600822924 528734635 1541459225.

Fixpoint be_word (l : list N) : N :=
  match l with
  | [] => 0
  | b :: l' => N.lor (N.shiftl b (8 * N.of_nat (List.length l'))) (be_word l')
  end.

Fixpoint chunks (fuel size : nat) (l : list N) : list (list N) :=
  match fuel with
  | O => []
  | S fuel' =>
      match l with
      | [] => []
      | _ => firstn size l :: chunks fuel' size (skipn size l)
      end
  end.

(** The schedule is kept most recent word first: w[t-1] :: w[t-2] :: ... *)
Definition next_schedule_word (rev_w : list N) : N :=
  let w2 := nth 1 rev_w 0 in
  let w7 := nth 6 rev_w 0 in
  let w15 := nth 14 rev_w 0 in
  let w16 := nth 15 rev_w 0 in
  let s0 := N.lxor (N.lxor (rotr w15 7) (rotr w15 18)) (N.shiftr w15 3) in
  let s1 := N.lxor (N.lxor (rotr w2 17) (rotr w2 19)) (N.shiftr w2 10) in
  w32 (w16 + s0 + w7 + s1).

Fixpoint extend_schedule (n : nat) (rev_w : list N) : list N :=
  match n with
  | O => rev_w
  | S n' => extend_schedule n' (next_schedule_word rev_w :: rev_w)
  end.

Definition schedule (block : list N) : list N :=
  List.rev (extend_schedule 48 (List.rev (List.map be_word (chunks 16 4 block)))).

Definition round (st : digest_state) (kw : N * N) : digest_state :=
  let '(k, w) := kw in
  let e := he st in
  let a := ha st in
  let S1 := N.lxor (N.lxor (rotr e 6) (rotr e 11)) (rotr e 25) in
  let ch := N.lxor (N.land e (hf st)) (N.land (N.lxor e mask32) (hg st)) in
  let t1 := w32 (hh st + S1 + ch + k + w) in
  let S0 := N.lxor (N.lxor (rotr a 2) (rotr a 13)) (rotr a 22) in
  let maj := N.lxor (N.lxor (N.land a (hb st)) (N.land a (hc st))) (N.land (hb st) (hc st)) in
  let t2 := w32 (S0 + maj) in
  DigestState (w32 (t1 + t2)) a (hb st) (hc st) (w32 (hd st + t1)) e (hf st) (hg st).

Definition compress (st : digest_state) (block : list N) : digest_state :=
  let r := fold_left round (combine round_constants (schedule block)) st in
  DigestState (w32 (ha st + ha r)) (w32 (hb st + hb r)) (w32 (hc st + hc r))
              (w32 (hd st + hd r)) (w32 (he st + he r)) (w32 (hf st + hf r))
              (w32 (hg st + hg r)) (w32 (hh st + hh r)).

Definition be_bytes (width : nat) (x : N) : list N :=
  List.map (fun i => N.land (N.shiftr x (8 * N.of_nat i)) 255) (List.rev (seq 0 width)).

Definition pad (msg : list N) : list N :=
  let len := List.length msg in
  let zeros := ((64 - (len + 9) mod 64) mod 64)%nat in
  (msg ++ [128] ++ repeat 0 zeros ++ be_bytes 8 (8 * N.of_nat len))%list.

Definition sha256 (msg : list N) : list N :=
  let padded := pad msg in
  let st := fold_left compress (chunks (List.length padded) 64 padded) initial_state in
  concat (List.map (be_bytes 4)
            [ha st; hb st; hc st; hd st; he st; hf st; hg st; hh st]).

(** hmac.New(sha256.New, key), Write(msg), Sum(nil) *)
Definition hmac_sha256 (key msg : list N) : list N :=
  let k0 := if (64 <? List.length key)%nat then sha256 key else key in
  let k := (k0 ++ repeat 0 (64 - List.length k0)%nat)%list in
  let ipad := List.map (fun b => N.lxor b 54) k in
  let opad := List.map (fun b => N.lxor b 92) k in
  sha256 (opad ++ sha256 (ipad ++ msg))%list.

Definition hex_digit (d : N) : ascii :=
  if d <? 10 then char_of (48 + d) else char_of (87 + d).

(** hex.EncodeToString *)
Fixpoint hex_EncodeToString (l : list N) : string :=
  match l with
  | [] => EmptyString
  | b :: l' => String (hex_digit (b / 16)) (String (hex_digit (b mod 16)) (hex_EncodeToString l'))
  end.

(** hmac.Equal: equality of the two byte strings. *)
Definition hmac_Equal (a b : string) : bool := String.eqb a b.

End Crypto.

(** ** encoding/json: the scanner and the decoding into Go values *)
Module JSON.
Import GoStrings.

Inductive json : Type :=
| JNull
| JBool (b : bool)
| JNum (literal : string)
| JStr (s : string)
| JArr (elems : list json)
| JObj (members : list (string * json)).

Inductive error : Type :=
| SyntaxError          (* *json.SyntaxError *)
| UnmarshalTypeError   (* *json.UnmarshalTypeError *)
| WrappedError (msg : string) (cause : error).  (* fmt.Errorf("...: %v", err) *)

Inductive result (A : Type) : Type :=
| Ok (a : A)
| Err (e : error).
Arguments Ok {A} a.
Arguments Err {A} e.

Definition bind {A B : Type} (r : result A) (k : A -> result B) : result B :=
  match r with
  | Ok a => k a
  | Err e => Err e
  end.

Definition is_ok {A : Type} (r : result A) : bool :=
  match r with Ok _ => true | Err _ => false end.

#[local] Open Scope N_scope.

Definition is_ws (b : N) : bool :=
  (b =? 32) || (b =? 9) || (b =? 10) || (b =? 13).

Fixpoint skip_ws (l : list N) : list N :=
  match l with
  | b :: l' => if is_ws b then skip_ws l' else l
  | [] => []
  end.

Definition is_digit_byte (b : N) : bool := (48 <=? b) && (b <=? 57).

Fixpoint scan_digits (l : list N) : list N * list N :=
  match l with
  | b :: l' =>
      if is_digit_byte b
      then let '(ds, r) := scan_digits l' in (b :: ds, r)
      else ([], l)
  | [] => ([], [])
  end.

(** A number literal: an optional minus sign; 0, or a non-zero digit and
    more digits; optionally a point and one or more digits; optionally e or
    E, an optional sign and one or more digits. *)
Definition scan_number (l : list N) : option (list N * list N) :=
  let '(sign, l1) :=
    match l with
    | 45 :: r => ([45], r)
    | _ => ([], l)
    end in
  let int_part :=
    match l1 with
    | 48 :: r => Some ([48], r)
    | b :: r =>
        if is_digit_byte b
        then let '(ds, r') := scan_digits r in Some (b :: ds, r')
        else None
    | [] => None
    end in
  match int_part with
  | None => None
  | Some (ip, l2) =>
      let frac_part :=
        match l2 with
        | 46 :: r =>
            match scan_digits r with
            | ([], _) => None
            | (ds, r') => Some (46 :: ds, r')
            end
        | _ => Some ([], l2)
        end in
      match frac_part with
      | None => None
      | Some (fp, l3) =>
          let exp_part :=
            match l3 with
            | e :: r =>
                if (e =? 101) || (e =? 69)
                then
                  let '(sg, r1) :=
                    match r with
                    | 43 :: r1 => ([43], r1)
                    | 45 :: r1 => ([45], r1)
                    | _ => ([], r)
                    end in
                  match scan_digits r1 with
                  | ([], _) => None
                  | (ds, r') => Some ((e :: sg ++ ds)%list, r')
                  end
                else Some ([], l3)
            | [] => Some ([], l3)
            end in
          match exp_part with
          | None => None
          | Some (ep, l4) => Some ((sign ++ ip ++ fp ++ ep)%list, l4)
          end
      end
  end.

Definition hex_value (b : N) : option N :=
  if (48 <=? b) && (b <=? 57) then Some (b - 48)
  else if (97 <=? b) && (b <=? 102) then Some (b - 87)
  else if (65 <=? b) && (b <=? 70) then Some (b - 55)
  else None.

(** Four hexadecimal digits. *)
Definition getu4 (l : list N) : option (N * list N) :=
  match l with
  | a :: b :: c :: d :: r =>
      match hex_value a, hex_value b, hex_value c, hex_value d with
      | Some x, Some y, Some z, Some w => Some (4096 * x + 256 * y + 16 * z + w, r)
      | _, _, _, _ => None
      end
  | _ => None
  end.

Definition replacement_char : list N := [239; 191; 189].

(** utf8.EncodeRune *)
Definition encode_rune (r : N) : list N :=
  if r <? 128 then [r]
  else if r <? 2048 then [192 + r / 64; 128 + r mod 64]
  else if ((55296 <=? r) && (r <? 57344)) || (1114111 <? r) then replacement_char
  else if r <? 65536 then [224 + r / 4096; 128 + (r / 64) mod 64; 128 + r mod 64]
  else [240 + r / 262144; 128 + (r / 4096) mod 64; 128 + (r / 64) mod 64; 128 + r mod 64].

Definition in_range (lo hi b : N) : bool := (lo <=? b) && (b <=? hi).

(** The width of the well-formed UTF-8 sequence at the head of [l], as
    utf8.DecodeRune accepts it; None where it yields RuneError. *)
Definition utf8_width (l : list N) : option nat :=
  match l with
  | b0 :: b1 :: rest =>
      if in_range 194 223 b0 then (if in_range 128 191 b1 then Some 2%nat else None)
      else
        match rest with
        | b2 :: rest' =>
            let second3 :=
              if b0 =? 224 then in_range 160 191 b1
              else if b0 =? 237 then in_range 128 159 b1
              else in_range 225 239 b0 && in_range 128 191 b1 in
            if second3 then (if in_range 128 191 b2 then Some 3%nat else None)
            else
              match rest' with
              | b3 :: _ =>
                  let second4 :=
                    if b0 =? 240 then in_range 144 191 b1
                    else if b0 =? 244 then in_range 128 143 b1
                    else in_range 241 243 b0 && in_range 128 191 b1 in
                  if second4 && in_range 128 191 b2 && in_range 128 191 b3
                  then Some 4%nat else None
              | [] => None
              end
        | [] => None
        end
  | _ => None
  end.

(** The text of a string literal after its opening quote, unquoted as the
    decoder does: escapes are resolved, an unpaired surrogate escape and
    every ill-formed UTF-8 byte become U+FFFD. *)
Fixpoint scan_string (fuel : nat) (l : list N) (acc : list N) : option (list N * list N) :=
  match fuel with
  | O => None
  | S fuel' =>
      match l with
      | [] => None
      | 34 :: r => Some (List.rev acc, r)
      | 92 :: e :: r =>
          let simple (b : N) := scan_string fuel' r (b :: acc) in
          if e =? 34 then simple 34
          else if e =? 92 then simple 92
          else if e =? 47 then simple 47
          else if e =? 98 then simple 8
          else if e =? 102 then simple 12
          else if e =? 110 then simple 10
          else if e =? 114 then simple 13
          else if e =? 116 then simple 9
          else if e =? 117 then
            match getu4 r with
            | None => None
            | Some (rr, r1) =>
                if (55296 <=? rr) && (rr <? 57344) then
                  let paired :=
                    match r1 with
                    | 92 :: 117 :: r2 =>
                        match getu4 r2 with
                        | Some (rr1, r3) =>
                            if (rr <? 56320) && (56320 <=? rr1) && (rr1 <? 57344)
                            then Some (65536 + (rr - 55296) * 1024 + (rr1 - 56320), r3)
                            else None
                        | None => None
                        end
                    | _ => None
                    end in
                  match paired with
                  | Some (rune, r3) => scan_string fuel' r3 (List.rev (encode_rune rune) ++ acc)%list
                  | None => scan_string fuel' r1 (List.rev replacement_char ++ acc)%list
                  end
                else scan_string fuel' r1 (List.rev (encode_rune rr) ++ acc)%list
            end
          else None
      | 92 :: [] => None
      | b :: r =>
          if b <? 32 then None
          else if b <? 128 then scan_string fuel' r (b :: acc)
          else
            match utf8_width l with
            | Some n => scan_string fuel' (skipn n l) (List.rev (firstn n l) ++ acc)%list
            | None => scan_string fuel' r (List.rev replacement_char ++ acc)%list
            end
      end
  end.

Definition max_nesting_depth : N := 10000.

Definition literal_true : list N := [116; 114; 117; 101].
Definition literal_false : list N := [102; 97; 108; 115; 101].
Definition literal_null : list N := [110; 117; 108; 108].

Fixpoint parse_value (fuel : nat) (depth : N) (l : list N) : option (json * list N) :=
  match fuel with
  | O => None
  | S fuel' =>
      match skip_ws l with
      | [] => None
      | 123 :: r =>
          if max_nesting_depth <=? depth then None
          else
            match skip_ws r with
            | 125 :: r' => Some (JObj [], r')
            | _ => parse_members fuel' (depth + 1) r []
            end
      | 91 :: r =>
          if max_nesting_depth <=? depth then None
          else
            match skip_ws r with
            | 93 :: r' => Some (JArr [], r')
            | _ => parse_elems fuel' (depth + 1) r []
            end
      | 34 :: r =>
          match scan_string (S (List.length r)) r [] with
          | Some (s, r') => Some (JStr (string_of s), r')
          | None => None
          end
      | b :: r =>
          match strip_prefix literal_true (b :: r),
                strip_prefix literal_false (b :: r),
                strip_prefix literal_null (b :: r) with
          | Some r', _, _ => Some (JBool true, r')
          | _, Some r', _ => Some (JBool false, r')
          | _, _, Some r' => Some (JNull, r')
          | None, None, None =>
              match scan_number (b :: r) with
              | Some (lit, r') => Some (JNum (string_of lit), r')
              | None => None
              end
          end
      end
  end
with parse_members (fuel : nat) (depth : N) (l : list N) (acc : list (string * json))
  : option (json * list N) :=
  match fuel with
  | O => None
  | S fuel' =>
      match skip_ws l with
      | 34 :: r =>
          match scan_string (S (List.length r)) r [] with
          | Some (k, r1) =>
              match skip_ws r1 with
              | 58 :: r2 =>
                  match parse_value fuel' depth r2 with
                  | Some (v, r3) =>
                      match skip_ws r3 with
                      | 44 :: r4 => parse_members fuel' depth r4 ((string_of k, v) :: acc)
                      | 125 :: r4 => Some (JObj (List.rev ((string_of k, v) :: acc)), r4)
                      | _ => None
                      end
                  | None => None
                  end
              | _ => None
              end
          | None => None
          end
      | _ => None
      end
  end
with parse_elems (fuel : nat) (depth : N) (l : list N) (acc : list json)
  : option (json * list N) :=
  match fuel with
  | O => None
  | S fuel' =>
      match parse_value fuel' depth l with
      | Some (v, r) =>
          match skip_ws r with
          | 44 :: r' => parse_elems fuel' depth r' (v :: acc)
          | 93 :: r' => Some (JArr (List.rev (v :: acc)), r')
          | _ => None
          end
      | None => None
      end
  end.

(** The whole input is one JSON value surrounded by optional white space
    (json.checkValid); None is a syntax error. *)
Definition parse (data : string) : option json :=
  let l := bytes_of data in
  match parse_value (2 * List.length l + 2) 0 l with
  | Some (j, rest) =>
      match skip_ws rest with
      | [] => Some j
      | _ :: _ => None
      end
  | None => None
  end.

(** The key of an object member, folded as the decoder folds it before it
    looks for a struct field: ASCII letters to upper case, U+017F to S and
    U+212A to K (the two runes outside ASCII whose simple case folding is
    an ASCII letter). *)
Fixpoint fold_name_bytes (fuel : nat) (l : list N) : list N :=
  match fuel with
  | O => l
  | S fuel' =>
      match l with
      | 197 :: 191 :: r => 83 :: fold_name_bytes fuel' r
      | 226 :: 132 :: 170 :: r => 75 :: fold_name_bytes fuel' r
      | b :: r => byte_of (upper_byte (char_of b)) :: fold_name_bytes fuel' r
      | [] => []
      end
  end.

Definition foldName (s : string) : string :=
  string_of (fold_name_bytes (String.length s) (bytes_of s)).

(** The struct field an object key is stored into: the field whose JSON
    name is the key, else the first one equal to it after folding. *)
Definition field_for (fields : list string) (key : string) : option string :=
  match List.find (String.eqb key) fields with
  | Some f => Some f
  | None => List.find (fun f => String.eqb (foldName f) (foldName key)) fields
  end.

(** A JSON object decoded into a struct: every member whose key names a
    field is decoded into that field of the current value, the other
    members are skipped; null leaves the struct as it is. *)
Definition decode_object {T : Type} (fields : list string)
    (set : string -> json -> T -> result T) (j : json) (cur : T) : result T :=
  match j with
  | JNull => Ok cur
  | JObj members =>
      fold_left
        (fun acc kv =>
           bind acc (fun c =>
             match field_for fields (fst kv) with
             | Some f => set f (snd kv) c
             | None => Ok c
             end))
        members (Ok cur)
  | _ => Err UnmarshalTypeError
  end.

Definition decode_string (j : json) (cur : string) : result string :=
  match j with
  | JNull => Ok cur
  | JStr s => Ok s
  | _ => Err UnmarshalTypeError
  end.

(** *string *)
Definition decode_string_ptr (j : json) (cur : option string) : result (option string) :=
  match j with
  | JNull => Ok None
  | JStr s => Ok (Some s)
  | _ => Err UnmarshalTypeError
  end.

(** int and int64: the literal must be a decimal integer in range. *)
Definition decode_int64 (j : json) (cur : Z) : result Z :=
  match j with
  | JNull => Ok cur
  | JNum lit =>
      match ParseInt lit with
      | Some z => Ok z
      | None => Err UnmarshalTypeError
      end
  | _ => Err UnmarshalTypeError
  end.

(** The loop of the decoder over the elements of an array.  [old] is
    what the slice holds from position i on: element i is decoded into the
    element already there (v.Index(i) after v.SetLen(i + 1)), and into a zero
    element once the old ones are used up (the memory v.Grow(1) adds).  What
    is left of [old] at the end stays in the backing array, behind the new
    length (v.SetLen(i)). *)
Fixpoint decode_elements {T : Type} (dec : json -> T -> result T) (zero : T)
    (elems : list json) (old : list T) : result (list T * list T) :=
  match elems with
  | [] => Ok ([], old)
  | e :: elems' =>
      let target := match old with x :: _ => x | [] => zero end in
      bind (dec e target) (fun v =>
      bind (decode_elements dec zero elems' (List.tl old)) (fun r =>
        Ok (v :: fst r, snd r)))
  end.

(** A slice, as the decoder sees it, is the pair of its elements and of the
    elements its backing array holds beyond its length; the program itself
    reads the first component only.  An array is decoded into the elements
    the slice and its backing array already hold, so that a field that occurs
    twice in one object has its second array decoded into the elements of the
    first; null gives the nil slice and an empty array a new empty slice. *)
Definition decode_slice {T : Type} (dec : json -> T -> result T) (zero : T)
    (j : json) (cur : list T * list T) : result (list T * list T) :=
  match j with
  | JNull => Ok ([], [])
  | JArr [] => Ok ([], [])
  | JArr elems => decode_elements dec zero elems (fst cur ++ snd cur)%list
  | _ => Err UnmarshalTypeError
  end.

(** map[string]string: the members are stored into the current map, a
    later member with the same key replacing an earlier one. *)
Definition decode_map_string_string (j : json) (cur : gmap string string)
  : result (gmap string string) :=
  match j with
  | JNull => Ok ∅
  | JObj members =>
      fold_left
        (fun acc kv =>
           bind acc (fun m =>
             bind (decode_string (snd kv) "") (fun v => Ok (<[fst kv := v]> m))))
        members (Ok cur)
  | _ => Err UnmarshalTypeError
  end.

Section WithRuntime.
Variable rt : GoRuntime.

Definition decode_float64 (j : json) (cur : float64 rt) : result (float64 rt) :=
  match j with
  | JNull => Ok cur
  | JNum lit =>
      match strconv_ParseFloat rt lit with
      | Some f => Ok f
      | None => Err UnmarshalTypeError
      end
  | _ => Err UnmarshalTypeError
  end.

(** The dynamic values an interface{} holds after decoding. *)
Inductive any : Type :=
| AnyNil
| AnyBool (b : bool)
| AnyFloat64 (f : float64 rt)
| AnyString (s : string)
| AnySlice (l : list any)
| AnyMap (m : gmap string any).

Fixpoint decode_any (j : json) : result any :=
  match j with
  | JNull => Ok AnyNil
  | JBool b => Ok (AnyBool b)
  | JNum lit =>
      match strconv_ParseFloat rt lit with
      | Some f => Ok (AnyFloat64 f)
      | None => Err UnmarshalTypeError
      end
  | JStr s => Ok (AnyString s)
  | JArr elems =>
      bind
        ((fix go (l : list json) : result (list any) :=
            match l with
            | [] => Ok []
            | e :: l' =>
                bind (decode_any e) (fun v => bind (go l') (fun vs => Ok (v :: vs)))
            end) elems)
        (fun vs => Ok (AnySlice vs))
  | JObj members =>
      bind
        ((fix go (l : list (string * json)) (m : gmap string any)
            : result (gmap string any) :=
            match l with
            | [] => Ok m
            | (k, e) :: l' => bind (decode_any e) (fun v => go l' (<[k := v]> m))
            end) members ∅)
        (fun m => Ok (AnyMap m))
  end.

(** map[string]interface{} *)
Definition decode_map_string_any (j : json) (cur : gmap string any)
  : result (gmap string any) :=
  match j with
  | JNull => Ok ∅
  | JObj members =>
      fold_left
        (fun acc kv =>
           bind acc (fun m => bind (decode_any (snd kv)) (fun v => Ok (<[fst kv := v]> m))))
        members (Ok cur)
  | _ => Err UnmarshalTypeError
  end.

(** x.(string) *)
Definition as_string (x : option any) : option string :=
  match x with
  | Some (AnyString s) => Some s
  | _ => None
  end.

(** x.(map[string]interface{}) *)
Definition as_map (x : option any) : option (gmap string any) :=
  match x with
  | Some (AnyMap m) => Some m
  | _ => None
  end.
End WithRuntime.

Arguments AnyNil {rt}.
Arguments AnyBool {rt} b.
Arguments AnyFloat64 {rt} f.
Arguments AnyString {rt} s.
Arguments AnySlice {rt} l.
Arguments AnyMap {rt} m.
Arguments as_string {rt} x.
Arguments as_map {rt} x.

(** json.Unmarshal(data, &v) *)
Definition Unmarshal {T : Type} (dec : json -> T -> result T) (data : string) (v : T)
  : result T :=
  match parse data with
  | None => Err SyntaxError
  | Some j => dec j v
  end.

End JSON.

(** ** package adapter (internal/sqs/poller.go, second part) *)
Module Adapter.
Import GoStrings JSON.

Definition nl : string := String (char_of 10) EmptyString.

(** m[k] on a map[string]string: the zero value for a missing key. *)
Definition map_get (m : gmap string string) (k : string) : string :=
  default "" (m !! k).

Record AlertMessage : Type := {
  Message : string;
  Priority : string;
  Channel : string
}.

Record Dimension : Type := {
  dim_Name : string;
  dim_Value : string
}.

Definition Dimension_zero : Dimension := {| dim_Name := ""; dim_Value := "" |}.

Definition decode_Dimension : json -> Dimension -> result Dimension :=
  decode_object ["name"; "value"]
    (fun f v d =>
       if String.eqb f "name"
       then bind (decode_string v (dim_Name d))
              (fun x => Ok {| dim_Name := x; dim_Value := dim_Value d |})
       else bind (decode_string v (dim_Value d))
              (fun x => Ok {| dim_Name := dim_Name d; dim_Value := x |})).

Record Envelope : Type := {
  env_Message : string;
  env_Subject : string
}.

Definition Envelope_zero : Envelope := {| env_Message := ""; env_Subject := "" |}.

Definition decode_Envelope : json -> Envelope -> result Envelope :=
  decode_object ["Message"; "Subject"]
    (fun f v e =>
       if String.eqb f "Message"
       then bind (decode_string v (env_Message e))
              (fun x => Ok {| env_Message := x; env_Subject := env_Subject e |})
       else bind (decode_string v (env_Subject e))
              (fun x => Ok {| env_Message := env_Message e; env_Subject := x |})).

(** The JSON names of the fields of CloudWatchAlarm. *)
Definition CloudWatchAlarm_fields : list string :=
  ["AlarmName"; "AlarmDescription"; "AWSAccountId"; "NewStateValue"; "OldStateValue";
   "NewStateReason"; "StateChangeTime"; "Region"; "AlarmArn"; "Trigger"].

(** The JSON names of the fields of EvalMatch and of GrafanaWebhook. *)
Definition EvalMatch_fields : list string := ["value"; "metric"; "tags"].

Definition GrafanaWebhook_fields : list string :=
  ["dashboardId"; "evalMatches"; "imageUrl"; "message"; "orgId"; "panelId"; "ruleId";
   "ruleName"; "ruleUrl"; "state"; "tags"; "title"].

Section WithRuntime.
Variable rt : GoRuntime.

Record Trigger : Type := {
  tr_MetricName : string;
  tr_Namespace : string;
  tr_Statistic : string;
  tr_ComparisonOperator : string;
  tr_Threshold : float64 rt;
  tr_Period : Z;
  tr_EvaluationPeriods : Z;
  tr_Dimensions : list Dimension
}.

Definition Trigger_zero : Trigger :=
  {| tr_MetricName := ""; tr_Namespace := ""; tr_Statistic := "";
     tr_ComparisonOperator := ""; tr_Threshold := float64_zero rt;
     tr_Period := 0; tr_EvaluationPeriods := 0; tr_Dimensions := [] |}.

(** The Trigger struct while it is decoded: the struct, and what the
    backing array of its Dimensions holds beyond their length. *)
Definition set_Trigger (f : string) (v : json) (t : Trigger * list Dimension)
  : result (Trigger * list Dimension) :=
  let '(Build_Trigger mn ns st co th pe ev di, spare) := t in
  if String.eqb f "MetricName" then
    bind (decode_string v mn) (fun x => Ok (Build_Trigger x ns st co th pe ev di, spare))
  else if String.eqb f "Namespace" then
    bind (decode_string v ns) (fun x => Ok (Build_Trigger mn x st co th pe ev di, spare))
  else if String.eqb f "Statistic" then
    bind (decode_string v st) (fun x => Ok (Build_Trigger mn ns x co th pe ev di, spare))
  else if String.eqb f "ComparisonOperator" then
    bind (decode_string v co) (fun x => Ok (Build_Trigger mn ns st x th pe ev di, spare))
  else if String.eqb f "Threshold" then
    bind (decode_float64 rt v th) (fun x => Ok (Build_Trigger mn ns st co x pe ev di, spare))
  else if String.eqb f "Period" then
    bind (decode_int64 v pe) (fun x => Ok (Build_Trigger mn ns st co th x ev di, spare))
  else if String.eqb f "EvaluationPeriods" then
    bind (decode_int64 v ev) (fun x => Ok (Build_Trigger mn ns st co th pe x di, spare))
  else
    bind (decode_slice decode_Dimension Dimension_zero v (di, spare))
      (fun x => Ok (Build_Trigger mn ns st co th pe ev (fst x), snd x)).

Definition decode_Trigger
  : json -> Trigger * list Dimension -> result (Trigger * list Dimension) :=
  decode_object
    ["MetricName"; "Namespace"; "Statistic"; "ComparisonOperator"; "Threshold";
     "Period"; "EvaluationPeriods"; "Dimensions"]
    set_Trigger.

Record CloudWatchAlarm : Type := {
  cw_AlarmName : string;
  cw_AlarmDescription : option string;
  cw_AWSAccountId : string;
  cw_NewStateValue : string;
  cw_OldStateValue : string;
  cw_NewStateReason : string;
  cw_StateChangeTime : string;
  cw_Region : string;
  cw_AlarmArn : string;
  cw_Trigger : Trigger
}.

Definition CloudWatchAlarm_zero : CloudWatchAlarm :=
  {| cw_AlarmName := ""; cw_AlarmDescription := None; cw_AWSAccountId := "";
     cw_NewStateValue := ""; cw_OldStateValue := ""; cw_NewStateReason := "";
     cw_StateChangeTime := ""; cw_Region := ""; cw_AlarmArn := "";
     cw_Trigger := Trigger_zero |}.

(** The alarm while it is decoded: the struct, and what the backing array
    of Trigger.Dimensions holds beyond their length. *)
Definition set_CloudWatchAlarm (f : string) (v : json)
    (a : CloudWatchAlarm * list Dimension) : result (CloudWatchAlarm * list Dimension) :=
  let '(Build_CloudWatchAlarm an ad ac nv ov nr sc re ar tr, spare) := a in
  if String.eqb f "AlarmName" then
    bind (decode_string v an)
      (fun x => Ok (Build_CloudWatchAlarm x ad ac nv ov nr sc re ar tr, spare))
  else if String.eqb f "AlarmDescription" then
    bind (decode_string_ptr v ad)
      (fun x => Ok (Build_CloudWatchAlarm an x ac nv ov nr sc re ar tr, spare))
  else if String.eqb f "AWSAccountId" then
    bind (decode_string v ac)
      (fun x => Ok (Build_CloudWatchAlarm an ad x nv ov nr sc re ar tr, spare))
  else if String.eqb f "NewStateValue" then
    bind (decode_string v nv)
      (fun x => Ok (Build_CloudWatchAlarm an ad ac x ov nr sc re ar tr, spare))
  else if String.eqb f "OldStateValue" then
    bind (decode_string v ov)
      (fun x => Ok (Build_CloudWatchAlarm an ad ac nv x nr sc re ar tr, spare))
  else if String.eqb f "NewStateReason" then
    bind (decode_string v nr)
      (fun x => Ok (Build_CloudWatchAlarm an ad ac nv ov x sc re ar tr, spare))
  else if String.eqb f "StateChangeTime" then
    bind (decode_string v sc)
      (fun x => Ok (Build_CloudWatchAlarm an ad ac nv ov nr x re ar tr, spare))
  else if String.eqb f "Region" then
    bind (decode_string v re)
      (fun x => Ok (Build_CloudWatchAlarm an ad ac nv ov nr sc x ar tr, spare))
  else if String.eqb f "AlarmArn" then
    bind (decode_string v ar)
      (fun x => Ok (Build_CloudWatchAlarm an ad ac nv ov nr sc re x tr, spare))
  else
    bind (decode_Trigger v (tr, spare))
      (fun x => Ok (Build_CloudWatchAlarm an ad ac nv ov nr sc re ar (fst x), snd x)).

(** json.Unmarshal into a variable that holds the zero value: nothing lies
    behind the slice. *)
Definition decode_CloudWatchAlarm (j : json) (a : CloudWatchAlarm)
  : result CloudWatchAlarm :=
  bind (decode_object CloudWatchAlarm_fields set_CloudWatchAlarm j (a, []))
    (fun x => Ok (fst x)).

Record EvalMatch : Type := {
  em_Value : float64 rt;
  em_Metric : string;
  em_Tags : gmap string string
}.

Definition EvalMatch_zero : EvalMatch :=
  {| em_Value := float64_zero rt; em_Metric := ""; em_Tags := ∅ |}.

Definition set_EvalMatch (f : string) (v : json) (m : EvalMatch) : result EvalMatch :=
  if String.eqb f "value" then
    bind (decode_float64 rt v (em_Value m))
      (fun x => Ok {| em_Value := x; em_Metric := em_Metric m; em_Tags := em_Tags m |})
  else if String.eqb f "metric" then
    bind (decode_string v (em_Metric m))
      (fun x => Ok {| em_Value := em_Value m; em_Metric := x; em_Tags := em_Tags m |})
  else
    bind (decode_map_string_string v (em_Tags m))
      (fun x => Ok {| em_Value := em_Value m; em_Metric := em_Metric m; em_Tags := x |}).

Definition decode_EvalMatch : json -> EvalMatch -> result EvalMatch :=
  decode_object EvalMatch_fields set_EvalMatch.

Record GrafanaWebhook : Type := {
  gw_DashboardID : Z;
  gw_EvalMatches : list EvalMatch;
  gw_ImageURL : string;
  gw_Message : string;
  gw_OrgID : Z;
  gw_PanelID : Z;
  gw_RuleID : Z;
  gw_RuleName : string;
  gw_RuleURL : string;
  gw_State : string;
  gw_Tags : gmap string string;
  gw_Title : string
}.

Definition GrafanaWebhook_zero : GrafanaWebhook :=
  {| gw_DashboardID := 0; gw_EvalMatches := []; gw_ImageURL := ""; gw_Message := "";
     gw_OrgID := 0; gw_PanelID := 0; gw_RuleID := 0; gw_RuleName := "";
     gw_RuleURL := ""; gw_State := ""; gw_Tags := ∅; gw_Title := "" |}.

(** The webhook while it is decoded: the struct, and what the backing
    array of EvalMatches holds beyond their length. *)
Definition set_GrafanaWebhook (f : string) (v : json)
    (g : GrafanaWebhook * list EvalMatch) : result (GrafanaWebhook * list EvalMatch) :=
  let '(Build_GrafanaWebhook di em iu me oi pi ri rn ru st tg ti, spare) := g in
  if String.eqb f "dashboardId" then
    bind (decode_int64 v di)
      (fun x => Ok (Build_GrafanaWebhook x em iu me oi pi ri rn ru st tg ti, spare))
  else if String.eqb f "evalMatches" then
    bind (decode_slice decode_EvalMatch EvalMatch_zero v (em, spare))
      (fun x => Ok (Build_GrafanaWebhook di (fst x) iu me oi pi ri rn ru st tg ti, snd x))
  else if String.eqb f "imageUrl" then
    bind (decode_string v iu)
      (fun x => Ok (Build_GrafanaWebhook di em x me oi pi ri rn ru st tg ti, spare))
  else if String.eqb f "message" then
    bind (decode_string v me)
      (fun x => Ok (Build_GrafanaWebhook di em iu x oi pi ri rn ru st tg ti, spare))
  else if String.eqb f "orgId" then
    bind (decode_int64 v oi)
      (fun x => Ok (Build_GrafanaWebhook di em iu me x pi ri rn ru st tg ti, spare))
  else if String.eqb f "panelId" then
    bind (decode_int64 v pi)
      (fun x => Ok (Build_GrafanaWebhook di em iu me oi x ri rn ru st tg ti, spare))
  else if String.eqb f "ruleId" then
    bind (decode_int64 v ri)
      (fun x => Ok (Build_GrafanaWebhook di em iu me oi pi x rn ru st tg ti, spare))
  else if String.eqb f "ruleName" then
    bind (decode_string v rn)
      (fun x => Ok (Build_GrafanaWebhook di em iu me oi pi ri x ru st tg ti, spare))
  else if String.eqb f "ruleUrl" then
    bind (decode_string v ru)
      (fun x => Ok (Build_GrafanaWebhook di em iu me oi pi ri rn x st tg ti, spare))
  else if String.eqb f "state" then
    bind (decode_string v st)
      (fun x => Ok (Build_GrafanaWebhook di em iu me oi pi ri rn ru x tg ti, spare))
  else if String.eqb f "tags" then
    bind (decode_map_string_string v tg)
      (fun x => Ok (Build_GrafanaWebhook di em iu me oi pi ri rn ru st x ti, spare))
  else
    bind (decode_string v ti)
      (fun x => Ok (Build_GrafanaWebhook di em iu me oi pi ri rn ru st tg x, spare)).

Definition decode_GrafanaWebhook (j : json) (g : GrafanaWebhook) : result GrafanaWebhook :=
  bind (decode_object GrafanaWebhook_fields set_GrafanaWebhook j (g, []))
    (fun x => Ok (fst x)).

(** The anonymous struct of AdaptGrafanaWebhook (the Alertmanager shape). *)
Record AlertmanagerWebhook : Type := {
  am_Alerts : list (gmap string (any rt));
  am_CommonLabels : gmap string string;
  am_Status : string;
  am_Title : string;
  am_Message : string
}.

Definition AlertmanagerWebhook_zero : AlertmanagerWebhook :=
  {| am_Alerts := []; am_CommonLabels := ∅; am_Status := ""; am_Title := "";
     am_Message := "" |}.

(** The webhook while it is decoded: the struct, and what the backing
    array of Alerts holds beyond their length. *)
Definition set_AlertmanagerWebhook (f : string) (v : json)
    (w : AlertmanagerWebhook * list (gmap string (any rt)))
  : result (AlertmanagerWebhook * list (gmap string (any rt))) :=
  let '(Build_AlertmanagerWebhook al cl st ti me, spare) := w in
  if String.eqb f "alerts" then
    bind (decode_slice (decode_map_string_any rt) ∅ v (al, spare))
      (fun x => Ok (Build_AlertmanagerWebhook (fst x) cl st ti me, snd x))
  else if String.eqb f "commonLabels" then
    bind (decode_map_string_string v cl)
      (fun x => Ok (Build_AlertmanagerWebhook al x st ti me, spare))
  else if String.eqb f "status" then
    bind (decode_string v st) (fun x => Ok (Build_AlertmanagerWebhook al cl x ti me, spare))
  else if String.eqb f "title" then
    bind (decode_string v ti) (fun x => Ok (Build_AlertmanagerWebhook al cl st x me, spare))
  else
    bind (decode_string v me) (fun x => Ok (Build_AlertmanagerWebhook al cl st ti x, spare)).

Definition decode_AlertmanagerWebhook (j : json) (w : AlertmanagerWebhook)
  : result AlertmanagerWebhook :=
  bind (decode_object ["alerts"; "commonLabels"; "status"; "title"; "message"]
          set_AlertmanagerWebhook j (w, []))
    (fun x => Ok (fst x)).

(** This will be rarely used as this is just a fallback if mapping is not
    done via configmap. *)
Definition determinePriority (alarm : CloudWatchAlarm) : string :=
  let alarmName := ToLower rt (cw_AlarmName alarm) in
  let namespace := tr_Namespace (cw_Trigger alarm) in
  if Contains alarmName "prod" || Contains alarmName "production" then "P0"
  else if Contains namespace "RDS" || Contains namespace "DynamoDB" then "P0"
  else if Contains namespace "ELB" || Contains namespace "5xx" then "P0"
  else if Contains alarmName "cpu" || Contains alarmName "memory" then "P0"
  else if Contains alarmName "redis" || Contains alarmName "elasticache" then "P1"
  else if Contains alarmName "qa" || Contains alarmName "staging" then "P2"
  else "P2".

Definition formatDimensionsIndented (dimensions : list Dimension) : string :=
  match dimensions with
  | [] => "   → None"
  | _ =>
      Join (List.map (fun dim => "   → " +:+ dim_Name dim +:+ ": " +:+ dim_Value dim)
              dimensions) nl
  end.

Definition formatTimestamp (timeStr : string) : string :=
  match time_Parse rt "2006-01-02T15:04:05.000+0000" timeStr with
  | None => timeStr
  | Some t => time_Format rt t "2006-01-02 15:04:05 UTC"
  end.

Definition formatSlackMessage (alarm : CloudWatchAlarm) : string :=
  let '(emoji, stateColor) :=
    if String.eqb (cw_NewStateValue alarm) "ALARM" then ("🚨", "`🔴 ALARM`")
    else if String.eqb (cw_NewStateValue alarm) "OK" then ("✅", "`🟢 OK`")
    else if String.eqb (cw_NewStateValue alarm) "INSUFFICIENT_DATA"
    then ("⚠️", "`🟡 INSUFFICIENT_DATA`")
    else ("📊", "`" +:+ cw_NewStateValue alarm +:+ "`") in
  let oldStateColor :=
    if String.eqb (cw_OldStateValue alarm) "ALARM" then "`🔴 ALARM`"
    else if String.eqb (cw_OldStateValue alarm) "OK" then "`🟢 OK`"
    else if String.eqb (cw_OldStateValue alarm) "INSUFFICIENT_DATA"
    then "`🟡 INSUFFICIENT_DATA`"
    else "`" +:+ cw_OldStateValue alarm +:+ "`" in
  let tr := cw_Trigger alarm in
  emoji +:+ " *CloudWatch Alarm: " +:+ cw_AlarmName alarm +:+ "*" +:+ nl +:+
  "• *From:* " +:+ oldStateColor +:+ " → *To:* " +:+ stateColor +:+ nl +:+
  "• *Metric:* `" +:+ tr_Namespace tr +:+ "/" +:+ tr_MetricName tr +:+ "`" +:+ nl +:+
  "• *Threshold:* `" +:+ tr_ComparisonOperator tr +:+ " " +:+
    fmt_f rt 1 (tr_Threshold tr) +:+ "`" +:+ nl +:+
  "• *Period:* `" +:+ itoa (tr_Period tr) +:+ "s over " +:+
    itoa (tr_EvaluationPeriods tr) +:+ " evaluations`" +:+ nl +:+
  "• *Dimensions:*" +:+ nl +:+
  formatDimensionsIndented (tr_Dimensions tr) +:+ nl +:+
  "• *Region:* `" +:+ cw_Region alarm +:+ "`" +:+ nl +:+
  "• *Reason:* " +:+ cw_NewStateReason alarm +:+ nl +:+
  "• *Time:* `" +:+ formatTimestamp (cw_StateChangeTime alarm) +:+ "`".

Definition AdaptSQSMessage (body : string) : result string :=
  bind (Unmarshal decode_Envelope body Envelope_zero) (fun envelope =>
  bind (Unmarshal decode_CloudWatchAlarm (env_Message envelope) CloudWatchAlarm_zero)
    (fun alarm => Ok (formatSlackMessage alarm))).

Definition AdaptSQSMessageWithRouting (body : string)
    (channels alarmChannels : gmap string string) : result AlertMessage :=
  bind (Unmarshal decode_Envelope body Envelope_zero) (fun envelope =>
  bind (Unmarshal decode_CloudWatchAlarm (env_Message envelope) CloudWatchAlarm_zero)
    (fun alarm =>
       (* First check if there's a specific mapping for this alarm *)
       let channel := map_get alarmChannels (cw_AlarmName alarm) in
       (* If no specific mapping, use priority-based routing *)
       let channel :=
         if String.eqb channel "" then
           let priority := determinePriority alarm in
           let channel := map_get channels priority in
           if String.eqb channel "" then map_get channels "default" else channel
         else channel in
       let priority := determinePriority alarm in
       Ok {| Message := formatSlackMessage alarm;
             Priority := priority;
             Channel := channel |})).

Definition determineGrafanaPriority (alert : GrafanaWebhook) : string :=
  let tagged :=
    (* First check if there's an explicit channel tag *)
    match gw_Tags alert !! "channel" with
    | Some channelTag =>
        let u := ToUpper rt channelTag in
        if String.eqb u "P0" then Some "P0"
        else if String.eqb u "P1" then Some "P1"
        else if String.eqb u "P2" then Some "P2"
        else None
    | None => None
    end in
  match tagged with
  | Some p => p
  | None =>
      (* Fallback to heuristic-based priority logic *)
      let ruleName := ToLower rt (gw_RuleName alert) in
      let title := ToLower rt (gw_Title alert) in
      if Contains ruleName "critical" || Contains title "critical" then "P0"
      else if Contains ruleName "prod" || Contains title "prod" then "P0"
      else if Contains ruleName "down" || Contains title "down" then "P0"
      else if Contains ruleName "high" || Contains title "high" then "P1"
      else if Contains ruleName "error" || Contains title "error" then "P1"
      else if Contains ruleName "warning" || Contains title "warning" then "P2"
      else if Contains ruleName "staging" || Contains title "staging" then "P2"
      else "P2"
  end.

(** The entries a [range] over a map may visit, in the order it visits
    them: any arrangement of the entries of the map. *)
Definition range_order {V : Type} (m : gmap string V) (order : list (string * V)) : Prop :=
  order ≡ₚ map_to_list m.

(** Only show important tags, skip noise:
    k != "__name__" && k != "job" && k != "instance" *)
Definition isImportantMatchTag (kv : string * string) : bool :=
  negb (String.eqb (fst kv) "__name__")
  && negb (String.eqb (fst kv) "job")
  && negb (String.eqb (fst kv) "instance").

(** Skip channel tag as it's used for routing: k != "channel" && v != "" *)
Definition isImportantTag (kv : string * string) : bool :=
  negb (String.eqb (fst kv) "channel") && negb (String.eqb (snd kv) "").

(** The loop over match.Tags and the text it adds. *)
Definition matchTagsSuffix (order : list (string * string)) : string :=
  let importantTags :=
    List.map (fun kv => "`" +:+ fst kv +:+ "=" +:+ snd kv +:+ "`")
      (List.filter isImportantMatchTag order) in
  match importantTags with
  | [] => ""
  | _ => " (" +:+ Join importantTags ", " +:+ ")"
  end.

(** The body of the loop over alert.EvalMatches; [order] is the order in
    which the inner loop visits match.Tags. *)
Definition formatEvalMatch (em : EvalMatch) (order : list (string * string)) : string :=
  let valueStr :=
    if float64_is_int64 rt (em_Value em)
    then fmt_f rt 0 (em_Value em)
    else fmt_f rt 2 (em_Value em) in
  nl +:+ "   → `" +:+ em_Metric em +:+ "`: **" +:+ valueStr +:+ "**" +:+
  (if (0 <? size (em_Tags em))%nat then matchTagsSuffix order else "").

(** [matchOrders] gives, for every element of alert.EvalMatches, the
    order of the range over its tags; [tagOrder] is the order of the
    range over alert.Tags. *)
Definition formatGrafanaSlackMessage (matchOrders : list (list (string * string)))
    (tagOrder : list (string * string)) (alert : GrafanaWebhook) : string :=
  let u := ToUpper rt (gw_State alert) in
  let '(emoji, stateColor) :=
    if String.eqb u "ALERTING" then ("🚨", "`🔴 ALERTING`")
    else if String.eqb u "OK" then ("✅", "`🟢 OK`")
    else if String.eqb u "NO_DATA" then ("⚠️", "`🟡 NO_DATA`")
    else if String.eqb u "PENDING" then ("⏳", "`🟡 PENDING`")
    else ("📊", "`" +:+ gw_State alert +:+ "`") in
  let message :=
    emoji +:+ " *Grafana Alert: " +:+ gw_Title alert +:+ "*" +:+ nl +:+
    "• *State:* " +:+ stateColor in
  (* Add rule name only if it's different from title and not empty *)
  let message :=
    if negb (String.eqb (gw_RuleName alert) "")
       && negb (String.eqb (gw_RuleName alert) (gw_Title alert))
    then message +:+ nl +:+ "• *Rule:* `" +:+ gw_RuleName alert +:+ "`"
    else message in
  (* Add message if not empty *)
  let message :=
    if negb (String.eqb (gw_Message alert) "")
    then message +:+ nl +:+ "• *Description:* " +:+ gw_Message alert
    else message in
  (* Add evaluation matches *)
  let message :=
    match gw_EvalMatches alert with
    | [] => message
    | matches =>
        fold_left (fun msg mo => msg +:+ formatEvalMatch (fst mo) (snd mo))
          (combine matches matchOrders)
          (message +:+ nl +:+ "• *Metrics:*")
    end in
  (* Add important tags only *)
  let message :=
    if (0 <? size (gw_Tags alert))%nat then
      let importantTags :=
        List.map (fun kv => "   → `" +:+ fst kv +:+ "`: " +:+ snd kv)
          (List.filter isImportantTag tagOrder) in
      match importantTags with
      | [] => message
      | _ => message +:+ nl +:+ "• *Labels:*" +:+ nl +:+ Join importantTags nl
      end
    else message in
  (* Add rule URL if available *)
  if negb (String.eqb (gw_RuleURL alert) "")
  then message +:+ nl +:+ "• *Dashboard:* <" +:+ gw_RuleURL alert +:+ "|View Alert Rule>"
  else message.

(** alert[key].(map[string]interface{})[name].(string) *)
Definition nested_string (alert : gmap string (any rt)) (key name : string)
  : option string :=
  match as_map (alert !! key) with
  | Some m => as_string (m !! name)
  | None => None
  end.

Definition isNoDataText (s : string) : bool :=
  Contains (ToLower rt s) "nodata"
  || Contains (ToLower rt s) "no data"
  || Contains (ToLower rt s) "data source".

(** The loop that checks whether any alert is in NoData state: it sets
    the priority and leaves at the first alert whose alertname label or
    description annotation carries a NoData indicator. *)
Fixpoint noDataPriority (alerts : list (gmap string (any rt))) (priority : string)
  : string :=
  match alerts with
  | [] => priority
  | alert :: rest =>
      if match nested_string alert "labels" "alertname" with
         | Some alertnameStr => isNoDataText alertnameStr
         | None => false
         end
      then "P1"
      else if match nested_string alert "annotations" "description" with
              | Some descStr => isNoDataText descStr
              | None => false
              end
      then "P1"
      else noDataPriority rest priority
  end.

(** The channel tag: commonLabels first, then the labels of the first alert. *)
Definition extractChannelTag (webhook : AlertmanagerWebhook) : string :=
  let channelTag := map_get (am_CommonLabels webhook) "channel" in
  if String.eqb channelTag "" && (0 <? List.length (am_Alerts webhook))%nat then
    match am_Alerts webhook with
    | first :: _ =>
        match nested_string first "labels" "channel" with
        | Some chStr => chStr
        | None => channelTag
        end
    | [] => channelTag
    end
  else channelTag.

(** The priority adaptAlertmanagerWebhook settles on. *)
Definition alertmanagerPriority (webhook : AlertmanagerWebhook) : string :=
  let channelTag := extractChannelTag webhook in
  (* Check for NoData state and route to P1 *)
  let priority :=
    if String.eqb (ToUpper rt (am_Status webhook)) "FIRING"
       && (0 <? List.length (am_Alerts webhook))%nat
    then noDataPriority (am_Alerts webhook) ""
    else "" in
  (* If priority not set by NoData logic, use channel tag or fallback *)
  if String.eqb priority "" then
    if negb (String.eqb channelTag "") then
      let u := ToUpper rt channelTag in
      if String.eqb u "P0" then "P0"
      else if String.eqb u "P1" then "P1"
      else if String.eqb u "P2" then "P2"
      else "P2"
    else "P2"
  else priority.

Definition statusBadge (status : string) : string * string :=
  let u := ToUpper rt status in
  if String.eqb u "FIRING" then ("🚨", "`🔴 FIRING`")
  else if String.eqb u "RESOLVED" then ("✅", "`🟢 RESOLVED`")
  else ("📊", "`" +:+ status +:+ "`").

(** commonLabels["alertname"], else the alertname label of the first alert. *)
Definition displayAlertname (webhook : AlertmanagerWebhook) : string :=
  let alertname := map_get (am_CommonLabels webhook) "alertname" in
  if String.eqb alertname "" then
    match am_Alerts webhook with
    | first :: _ =>
        match nested_string first "labels" "alertname" with
        | Some nameStr => nameStr
        | None => alertname
        end
    | [] => alertname
    end
  else alertname.

(** The description line: the description annotation if the key exists,
    else the summary annotation. *)
Definition descriptionLine (annotations : gmap string (any rt)) : string :=
  match annotations !! "description" with
  | Some desc =>
      match as_string (Some desc) with
      | Some descStr =>
          if negb (String.eqb descStr "")
          then nl +:+ "• *Description:* " +:+ descStr else ""
      | None => ""
      end
  | None =>
      match annotations !! "summary" with
      | Some summary =>
          match as_string (Some summary) with
          | Some summaryStr =>
              if negb (String.eqb summaryStr "")
              then nl +:+ "• *Description:* " +:+ summaryStr else ""
          | None => ""
          end
      | None => ""
      end
  end.

(** One pass of the loop that adds all other annotations. *)
Definition annotationLine (kv : string * any rt) : string :=
  let '(key, value) := kv in
  if String.eqb key "description" || String.eqb key "summary" then ""
  else
    match as_string (Some value) with
    | Some valueStr =>
        if negb (String.eqb valueStr "") then
          let formattedKey := ReplaceAll key "_" " " in
          let formattedKey :=
            if (0 <? String.length formattedKey)%nat
            then ToUpper rt (take_bytes 1 formattedKey) +:+ drop_bytes 1 formattedKey
            else formattedKey in
          nl +:+ "• *" +:+ formattedKey +:+ ":* " +:+ valueStr
        else ""
    | None => ""
    end.

(** alert[key].(string), kept when it is not empty. *)
Definition nonempty_string (alert : gmap string (any rt)) (key : string) : option string :=
  match as_string (alert !! key) with
  | Some s => if String.eqb s "" then None else Some s
  | None => None
  end.

(** [annotationOrder] is the order in which the range over the
    annotations of the first alert visits them. *)
Definition formatEnhancedAlertMessage (annotationOrder : list (string * any rt))
    (webhook : AlertmanagerWebhook) : string :=
  let '(emoji, stateColor) := statusBadge (am_Status webhook) in
  let alertname := displayAlertname webhook in
  let message :=
    emoji +:+ " *Grafana Alert: " +:+ alertname +:+ "*" +:+ nl +:+
    "• *State:* " +:+ stateColor in
  match am_Alerts webhook with
  | [] => message
  | first :: _ =>
      (* Add annotations from the alert *)
      let message :=
        match as_map (first !! "annotations") with
        | Some annotations =>
            fold_left (fun msg kv => msg +:+ annotationLine kv) annotationOrder
              (message +:+ descriptionLine annotations)
        | None => message
        end in
      (* Add valueString as raw data if available *)
      let message :=
        match nonempty_string first "valueString" with
        | Some valueString => message +:+ nl +:+ "• *ValueString:* " +:+ valueString
        | None => message
        end in
      (* Add silence URL if available *)
      let message :=
        match nonempty_string first "silenceURL" with
        | Some silenceURL =>
            message +:+ nl +:+ "• *Silence:* <" +:+ silenceURL +:+ "|Silence Alert>"
        | None => message
        end in
      (* Add generator URL if available *)
      let message :=
        match nonempty_string first "generatorURL" with
        | Some generatorURL =>
            message +:+ nl +:+ "• *Dashboard:* <" +:+ generatorURL +:+ "|View Alert Rule>"
        | None => message
        end in
      (* Add dashboard URL if different from generator URL *)
      match nonempty_string first "dashboardURL" with
      | Some dashboardURL =>
          let generatorURL := default "" (as_string (first !! "generatorURL")) in
          if negb (String.eqb dashboardURL generatorURL)
          then message +:+ nl +:+ "• *Dashboard:* <" +:+ dashboardURL +:+ "|View Dashboard>"
          else message
      | None => message
      end
  end.

Definition formatBasicAlertMessage (webhook : AlertmanagerWebhook) : string :=
  let '(emoji, stateColor) := statusBadge (am_Status webhook) in
  let alertname := displayAlertname webhook in
  let message :=
    emoji +:+ " *Grafana Alert: " +:+ alertname +:+ "*" +:+ nl +:+
    "• *State:* " +:+ stateColor in
  match am_Alerts webhook with
  | [] => message
  | first :: _ =>
      let message :=
        match as_map (first !! "annotations") with
        | Some annotations => message +:+ descriptionLine annotations
        | None => message
        end in
      match nonempty_string first "generatorURL" with
      | Some generatorURL =>
          message +:+ nl +:+ "• *Dashboard:* <" +:+ generatorURL +:+ "|View Alert Rule>"
      | None => message
      end
  end.

Definition formatAlertmanagerSlackMessage (annotationOrder : list (string * any rt))
    (webhook : AlertmanagerWebhook) : string :=
  (* Try enhanced formatting first *)
  let enhancedMessage := formatEnhancedAlertMessage annotationOrder webhook in
  if negb (String.eqb enhancedMessage "") then enhancedMessage
  else (* Fallback to basic format *) formatBasicAlertMessage webhook.

Definition adaptAlertmanagerWebhook (annotationOrder : list (string * any rt))
    (webhook : AlertmanagerWebhook) (channels alarmChannels : gmap string string)
  : result AlertMessage :=
  let priority := alertmanagerPriority webhook in
  (* Get alertname for specific mapping check *)
  let alertname := map_get (am_CommonLabels webhook) "alertname" in
  (* First check if there's a specific mapping for this alert *)
  let channel := map_get alarmChannels alertname in
  (* If no specific mapping, use priority-based routing *)
  let channel :=
    if String.eqb channel "" then
      let channel := map_get channels priority in
      if String.eqb channel "" then map_get channels "default" else channel
    else channel in
  Ok {| Message := formatAlertmanagerSlackMessage annotationOrder webhook;
        Priority := priority;
        Channel := channel |}.

(** The orders in which the map ranges of one adaptation run. *)
Record RangeOrders : Type := {
  ord_annotations : list (string * any rt);
  ord_matchTags : list (list (string * string));
  ord_tags : list (string * string)
}.

(** First try modern Alertmanager format:
    err == nil && len(alertmanagerWebhook.Alerts) > 0 *)
Definition modernWebhook (body : string) : option AlertmanagerWebhook :=
  match Unmarshal decode_AlertmanagerWebhook body AlertmanagerWebhook_zero with
  | Ok alertmanagerWebhook =>
      if (0 <? List.length (am_Alerts alertmanagerWebhook))%nat
      then Some alertmanagerWebhook else None
  | Err _ => None
  end.

Definition AdaptGrafanaWebhook (orders : RangeOrders) (body : string)
    (channels alarmChannels : gmap string string) : result AlertMessage :=
  match modernWebhook body with
  | Some alertmanagerWebhook =>
      adaptAlertmanagerWebhook (ord_annotations orders) alertmanagerWebhook
        channels alarmChannels
  | None =>
      (* Fallback to legacy format *)
      match Unmarshal decode_GrafanaWebhook body GrafanaWebhook_zero with
      | Err err => Err (WrappedError "failed to unmarshal Grafana webhook: " err)
      | Ok grafanaAlert =>
          (* First check if there's a specific mapping for this rule *)
          let channel := map_get alarmChannels (gw_RuleName grafanaAlert) in
          (* If no specific mapping, use priority-based routing *)
          let channel :=
            if String.eqb channel "" then
              let priority := determineGrafanaPriority grafanaAlert in
              let channel := map_get channels priority in
              if String.eqb channel "" then map_get channels "default" else channel
            else channel in
          let priority := determineGrafanaPriority grafanaAlert in
          Ok {| Message :=
                  formatGrafanaSlackMessage (ord_matchTags orders) (ord_tags orders)
                    grafanaAlert;
                Priority := priority;
                Channel := channel |}
      end
  end.

End WithRuntime.

End Adapter.

(** ** package sqs (internal/sqs/poller.go, first part): the polling loop *)
Module Sqs.

(** types.Message: both fields are pointers. *)
Record SQSMessage : Type := {
  Body : option string;
  ReceiptHandle : option string
}.

(** What the loop does to the outside world.  A message is named by the
    round of the outer loop and its position in the batch of that round. *)
Inductive event : Type :=
| Received (round : nat) (ok : bool)
| Slept (round : nat)
| Handled (round idx : nat) (ok : bool)
| Deleted (round idx : nat) (handle : option string) (ok : bool).

Inductive outcome : Type :=
| Running     (* the loop goes on *)
| Panicked.   (* nil pointer dereference of msg.Body *)

Section Poll.
(** The state of everything outside the poller: the queue, the chat
    platform, the handler's closure. *)
Variable World : Type.
(** p.Client.ReceiveMessage: None is an error. *)
Variable ReceiveMessage : World -> option (list SQSMessage) * World.
(** p.Client.DeleteMessage: false is an error. *)
Variable DeleteMessage : option string -> World -> bool * World.
(** The handler: true when it returns a nil error. *)
Variable handler : string -> World -> bool * World.

(** for _, msg := range out.Messages { ... } *)
Fixpoint processMessages (round idx : nat) (msgs : list SQSMessage)
    (w : World) (trace : list event) : outcome * World * list event :=
  match msgs with
  | [] => (Running, w, trace)
  | msg :: rest =>
      match Body msg with
      | None => (Panicked, w, trace)
      | Some body =>
          let '(ok, w1) := handler body w in
          if ok then
            (* Delete message on success *)
            let '(deleted, w2) := DeleteMessage (ReceiptHandle msg) w1 in
            processMessages round (S idx) rest w2
              (trace ++ [Handled round idx true;
                         Deleted round idx (ReceiptHandle msg) deleted])%list
          else
            processMessages round (S idx) rest w1
              (trace ++ [Handled round idx false])%list
      end
  end.

(** One pass through the body of the outer for loop. *)
Definition pollOnce (round : nat) (w : World) (trace : list event)
  : outcome * World * list event :=
  match ReceiveMessage w with
  | (None, w1) => (Running, w1, (trace ++ [Received round false; Slept round])%list)
  | (Some msgs, w1) =>
      processMessages round 0 msgs w1 (trace ++ [Received round true])%list
  end.

(** The first [rounds] passes of the endless loop of Poll, numbered from
    [round]. *)
Fixpoint Poll (rounds round : nat) (w : World) (trace : list event)
  : outcome * World * list event :=
  match rounds with
  | O => (Running, w, trace)
  | S rounds' =>
      match pollOnce round w trace with
      | (Running, w1, trace1) => Poll rounds' (S round) w1 trace1
      | (Panicked, w1, trace1) => (Panicked, w1, trace1)
      end
  end.
End Poll.

End Sqs.

(** ** package notifier (notifier/slack_notifier.go) *)
Module Notifier.
Import GoStrings.

Record ButtonBlockElement : Type := {
  ActionID : string;
  Value : string;
  ButtonText : string;
  Style : string
}.

(** What PostMessage is given: the channel, the section and action blocks
    and the fallback text. *)
Record SlackPost : Type := {
  post_channel : string;
  post_header : string;
  post_blockID : string;
  post_buttons : list ButtonBlockElement;
  post_text : string
}.

Record SlackNotifier : Type := {
  channel : string
}.

Definition NewSlackNotifier (botToken channel : string) : SlackNotifier :=
  {| channel := channel |}.

(** The message NotifyWithButtons hands to the client. *)
Definition buildPost (s : SlackNotifier) (message alertID : string) : SlackPost :=
  let alertID :=
    if String.eqb alertID "" then "alert_" +:+ itoa (Z.of_nat (String.length message))
    else alertID in
  let acknowledgeBtn :=
    {| ActionID := "acknowledge"; Value := alertID;
       ButtonText := "✅ Acknowledge"; Style := "primary" |} in
  let dismissBtn :=
    {| ActionID := "dismiss"; Value := alertID;
       ButtonText := "✖️ Dismiss"; Style := "danger" |} in
  {| post_channel := channel s;
     post_header := "🚨 *Alert*" +:+ Adapter.nl +:+ message;
     post_blockID := "alert_actions";
     post_buttons := [acknowledgeBtn; dismissBtn];
     post_text := message |}.

Section Client.
(** s.client.PostMessage: true when it returns a nil error. *)
Variable PostMessage : SlackPost -> bool.

Definition NotifyWithButtons (s : SlackNotifier) (message alertID : string) : bool :=
  PostMessage (buildPost s message alertID).

Definition Notify (s : SlackNotifier) (message : string) : bool :=
  NotifyWithButtons s message "".
End Client.

End Notifier.

(** ** package main: the handler given to the poller *)
Module Main.
Import JSON.

Section Handler.
Variable rt : GoRuntime.
Variable PostMessage : Notifier.SlackPost -> bool.
Variable SlackBotToken : string.
Variables SlackChannels AlarmChannels : gmap string string.

(** handler := func(body string) error: true when the error is nil. *)
Definition handler (body : string) : bool :=
  match Adapter.AdaptSQSMessageWithRouting rt body SlackChannels AlarmChannels with
  | Err _ => false
  | Ok alertMsg =>
      let channelNotifier :=
        Notifier.NewSlackNotifier SlackBotToken (Adapter.Channel alertMsg) in
      Notifier.Notify PostMessage channelNotifier (Adapter.Message alertMsg)
  end.
End Handler.

End Main.

(** ** package server: the interactive callback *)
Module Server.
Import GoStrings JSON.

Record Action : Type := {
  act_ActionID : string;
  act_Value : string
}.

Definition Action_zero : Action := {| act_ActionID := ""; act_Value := "" |}.

Definition decode_Action : json -> Action -> result Action :=
  decode_object ["action_id"; "value"]
    (fun f v a =>
       if String.eqb f "action_id"
       then bind (decode_string v (act_ActionID a))
              (fun x => Ok {| act_ActionID := x; act_Value := act_Value a |})
       else bind (decode_string v (act_Value a))
              (fun x => Ok {| act_ActionID := act_ActionID a; act_Value := x |})).

Record Block : Type := {
  blk_Type : string;
  blk_Text : string      (* block.Text.Text *)
}.

Definition Block_zero : Block := {| blk_Type := ""; blk_Text := "" |}.

(** struct { Text string `json:"text"` } *)
Definition decode_TextObject : json -> string -> result string :=
  decode_object ["text"] (fun _ v t => decode_string v t).

Definition decode_Block : json -> Block -> result Block :=
  decode_object ["type"; "text"]
    (fun f v b =>
       if String.eqb f "type"
       then bind (decode_string v (blk_Type b))
              (fun x => Ok {| blk_Type := x; blk_Text := blk_Text b |})
       else bind (decode_TextObject v (blk_Text b))
              (fun x => Ok {| blk_Type := blk_Type b; blk_Text := x |})).

Record SlackMessage : Type := {
  sm_Text : string;
  sm_Blocks : list Block
}.

Definition SlackMessage_zero : SlackMessage := {| sm_Text := ""; sm_Blocks := [] |}.

(** The message while it is decoded: the struct, and what the backing
    array of Blocks holds beyond their length. *)
Definition decode_SlackMessage
  : json -> SlackMessage * list Block -> result (SlackMessage * list Block) :=
  decode_object ["text"; "blocks"]
    (fun f v m =>
       if String.eqb f "text"
       then bind (decode_string v (sm_Text (fst m)))
              (fun x => Ok ({| sm_Text := x; sm_Blocks := sm_Blocks (fst m) |}, snd m))
       else bind (decode_slice decode_Block Block_zero v (sm_Blocks (fst m), snd m))
              (fun x => Ok ({| sm_Text := sm_Text (fst m); sm_Blocks := fst x |}, snd x))).

(** struct { Name string `json:"name"` } *)
Definition decode_User : json -> string -> result string :=
  decode_object ["name"] (fun _ v n => decode_string v n).

Record SlackPayload : Type := {
  sp_Type : string;
  sp_Actions : list Action;
  sp_User_Name : string;
  sp_ResponseURL : string;
  sp_Message : SlackMessage
}.

Definition SlackPayload_zero : SlackPayload :=
  {| sp_Type := ""; sp_Actions := []; sp_User_Name := ""; sp_ResponseURL := "";
     sp_Message := SlackMessage_zero |}.

(** The payload while it is decoded: the struct, and what the backing
    arrays of Actions and of Message.Blocks hold beyond their lengths. *)
Definition set_SlackPayload (f : string) (v : json)
    (p : SlackPayload * (list Action * list Block))
  : result (SlackPayload * (list Action * list Block)) :=
  let '(Build_SlackPayload ty ac us ru me, (spareActions, spareBlocks)) := p in
  if String.eqb f "type" then
    bind (decode_string v ty)
      (fun x => Ok (Build_SlackPayload x ac us ru me, (spareActions, spareBlocks)))
  else if String.eqb f "actions" then
    bind (decode_slice decode_Action Action_zero v (ac, spareActions))
      (fun x => Ok (Build_SlackPayload ty (fst x) us ru me, (snd x, spareBlocks)))
  else if String.eqb f "user" then
    bind (decode_User v us)
      (fun x => Ok (Build_SlackPayload ty ac x ru me, (spareActions, spareBlocks)))
  else if String.eqb f "response_url" then
    bind (decode_string v ru)
      (fun x => Ok (Build_SlackPayload ty ac us x me, (spareActions, spareBlocks)))
  else
    bind (decode_SlackMessage v (me, spareBlocks))
      (fun x => Ok (Build_SlackPayload ty ac us ru (fst x), (spareActions, snd x))).

Definition decode_SlackPayload (j : json) (p : SlackPayload) : result SlackPayload :=
  bind (decode_object ["type"; "actions"; "user"; "response_url"; "message"]
          set_SlackPayload j (p, ([], [])))
    (fun x => Ok (fst x)).

(** The part of an *http.Request the handlers read; a missing header reads
    as the empty string. *)
Record Request : Type := {
  Method : string;
  X_Slack_Request_Timestamp : string;
  X_Slack_Signature : string
}.

(** [now] is time.Now().Unix(). *)
Definition verifySlackRequest (signingSecret : string) (now : Z) (r : Request)
    (body : string) : bool :=
  let timestamp := X_Slack_Request_Timestamp r in
  let signature := X_Slack_Signature r in
  if String.eqb timestamp "" || String.eqb signature "" then false
  else
    match ParseInt timestamp with
    | None => false
    | Some ts =>
        let timeDiff := wrap64 (now - ts) in
        if (300 <? timeDiff)%Z then false
        else
          let baseString := "v0:" +:+ timestamp +:+ ":" +:+ body in
          let expectedSignature :=
            "v0=" +:+ Crypto.hex_EncodeToString
                        (Crypto.hmac_sha256 (bytes_of signingSecret) (bytes_of baseString)) in
          Crypto.hmac_Equal signature expectedSignature
    end.

(** AlertInfo holds extracted alert information *)
Record AlertInfo : Type := {
  Name : string;
  Description : string
}.

Fixpoint take_until (stop : ascii -> bool) (s : string) : string :=
  match s with
  | EmptyString => EmptyString
  | String c s' => if stop c then EmptyString else String c (take_until stop s')
  end.

(** re.FindStringSubmatch(text)[1] for a pattern made of the literal [lit]
    followed by one group of one or more bytes outside [stop]: the longest
    run after the leftmost place where the pattern matches. *)
Fixpoint find_submatch (lit : string) (stop : ascii -> bool) (text : string)
  : option string :=
  let here :=
    if HasPrefix text lit
    then
      match take_until stop (drop_bytes (String.length lit) text) with
      | EmptyString => None
      | group => Some group
      end
    else None in
  match here with
  | Some group => Some group
  | None =>
      match text with
      | EmptyString => None
      | String _ text' => find_submatch lit stop text'
      end
  end.

Definition is_star_or_newline (c : ascii) : bool :=
  Ascii.eqb c "*" || (byte_of c =? 10)%N.

Definition is_newline (c : ascii) : bool := (byte_of c =? 10)%N.

Definition trimmed_or (found : option string) (old : string) : string :=
  match found with
  | Some group => TrimSpace group
  | None => old
  end.

(** Extract alert information from alert message (works for both
    CloudWatch and Grafana) *)
Definition extractAlertInfo (text : string) : AlertInfo :=
  (* Check for Grafana Alert pattern first *)
  if Contains text "Grafana Alert:" then
    {| Name := trimmed_or (find_submatch "Grafana Alert: " is_star_or_newline text) "";
       Description := trimmed_or (find_submatch "• *Description:* " is_newline text) "" |}
  else if Contains text "CloudWatch Alarm:" then
    {| Name := trimmed_or (find_submatch "CloudWatch Alarm: " is_star_or_newline text) "";
       Description := trimmed_or (find_submatch "• *Reason:* " is_newline text) "" |}
  else {| Name := ""; Description := "" |}.

Definition extractAlarmName (text : string) : string := Name (extractAlertInfo text).

(** Fallback: try to extract from blocks *)
Fixpoint alertInfoFromBlocks (blocks : list Block) (alertInfo : AlertInfo) : AlertInfo :=
  match blocks with
  | [] => alertInfo
  | block :: rest =>
      if String.eqb (blk_Type block) "section" then
        let alertInfo := extractAlertInfo (blk_Text block) in
        if negb (String.eqb (Name alertInfo) "") then alertInfo
        else alertInfoFromBlocks rest alertInfo
      else alertInfoFromBlocks rest alertInfo
  end.

(** Extract alert details from the original message *)
Definition alertInfoOf (message : SlackMessage) : AlertInfo :=
  let alertInfo := extractAlertInfo (sm_Text message) in
  if String.eqb (Name alertInfo) "" then alertInfoFromBlocks (sm_Blocks message) alertInfo
  else alertInfo.

(** The switch on actionType. *)
Definition responseTextOf (actionType alertID user : string) (alertInfo : AlertInfo)
  : string :=
  let nl := Adapter.nl in
  if String.eqb actionType "acknowledge" then
    if negb (String.eqb (Name alertInfo) "") then
      "✅ **Alert '" +:+ Name alertInfo +:+ "' acknowledged by " +:+ user +:+ "**" +:+
      (if negb (String.eqb (Description alertInfo) "")
       then nl +:+ "• *Description:* " +:+ Description alertInfo else "") +:+
      nl +:+ nl +:+ "_This alert is now being handled._"
    else
      "✅ **Alert " +:+ alertID +:+ " acknowledged by " +:+ user +:+ "**" +:+
      nl +:+ nl +:+ "_This alert is now being handled._"
  else if String.eqb actionType "dismiss" then
    if negb (String.eqb (Name alertInfo) "") then
      "❌ **Alert '" +:+ Name alertInfo +:+ "' dismissed by " +:+ user +:+ "**" +:+
      (if negb (String.eqb (Description alertInfo) "")
       then nl +:+ "• *Description:* " +:+ Description alertInfo else "") +:+
      nl +:+ nl +:+ "_This alert has been dismissed and will not be actioned._"
    else
      "❌ **Alert " +:+ alertID +:+ " dismissed by " +:+ user +:+ "**" +:+
      nl +:+ nl +:+ "_This alert has been dismissed and will not be actioned._"
  else "Unknown action: " +:+ actionType.

(** The response map sent to response_url. *)
Record SlackResponse : Type := {
  text : string;
  replace_original : bool;
  response_type : string
}.

(** What handleInteractive answers: the status code, and the message it
    tried to deliver to the response URL, if it got that far. *)
Record Reply : Type := {
  status : Z;
  delivery : option (string * SlackResponse)
}.

Definition http_error (code : Z) : Reply := {| status := code; delivery := None |}.

Section Handlers.
Variable signingSecret : string.
(** time.Now().Unix() *)
Variable now : Z.
(** url.ParseQuery(body) followed by formData.Get("payload"); None when
    ParseQuery fails. *)
Variable formPayload : string -> option string.
(** s.sendSlackResponse: true when it returns a nil error. *)
Variable sendSlackResponse : string -> SlackResponse -> bool.

(** [body] is what io.ReadAll(r.Body) gives, None for a read error. *)
Definition handleInteractive (r : Request) (body : option string) : Reply :=
  if negb (String.eqb (Method r) "POST") then http_error 405
  else
    match body with
    | None => http_error 400
    | Some body =>
        (* Verify Slack request signature *)
        if negb (verifySlackRequest signingSecret now r body) then http_error 401
        else
          (* Parse URL-encoded form data *)
          match formPayload body with
          | None => http_error 400
          | Some payloadStr =>
              if String.eqb payloadStr "" then http_error 400
              else
                (* Parse the JSON payload *)
                match Unmarshal decode_SlackPayload payloadStr SlackPayload_zero with
                | Err _ => http_error 400
                | Ok slackPayload =>
                    match sp_Actions slackPayload with
                    | [] => http_error 400
                    | action :: _ =>
                        let alertID := act_Value action in
                        let actionType := act_ActionID action in
                        let user := sp_User_Name slackPayload in
                        let alertInfo := alertInfoOf (sp_Message slackPayload) in
                        let responseText :=
                          responseTextOf actionType alertID user alertInfo in
                        let response :=
                          {| text := responseText; replace_original := true;
                             response_type := "in_channel" |} in
                        (* Send response to Slack via response_url *)
                        if sendSlackResponse (sp_ResponseURL slackPayload) response
                        then {| status := 200;
                                delivery := Some (sp_ResponseURL slackPayload, response) |}
                        else {| status := 500;
                                delivery := Some (sp_ResponseURL slackPayload, response) |}
                    end
                end
          end
    end.
End Handlers.

End Server.

(** ** A small runtime for closed examples

    Number literals are accepted when they are plain integers and printed
    exactly; no timestamp is recognised (so it is shown as received); text
    outside ASCII is left as it is by the case mappings.  The theorems
    below hold for every runtime; this one only evaluates examples. *)
Module Example.
Import GoStrings.

Definition fmt_integer (prec : nat) (z : Z) : string :=
  match prec with
  | O => itoa z
  | S _ => itoa z +:+ "." +:+ string_of (repeat 48%N prec)
  end.

Definition runtime : GoRuntime :=
  {| float64 := Z;
     float64_zero := 0%Z;
     strconv_ParseFloat := ParseInt;
     fmt_f := fmt_integer;
     float64_is_int64 := fun _ => true;
     time_Time := unit;
     time_Parse := fun _ _ => None;
     time_Format := fun _ _ => "";
     unicode_ToLower := fun s => s;
     unicode_ToUpper := fun s => s |}.

(** JSON text written with apostrophes in place of double quotes. *)
Definition q (s : string) : string :=
  map_bytes (fun c => if Ascii.eqb c "'" then char_of 34 else c) s.

End Example.

(** * Vocabulary of the statements *)

Import GoStrings JSON.

(** No member of the object is stored into the field [name]. *)
Definition lacks_field (fields : list string) (name : string)
    (members : list (string * json)) : bool :=
  forallb
    (fun kv =>
       match field_for fields (fst kv) with
       | Some f => negb (String.eqb f name)
       | None => true
       end)
    members.

(** The three priorities. *)
Definition is_priority (p : string) : Prop := p = "P0" \/ p = "P1" \/ p = "P2".

(** The tag is P0, P1 or P2 in any letter case. *)
Definition recognised_tag (rt : GoRuntime) (tag : string) : bool :=
  String.eqb (ToUpper rt tag) "P0" || String.eqb (ToUpper rt tag) "P1"
  || String.eqb (ToUpper rt tag) "P2".

(** The legacy alert with its channel tag taken away. *)
Definition without_channel_tag (rt : GoRuntime) (alert : Adapter.GrafanaWebhook rt)
  : Adapter.GrafanaWebhook rt :=
  let '(Adapter.Build_GrafanaWebhook _ di em iu me oi pi ri rn ru st tg ti) := alert in
  Adapter.Build_GrafanaWebhook rt di em iu me oi pi ri rn ru st (delete "channel" tg) ti.

(** At most one entry of the map passes the filter of the loop. *)
Definition at_most_one_shown {V : Type} (shown : string * V -> bool) (m : gmap string V)
  : Prop :=
  (List.length (List.filter shown (map_to_list m)) <= 1)%nat.

(** The annotation adds a line to the message. *)
Definition rendersAnnotation (rt : GoRuntime) (kv : string * any rt) : bool :=
  negb (String.eqb (Adapter.annotationLine rt kv) "").

(** The annotations of the first alert, the map formatEnhancedAlertMessage
    ranges over. *)
Definition firstAnnotations (rt : GoRuntime) (webhook : Adapter.AlertmanagerWebhook rt)
  : option (gmap string (any rt)) :=
  match Adapter.am_Alerts rt webhook with
  | first :: _ => as_map (first !! "annotations")
  | [] => None
  end.

(** How often the trace holds an event of one kind for the message at
    position [idx] of round [round]. *)
Definition handled_ok (round idx : nat) (ev : Sqs.event) : bool :=
  match ev with
  | Sqs.Handled r i true => (r =? round)%nat && (i =? idx)%nat
  | _ => false
  end.

Definition handled_err (round idx : nat) (ev : Sqs.event) : bool :=
  match ev with
  | Sqs.Handled r i false => (r =? round)%nat && (i =? idx)%nat
  | _ => false
  end.

Definition deleted (round idx : nat) (ev : Sqs.event) : bool :=
  match ev with
  | Sqs.Deleted r i _ _ => (r =? round)%nat && (i =? idx)%nat
  | _ => false
  end.

Definition count (p : Sqs.event -> bool) (trace : list Sqs.event) : nat :=
  List.length (List.filter p trace).

(** The message an event is about comes before position [idx] of round
    [round]. *)
Definition before (round idx : nat) (ev : Sqs.event) : Prop :=
  match ev with
  | Sqs.Handled r i _ | Sqs.Deleted r i _ _ =>
      (r < round)%nat \/ (r = round /\ (i < idx)%nat)
  | _ => True
  end.

(** Every message was handled at most once, and deleted as often as its
    handler succeeded. *)
Definition consistent (trace : list Sqs.event) : Prop :=
  forall r i,
    (count (handled_ok r i) trace + count (handled_err r i) trace <= 1)%nat /\
    count (deleted r i) trace = count (handled_ok r i) trace.

(** The calls of the three operations the poller is given, as the
    operations themselves see them: what ReceiveMessage answered, the body
    the handler was given and its answer, the receipt handle DeleteMessage
    was given and its answer. *)
Inductive call : Type :=
| CallReceive (answer : option (list Sqs.SQSMessage))
| CallHandler (body : string) (ok : bool)
| CallDelete (handle : option string) (ok : bool).

Section Journal.
Variable World : Type.
Variable ReceiveMessage : World -> option (list Sqs.SQSMessage) * World.
Variable DeleteMessage : option string -> World -> bool * World.
Variable handler : string -> World -> bool * World.

(** The three operations on a world that carries a journal: each does what
    it does and writes its own call at the end of the journal.  The poller
    neither reads nor writes the journal; a call is in it exactly when the
    poller applied the operation. *)
Definition journalReceive (w : World * list call)
  : option (list Sqs.SQSMessage) * (World * list call) :=
  let '(answer, w1) := ReceiveMessage (fst w) in
  (answer, (w1, (snd w ++ [CallReceive answer])%list)).

Definition journalDelete (handle : option string) (w : World * list call)
  : bool * (World * list call) :=
  let '(ok, w1) := DeleteMessage handle (fst w) in
  (ok, (w1, (snd w ++ [CallDelete handle ok])%list)).

Definition journalHandler (body : string) (w : World * list call)
  : bool * (World * list call) :=
  let '(ok, w1) := handler body (fst w) in
  (ok, (w1, (snd w ++ [CallHandler body ok])%list)).

(** The call is one the operations could have answered that way. *)
Definition answered (c : call) : Prop :=
  match c with
  | CallReceive answer => exists w, fst (ReceiveMessage w) = answer
  | CallHandler body ok => exists w, fst (handler body w) = ok
  | CallDelete handle ok => exists w, fst (DeleteMessage handle w) = ok
  end.
End Journal.

(** The calls a batch gives rise to, message by message: the handler is
    called with the body; when it answers success, the next call is
    DeleteMessage with the receipt handle of that message, whatever
    DeleteMessage answers; when it answers an error, no delete follows.  A
    message without a body ends the calls; [completed] tells whether the
    batch was gone through to its end. *)
Inductive batch_calls : list Sqs.SQSMessage -> list call -> bool -> Prop :=
| batch_done : batch_calls [] [] true
| batch_no_body (msg : Sqs.SQSMessage) (rest : list Sqs.SQSMessage) :
    Sqs.Body msg = None -> batch_calls (msg :: rest) [] false
| batch_success (msg : Sqs.SQSMessage) (rest : list Sqs.SQSMessage) (body : string)
    (deleted : bool) (calls : list call) (completed : bool) :
    Sqs.Body msg = Some body ->
    batch_calls rest calls completed ->
    batch_calls (msg :: rest)
      (CallHandler body true :: CallDelete (Sqs.ReceiptHandle msg) deleted :: calls)
      completed
| batch_failure (msg : Sqs.SQSMessage) (rest : list Sqs.SQSMessage) (body : string)
    (calls : list call) (completed : bool) :
    Sqs.Body msg = Some body ->
    batch_calls rest calls completed ->
    batch_calls (msg :: rest) (CallHandler body false :: calls) completed.

(** The calls of a run of the poller, round by round: a receive that
    fails, or a receive that gives a batch followed by the calls of that
    batch; a batch that was not gone through ends the run. *)
Inductive poll_calls : list call -> Prop :=
| poll_end : poll_calls []
| poll_receive_error (rest : list call) :
    poll_calls rest -> poll_calls (CallReceive None :: rest)
| poll_batch (msgs : list Sqs.SQSMessage) (calls rest : list call) :
    batch_calls msgs calls true -> poll_calls rest ->
    poll_calls (CallReceive (Some msgs) :: calls ++ rest)%list
| poll_panic (msgs : list Sqs.SQSMessage) (calls : list call) :
    batch_calls msgs calls false ->
    poll_calls (CallReceive (Some msgs) :: calls).

Definition is_delete (c : call) : bool :=
  match c with CallDelete _ _ => true | _ => false end.

Definition is_success (c : call) : bool :=
  match c with CallHandler _ true => true | _ => false end.

(** The bodies the handler was called with, and the receipt handles
    DeleteMessage was called with, in the order of the calls. *)
Fixpoint handler_bodies (calls : list call) : list string :=
  match calls with
  | [] => []
  | CallHandler body _ :: rest => body :: handler_bodies rest
  | _ :: rest => handler_bodies rest
  end.

Fixpoint delete_handles (calls : list call) : list (option string) :=
  match calls with
  | [] => []
  | CallDelete handle _ :: rest => handle :: delete_handles rest
  | _ :: rest => delete_handles rest
  end.

(** The messages at the head of the batch that have a body. *)
Fixpoint leading (msgs : list Sqs.SQSMessage) : list Sqs.SQSMessage :=
  match msgs with
  | [] => []
  | msg :: rest =>
      match Sqs.Body msg with
      | Some _ => msg :: leading rest
      | None => []
      end
  end.

(** The JSON values a field of each Go type accepts. *)
Definition is_string_shape (j : json) : bool :=
  match j with
  | JNull | JStr _ => true
  | _ => false
  end.

Definition is_int64_shape (j : json) : bool :=
  match j with
  | JNull => true
  | JNum lit => match ParseInt lit with Some _ => true | None => false end
  | _ => false
  end.

Definition is_float64_shape (rt : GoRuntime) (j : json) : bool :=
  match j with
  | JNull => true
  | JNum lit => match strconv_ParseFloat rt lit with Some _ => true | None => false end
  | _ => false
  end.

Definition is_string_map_shape (j : json) : bool :=
  match j with
  | JNull => true
  | JObj members => forallb (fun kv => is_string_shape (snd kv)) members
  | _ => false
  end.

(** An object fits a struct when every member that is stored into a field
    fits the type of that field. *)
Definition members_fit (fields : list string) (fits : string -> json -> bool)
    (members : list (string * json)) : bool :=
  forallb
    (fun kv =>
       match field_for fields (fst kv) with
       | Some f => fits f (snd kv)
       | None => true
       end)
    members.

Definition fits_EvalMatch_field (rt : GoRuntime) (f : string) (v : json) : bool :=
  if String.eqb f "value" then is_float64_shape rt v
  else if String.eqb f "metric" then is_string_shape v
  else is_string_map_shape v.

Definition is_EvalMatch_shape (rt : GoRuntime) (j : json) : bool :=
  match j with
  | JNull => true
  | JObj members => members_fit Adapter.EvalMatch_fields (fits_EvalMatch_field rt) members
  | _ => false
  end.

Definition is_EvalMatches_shape (rt : GoRuntime) (j : json) : bool :=
  match j with
  | JNull => true
  | JArr elems => forallb (is_EvalMatch_shape rt) elems
  | _ => false
  end.

(** The types of the fields of GrafanaWebhook: int64 for the four ids,
    []EvalMatch, map[string]string for the tags, string for the rest. *)
Definition fits_GrafanaWebhook_field (rt : GoRuntime) (f : string) (v : json) : bool :=
  if String.eqb f "dashboardId" || String.eqb f "orgId" || String.eqb f "panelId"
     || String.eqb f "ruleId"
  then is_int64_shape v
  else if String.eqb f "evalMatches" then is_EvalMatches_shape rt v
  else if String.eqb f "tags" then is_string_map_shape v
  else is_string_shape v.

(** The members of a JSON object are well typed for the legacy webhook. *)
Definition well_typed_legacy (rt : GoRuntime) (members : list (string * json)) : bool :=
  members_fit Adapter.GrafanaWebhook_fields (fits_GrafanaWebhook_field rt) members.

(** * Configuration, the webhook handler and further helpers *)

(** ** package config (internal/config/config.go) *)
Module Config.

Record Config : Type := {
  SQSQueueURL : string;
  SlackWebhookURL : string;
  SlackBotToken : string;
  SlackSigningSecret : string;
  ServerPort : string;
  PollIntervalSec : Z;
  SlackChannels : gmap string string;
  AlarmChannels : gmap string string
}.

Record AlarmChannelConfig : Type := {
  AlarmMappings : gmap string string;
  DefaultChannels : gmap string string
}.

(** What os.Stat and os.ReadFile find at a path. *)
Inductive file_state : Type :=
| NotExist
| Unreadable
| Content (data : string).

Section Environment.
(** os.Getenv: the empty string for a variable that is not set. *)
Variable Getenv : string -> string.
Variable filepath_Join : string -> string -> string.
Variable readFile : string -> file_state.
(** yaml.Unmarshal into AlarmChannelConfig: None is an error. *)
Variable yaml_Unmarshal : string -> option AlarmChannelConfig.

Definition getEnvOrDefault (key defaultValue : string) : string :=
  let value := Getenv key in
  if negb (String.eqb value "") then value else defaultValue.

Definition loadAlarmChannelMappings : gmap string string :=
  let configPath := getEnvOrDefault "CONFIG_PATH" "/etc/config" in
  let alarmConfigFile := filepath_Join configPath "alarm-channels.yaml" in
  match readFile alarmConfigFile with
  | NotExist => ∅
  | Unreadable => ∅
  | Content data =>
      match yaml_Unmarshal data with
      | None => ∅
      | Some config => AlarmMappings config
      end
  end.

(** None where the code ends the process with log.Fatal. *)
Definition LoadConfig : option Config :=
  let sqsURL := Getenv "SQS_QUEUE_URL" in
  let slackURL := Getenv "SLACK_WEBHOOK_URL" in
  let slackBotToken := Getenv "SLACK_BOT_TOKEN" in
  let slackSigningSecret := Getenv "SLACK_SIGNING_SECRET" in
  let serverPort := Getenv "SERVER_PORT" in
  if String.eqb sqsURL "" then None
  else if String.eqb slackBotToken "" then None
  else if String.eqb slackSigningSecret "" then None
  else
    let serverPort := if String.eqb serverPort "" then "8088" else serverPort in
    let pollIntervalStr := Getenv "POLL_INTERVAL_SEC" in
    let pollInterval :=
      if negb (String.eqb pollIntervalStr "") then
        match ParseInt pollIntervalStr with   (* strconv.Atoi *)
        | Some val => val
        | None => 10%Z
        end
      else 10%Z in
    (* Configure channels for different priorities *)
    let channels : gmap string string :=
      <["P0" := getEnvOrDefault "SLACK_CHANNEL_P0" "#p0-infra-alerts"]>
      (<["P1" := getEnvOrDefault "SLACK_CHANNEL_P1" "#p1-infra-alerts"]>
       (<["P2" := getEnvOrDefault "SLACK_CHANNEL_P2" "#p2-infra-alerts"]>
        (<["default" := getEnvOrDefault "SLACK_CHANNEL_DEFAULT" "#alerts"]> ∅))) in
    (* Load alarm-to-channel mappings *)
    let alarmChannels := loadAlarmChannelMappings in
    Some {| SQSQueueURL := sqsURL;
            SlackWebhookURL := slackURL;
            SlackBotToken := slackBotToken;
            SlackSigningSecret := slackSigningSecret;
            ServerPort := serverPort;
            PollIntervalSec := pollInterval;
            SlackChannels := channels;
            AlarmChannels := alarmChannels |}.
End Environment.

End Config.

(** ** package server: the webhook and health handlers *)
Module Webhook.

(** What a handler answers: the status code, the body it wrote when the
    code fixes one, and the message handed to the chat client, if any. *)
Record Reply : Type := {
  status : Z;
  posted : option Notifier.SlackPost
}.

Definition http_error (code : Z) : Reply := {| status := code; posted := None |}.

(** healthCheck: the status and the body. *)
Definition healthCheck : Z * string := (200%Z, "OK").

Section Handler.
Variable rt : GoRuntime.
Variable config : Config.Config.
(** time.Now().Unix() *)
Variable now : Z.
(** The orders of the map ranges of the formatters. *)
Variable orders : Adapter.RangeOrders rt.
(** client.PostMessage: true when it returns a nil error. *)
Variable PostMessage : Notifier.SlackPost -> bool.

(** [body] is what io.ReadAll(r.Body) gives, None for a read error. *)
Definition handleGrafanaWebhook (r : Server.Request) (body : option string) : Reply :=
  if negb (String.eqb (Server.Method r) "POST") then http_error 405
  else
    match body with
    | None => http_error 400
    | Some body =>
        (* Process the Grafana alert *)
        match Adapter.AdaptGrafanaWebhook rt orders body (Config.SlackChannels config)
                (Config.AlarmChannels config) with
        | JSON.Err _ => http_error 400
        | JSON.Ok alertMsg =>
            (* Create notifier for specific channel *)
            let channelNotifier :=
              Notifier.NewSlackNotifier (Config.SlackBotToken config)
                (Adapter.Channel alertMsg) in
            let post :=
              Notifier.buildPost channelNotifier (Adapter.Message alertMsg)
                ("grafana_" +:+ GoStrings.itoa now) in
            (* Send to Slack with interactive buttons *)
            if Notifier.NotifyWithButtons PostMessage channelNotifier
                 (Adapter.Message alertMsg) ("grafana_" +:+ GoStrings.itoa now)
            then {| status := 200; posted := Some post |}
            else {| status := 500; posted := Some post |}
        end
    end.
End Handler.

End Webhook.

(** ** package adapter: the helpers for value strings *)
Module ValueString.
Import GoStrings.

(** strings.Split for a non-empty separator; [piece] is the part of the
    current piece already passed. *)
Fixpoint Split_go (fuel : nat) (s sep piece : string) : list string :=
  match fuel with
  | O => [piece +:+ s]
  | S fuel' =>
      match s with
      | EmptyString => [piece]
      | String c s' =>
          if HasPrefix s sep
          then piece :: Split_go fuel' (drop_bytes (String.length sep) s) sep EmptyString
          else Split_go fuel' s' sep (piece +:+ String c EmptyString)
      end
  end.

Definition Split (s sep : string) : list string :=
  Split_go (S (String.length s)) s sep EmptyString.

Fixpoint trim_left_set (cut : ascii -> bool) (s : string) : string :=
  match s with
  | EmptyString => EmptyString
  | String c s' => if cut c then trim_left_set cut s' else s
  end.

Fixpoint rev_string (s acc : string) : string :=
  match s with
  | EmptyString => acc
  | String c s' => rev_string s' (String c acc)
  end.

(** strings.Trim(s, cutset) for a cutset of ASCII bytes. *)
Definition Trim (s : string) (cut : ascii -> bool) : string :=
  rev_string (trim_left_set cut (rev_string (trim_left_set cut s) EmptyString)) EmptyString.

Definition is_bracket (c : ascii) : bool := Ascii.eqb c "[" || Ascii.eqb c "]".

(** val = strings.Trim(val, "[]"); val = strings.TrimSpace(val) *)
Definition cleanValue (val : string) : string := TrimSpace (Trim val is_bracket).

(** The pod name of one value, as both helpers cut it out:
    podStart := strings.Index(val, "labels={pod=") + 12;
    podEnd := strings.Index(val[podStart:], "}");
    val[podStart : podStart+podEnd] when podEnd > 0. *)
Definition podNameOf (val : string) : option string :=
  match Index val "labels={pod=" with
  | Some start =>
      let podStart := (start + 12)%nat in
      match Index (drop_bytes podStart val) "}" with
      | Some (S n) => Some (take_bytes (S n) (drop_bytes podStart val))
      | _ => None
      end
  | None => None
  end.

(** The loop of extractPodNames: [seen] holds the names met so far. *)
Fixpoint collectPodNames (values : list string) (podNames : list string) (seen : gset string)
  : list string :=
  match values with
  | [] => podNames
  | val :: rest =>
      let val := cleanValue val in
      if Contains val "labels={pod=" then
        match podNameOf val with
        | Some podName =>
            if bool_decide (podName ∈ seen)
            then collectPodNames rest podNames seen
            else collectPodNames rest (podNames ++ [podName])%list ({[ podName ]} ∪ seen)
        | None => collectPodNames rest podNames seen
        end
      else collectPodNames rest podNames seen
  end.

(** Helper function to extract pod names from valueString *)
Definition extractPodNames (valueString : string) : list string :=
  collectPodNames (Split valueString "], [") [] ∅.

Section WithRuntime.
Variable rt : GoRuntime.
(** fmt.Sscanf(s, "%f", &result) scanning one value: None when it does not. *)
Variable Sscanf_f : string -> option (float64 rt).

(** Helper function to parse float values from string *)
Definition parseFloat (s : string) : option (float64 rt) :=
  Sscanf_f (TrimSpace s).

(** The loop of formatValueString from position [i] on; [total] is
    len(values). *)
Fixpoint writeValues (values : list string) (i total : nat) (result : string) : string :=
  match values with
  | [] => result
  | val :: rest =>
      let val := cleanValue val in
      if Contains val "labels={pod=" && Contains val "} value=" then
        match podNameOf val with
        | Some podName =>
            let valueStart :=
              (default 0%nat (Index val "} value=") + 8)%nat in
            let valueStr := drop_bytes valueStart val in
            match parseFloat valueStr with
            | Some value =>
                writeValues rest (S i) total
                  (result +:+ Adapter.nl +:+ "   → `" +:+ podName +:+ "`: **" +:+
                   fmt_f rt 2 value +:+ "%**")
            | None =>
                writeValues rest (S i) total
                  (result +:+ Adapter.nl +:+ "   → `" +:+ podName +:+ "`: **" +:+
                   valueStr +:+ "**")
            end
        | None => writeValues rest (S i) total result
        end
      else if (i <? 5)%nat then
        (* Limit to first 5 values to avoid too long messages *)
        writeValues rest (S i) total (result +:+ Adapter.nl +:+ "   → `" +:+ val +:+ "`")
      else if (i =? 5)%nat then
        result +:+ Adapter.nl +:+ "   → ... and " +:+
        itoa (Z.of_nat total - 5) +:+ " more values"
      else writeValues rest (S i) total result
  end.

Definition formatValueString (valueString : string) : string :=
  let values := Split valueString "], [" in
  writeValues values 0 (List.length values) EmptyString.
End WithRuntime.

End ValueString.

(** ** package sns_adapter: the first adapter for queue messages *)
Module SnsAdapter.
Import GoStrings JSON.

Record SNSMessage : Type := {
  AlarmName : string;
  NewState : string;   (* json:"NewStateValue" *)
  Reason : string      (* json:"NewStateReason" *)
}.

Definition SNSMessage_zero : SNSMessage :=
  {| AlarmName := ""; NewState := ""; Reason := "" |}.

(** The JSON names of the fields of SNSMessage. *)
Definition SNSMessage_fields : list string :=
  ["AlarmName"; "NewStateValue"; "NewStateReason"].

Definition set_SNSMessage (f : string) (v : json) (m : SNSMessage) : result SNSMessage :=
  if String.eqb f "AlarmName" then
    bind (decode_string v (AlarmName m))
      (fun x => Ok {| AlarmName := x; NewState := NewState m; Reason := Reason m |})
  else if String.eqb f "NewStateValue" then
    bind (decode_string v (NewState m))
      (fun x => Ok {| AlarmName := AlarmName m; NewState := x; Reason := Reason m |})
  else
    bind (decode_string v (Reason m))
      (fun x => Ok {| AlarmName := AlarmName m; NewState := NewState m; Reason := x |}).

Definition decode_SNSMessage : json -> SNSMessage -> result SNSMessage :=
  decode_object SNSMessage_fields set_SNSMessage.

(** var envelope struct { Message string `json:"Message"` } *)
Definition decode_envelope : json -> string -> result string :=
  decode_object ["Message"] (fun _ v message => decode_string v message).

Definition AdaptSQSMessage (body : string) : result string :=
  bind (Unmarshal decode_envelope body "") (fun message =>
  bind (Unmarshal decode_SNSMessage message SNSMessage_zero) (fun snsMsg =>
    Ok ("*" +:+ AlarmName snsMsg +:+ "* is now *" +:+ NewState snsMsg +:+ "*:" +:+
        Adapter.nl +:+ Reason snsMsg))).

End SnsAdapter.

(** ** Vocabulary of the further statements *)

(** Every byte of the text passes the test. *)
Fixpoint all_chars (p : ascii -> bool) (s : string) : bool :=
  match s with
  | EmptyString => true
  | String c s' => p c && all_chars p s'
  end.

(** The text holds neither of the two markers extractAlertInfo looks for. *)
Definition unmarked (text : string) : bool :=
  negb (Contains text "Grafana Alert:") && negb (Contains text "CloudWatch Alarm:").

(** The text [s] is [p] followed by something. *)
Definition extends (p s : string) : Prop := exists rest, s = p +:+ rest.

(** A byte that ends the name group of the extraction patterns does not
    occur in the text. *)
Definition name_like (s : string) : bool :=
  all_chars (fun c => negb (Server.is_star_or_newline c)) s.

(** The byte [a] does not occur in the text. *)
Definition free_of (a : ascii) (s : string) : bool :=
  all_chars (fun c => negb (Ascii.eqb a c)) s.

(** The channel of the alert comes from one of the tables: it is the value
    of an entry of the explicit mapping, or the entry of the priority table
    for the priority of the alert or for "default". *)
Definition routed_by (channels alarmChannels : gmap string string)
    (msg : Adapter.AlertMessage) : Prop :=
  (exists name, alarmChannels !! name = Some (Adapter.Channel msg)) \/
  channels !! Adapter.Priority msg = Some (Adapter.Channel msg) \/
  channels !! "default" = Some (Adapter.Channel msg).

(** The alert is what one of the two adapters makes of some message. *)
Definition adapted (rt : GoRuntime) (channels alarmChannels : gmap string string)
    (msg : Adapter.AlertMessage) : Prop :=
  (exists body, Adapter.AdaptSQSMessageWithRouting rt body channels alarmChannels = Ok msg) \/
  (exists orders body,
      Adapter.AdaptGrafanaWebhook rt orders body channels alarmChannels = Ok msg).

(** How many messages at the head of the batch have a body. *)
Fixpoint leading_bodies (msgs : list Sqs.SQSMessage) : nat :=
  match msgs with
  | [] => 0
  | msg :: rest =>
      match Sqs.Body msg with
      | Some _ => S (leading_bodies rest)
      | None => 0
      end
  end.

(** How often the trace holds a handling, of either result, of the message
    at position [idx] of round [round]. *)
Definition handlings (round idx : nat) (trace : list Sqs.event) : nat :=
  (count (handled_ok round idx) trace + count (handled_err round idx) trace)%nat.

(** The value is one formatValueString shows as a pod with its value. *)
Definition pod_value (val : string) : bool :=
  Contains (ValueString.cleanValue val) "labels={pod="
  && Contains (ValueString.cleanValue val) "} value=".

(** One line for each value, as the fallback of formatValueString writes
    them. *)
Fixpoint plainLines (values : list string) : string :=
  match values with
  | [] => ""
  | val :: rest =>
      Adapter.nl +:+ "   → `" +:+ ValueString.cleanValue val +:+ "`" +:+ plainLines rest
  end.

(** The entry is not the channel tag. *)
Definition not_channel (kv : string * string) : bool :=
  negb (String.eqb (fst kv) "channel").

(** The handler main gives to the poller, which leaves the world of the
    queue as it is. *)
Definition queue_handler {World : Type} (rt : GoRuntime)
    (PostMessage : Notifier.SlackPost -> bool) (SlackBotToken : string)
    (SlackChannels AlarmChannels : gmap string string) (body : string) (w : World)
  : bool * World :=
  (Main.handler rt PostMessage SlackBotToken SlackChannels AlarmChannels body, w).

(** The message has a body that the queue adapter adapts and whose post
    the chat client accepts: what the handler of main answers for it. *)
Definition delivered (rt : GoRuntime) (PostMessage : Notifier.SlackPost -> bool)
    (SlackBotToken : string) (SlackChannels AlarmChannels : gmap string string)
    (msg : Sqs.SQSMessage) : bool :=
  match Sqs.Body msg with
  | Some body =>
      match Adapter.AdaptSQSMessageWithRouting rt body SlackChannels AlarmChannels with
      | Ok alertMsg =>
          PostMessage
            (Notifier.buildPost
               (Notifier.NewSlackNotifier SlackBotToken (Adapter.Channel alertMsg))
               (Adapter.Message alertMsg) "")
      | Err _ => false
      end
  | None => false
  end.

(** The number of characters (code points) of a text in UTF-8: its bytes
    other than the continuation bytes 10xxxxxx. *)
Fixpoint character_count (s : string) : nat :=
  match s with
  | EmptyString => 0
  | String c s' =>
      if ((128 <=? byte_of c) && (byte_of c <? 192))%N
      then character_count s' else S (character_count s')
  end.

(** The text holds no line feed. *)
Definition one_line (s : string) : bool :=
  all_chars (fun c => negb (Server.is_newline c)) s.

(** * Properties *)

(** ** Byte strings *)

Lemma wrap64_small (z : Z) :
  (min_int64 <= z <= max_int64)%Z -> wrap64 z = z.
Proof.
  intros Hz. unfold wrap64, min_int64, max_int64 in *.
  rewrite Z.mod_small by lia. lia.
Qed.

Lemma sha256_abc :
  Crypto.hex_EncodeToString (Crypto.sha256 (bytes_of "abc"))
  = "ba7816bf8f01cfea414140de5dae2223b00361a396177a9cb410ff61f20015ad".
Proof. vm_compute. reflexivity. Qed.

Lemma hmac_sha256_long_key :
  Crypto.hex_EncodeToString (Crypto.hmac_sha256 (repeat 107%N 70) (repeat 120%N 130))
  = "65f3828fb4164fc0fce3be71ca4cf0a8915b8e484444e7765ab030abe4c28ac0".
Proof. vm_compute. reflexivity. Qed.

(** ** The replay window of the interactive verifier *)

(** C1, as the code has it: the verifier rejects every request whose
    timestamp header lies more than 300 seconds in the past, the difference
    [now - ts] being one that 64-bit arithmetic can hold (a header that is
    not a decimal int64 is rejected as well). *)
Theorem verify_rejects_stale_request (secret : string) (now : Z) (r : Server.Request)
    (body : string) :
  (forall ts, ParseInt (Server.X_Slack_Request_Timestamp r) = Some ts ->
              (300 < now - ts <= max_int64)%Z) ->
  Server.verifySlackRequest secret now r body = false.
Proof.
  intros Hts. unfold Server.verifySlackRequest.
  destruct (String.eqb _ "" || String.eqb _ ""); [reflexivity|].
  destruct (ParseInt (Server.X_Slack_Request_Timestamp r)) as [ts|] eqn:Hparse;
    [|reflexivity].
  specialize (Hts ts eq_refl).
  rewrite wrap64_small by (unfold min_int64; lia).
  destruct (Z.ltb_spec 300 (now - ts)); [reflexivity|lia].
Qed.

Lemma verify_rejects_stale_request_witness :
  Server.verifySlackRequest "8f742231b10e8888abcd99yyyz7dd1e3" 1700000201
    {| Server.Method := "POST";
       Server.X_Slack_Request_Timestamp := "1699999900";
       Server.X_Slack_Signature :=
         "v0=a606c9056987a0dcf97475445dc9bb9b3e20889cf51e14c6e2b44817756bcf62" |}
    "payload=%7B%7D" = false.
Proof.
  apply verify_rejects_stale_request.
  intros ts Hts. vm_compute in Hts. injection Hts as <-. unfold max_int64. lia.
Defined.

(** Inside the window, and for every timestamp that is not in the past, the
    answer is the comparison of the signatures. *)
Lemma verify_compares_signatures_otherwise (secret : string) (now : Z)
    (r : Server.Request) (body : string) (ts : Z) :
  Server.X_Slack_Request_Timestamp r <> "" ->
  Server.X_Slack_Signature r <> "" ->
  ParseInt (Server.X_Slack_Request_Timestamp r) = Some ts ->
  (min_int64 <= now - ts <= 300)%Z ->
  Server.verifySlackRequest secret now r body
  = Crypto.hmac_Equal (Server.X_Slack_Signature r)
      ("v0=" +:+ Crypto.hex_EncodeToString
                   (Crypto.hmac_sha256 (bytes_of secret)
                      (bytes_of ("v0:" +:+ Server.X_Slack_Request_Timestamp r +:+ ":"
                                 +:+ body)))).
Proof.
  intros Hts Hsig Hparse Hrange. unfold Server.verifySlackRequest.
  destruct (String.eqb_spec (Server.X_Slack_Request_Timestamp r) ""); [contradiction|].
  destruct (String.eqb_spec (Server.X_Slack_Signature r) ""); [contradiction|].
  cbn [orb]. rewrite Hparse.
  rewrite wrap64_small by (unfold max_int64; lia).
  destruct (Z.ltb_spec 300 (now - ts)); [lia|reflexivity].
Qed.

(** The same request is accepted 300 seconds after its timestamp: the
    signature above is the right one. *)
Lemma verify_accepts_at_300_seconds :
  Server.verifySlackRequest "8f742231b10e8888abcd99yyyz7dd1e3" 1700000200
    {| Server.Method := "POST";
       Server.X_Slack_Request_Timestamp := "1699999900";
       Server.X_Slack_Signature :=
         "v0=a606c9056987a0dcf97475445dc9bb9b3e20889cf51e14c6e2b44817756bcf62" |}
    "payload=%7B%7D" = true.
Proof. vm_compute. reflexivity. Qed.

(** C1 as stated fails: a correctly signed request whose timestamp lies
    1000 seconds in the future is accepted, and so is one whose timestamp
    is so far in the past that [now - ts] overflows int64. *)
Lemma verify_accepts_future_timestamp :
  (Z.abs (1700000000 - 1700001000) > 300)%Z /\
  Server.verifySlackRequest "8f742231b10e8888abcd99yyyz7dd1e3" 1700000000
    {| Server.Method := "POST";
       Server.X_Slack_Request_Timestamp := "1700001000";
       Server.X_Slack_Signature :=
         "v0=9de11ef9149762dfed2bbcc6e3af9bf31d9dd9e7102e854585baf0399df0c741" |}
    "payload=%7B%7D" = true /\
  (Z.abs (1700000000 - -9223372036854775808) > 300)%Z /\
  Server.verifySlackRequest "8f742231b10e8888abcd99yyyz7dd1e3" 1700000000
    {| Server.Method := "POST";
       Server.X_Slack_Request_Timestamp := "-9223372036854775808";
       Server.X_Slack_Signature :=
         "v0=e448077de32b28be40fe1df1afc3f1243529270a6bf261b7de32533fd5d701d8" |}
    "payload=%7B%7D" = true.
Proof.
  split; [lia|]. split; [vm_compute; reflexivity|].
  split; [lia|]. vm_compute; reflexivity.
Qed.

(** ** Decoding of objects *)

Lemma decode_object_preserves {T : Type} (fields : list string)
    (set : string -> json -> T -> result T) (P : T -> Prop)
    (members : list (string * json)) :
  (forall kv f c c', In kv members -> field_for fields (fst kv) = Some f ->
                     P c -> set f (snd kv) c = Ok c' -> P c') ->
  forall cur r, P cur -> decode_object fields set (JObj members) cur = Ok r -> P r.
Proof.
  unfold decode_object.
  induction members as [|kv members IH]; intros Hstep cur r Hcur Hdec; simpl in Hdec.
  - injection Hdec as <-. exact Hcur.
  - destruct (field_for fields (fst kv)) as [f|] eqn:Hf.
    + destruct (set f (snd kv) cur) as [c'|e] eqn:Hset.
      * apply (IH (fun kv' f' c0 c1 Hin => Hstep kv' f' c0 c1 (or_intror Hin)) c' r);
          [|exact Hdec].
        apply (Hstep kv f cur c' (or_introl eq_refl) Hf Hcur Hset).
      * exfalso. clear -Hdec.
        induction members as [|kv' members IH']; simpl in Hdec; [discriminate|].
        apply IH'. exact Hdec.
    + apply (IH (fun kv' f' c0 c1 Hin => Hstep kv' f' c0 c1 (or_intror Hin)) cur r Hcur Hdec).
Qed.

Lemma lacks_field_spec (fields : list string) (name : string)
    (members : list (string * json)) :
  lacks_field fields name members = true ->
  forall kv f, In kv members -> field_for fields (fst kv) = Some f -> f <> name.
Proof.
  unfold lacks_field. rewrite forallb_forall. intros H kv f Hin Hf ->.
  specialize (H kv Hin). rewrite Hf, String.eqb_refl in H. discriminate.
Qed.

Ltac decoded H :=
  match type of H with
  | bind ?d _ = Ok _ => destruct d eqn:?; simpl in H; [injection H as <-|discriminate]
  end.

(** What decode_CloudWatchAlarm gives is the struct the loop over the
    members ends with. *)
Lemma decode_CloudWatchAlarm_Ok (rt : GoRuntime) (j : json)
    (a alarm : Adapter.CloudWatchAlarm rt) :
  Adapter.decode_CloudWatchAlarm rt j a = Ok alarm ->
  exists spare,
    decode_object Adapter.CloudWatchAlarm_fields (Adapter.set_CloudWatchAlarm rt) j (a, [])
    = Ok (alarm, spare).
Proof.
  unfold Adapter.decode_CloudWatchAlarm. intros H.
  destruct (decode_object _ _ j (a, [])) as [[alarm' spare]|]; [|discriminate H].
  injection H as <-. exists spare. reflexivity.
Qed.

Lemma set_CloudWatchAlarm_keeps_AlarmName (rt : GoRuntime) (f : string) (v : json)
    (a a' : Adapter.CloudWatchAlarm rt * list Adapter.Dimension) :
  f <> "AlarmName" -> Adapter.set_CloudWatchAlarm rt f v a = Ok a' ->
  Adapter.cw_AlarmName rt (fst a') = Adapter.cw_AlarmName rt (fst a).
Proof.
  intros Hf Hset. destruct a as [[] spare]. unfold Adapter.set_CloudWatchAlarm in Hset.
  destruct (String.eqb_spec f "AlarmName"); [contradiction|].
  repeat (destruct (String.eqb f _); [decoded Hset; reflexivity|]).
  decoded Hset; reflexivity.
Qed.

Lemma set_CloudWatchAlarm_keeps_NewStateValue (rt : GoRuntime) (f : string) (v : json)
    (a a' : Adapter.CloudWatchAlarm rt * list Adapter.Dimension) :
  f <> "NewStateValue" -> Adapter.set_CloudWatchAlarm rt f v a = Ok a' ->
  Adapter.cw_NewStateValue rt (fst a') = Adapter.cw_NewStateValue rt (fst a).
Proof.
  intros Hf Hset. destruct a as [[] spare]. unfold Adapter.set_CloudWatchAlarm in Hset.
  destruct (String.eqb_spec f "NewStateValue") as [->|_].
  - contradiction.
  - repeat (destruct (String.eqb f _); [decoded Hset; reflexivity|]).
    decoded Hset; reflexivity.
Qed.

(** ** Adaptation of queue-sourced payloads *)

(** Adaptation fails only when the envelope or the alarm inside its Message
    field does not decode. *)
Lemma sqs_adaptation_fails_only_on_decoding (rt : GoRuntime) (body : string)
    (channels alarmChannels : gmap string string) (e : JSON.error) :
  Adapter.AdaptSQSMessageWithRouting rt body channels alarmChannels = Err e ->
  Unmarshal Adapter.decode_Envelope body Adapter.Envelope_zero = Err e \/
  exists envelope,
    Unmarshal Adapter.decode_Envelope body Adapter.Envelope_zero = Ok envelope /\
    Unmarshal (Adapter.decode_CloudWatchAlarm rt) (Adapter.env_Message envelope)
      (Adapter.CloudWatchAlarm_zero rt) = Err e.
Proof.
  unfold Adapter.AdaptSQSMessageWithRouting. intros H.
  destruct (Unmarshal Adapter.decode_Envelope body Adapter.Envelope_zero)
    as [envelope|e1] eqn:Henv; simpl in H.
  - right. exists envelope. split; [reflexivity|].
    destruct (Unmarshal (Adapter.decode_CloudWatchAlarm rt) _ _) as [alarm|e2];
      simpl in H; [discriminate|]. injection H as <-. reflexivity.
  - left. injection H as <-. reflexivity.
Qed.

(** C2, as the code has it: the adapter does not look for required fields.
    When the envelope decodes and its Message is a JSON object that decodes
    into the alarm structure, adaptation succeeds and produces the outbound
    message also when AlarmName and NewStateValue are absent; the alert then
    carries an empty name and an empty state. *)
Theorem sqs_adaptation_without_required_fields (rt : GoRuntime) (body : string)
    (channels alarmChannels : gmap string string) (envelope : Adapter.Envelope)
    (members : list (string * json)) (alarm : Adapter.CloudWatchAlarm rt) :
  Unmarshal Adapter.decode_Envelope body Adapter.Envelope_zero = Ok envelope ->
  parse (Adapter.env_Message envelope) = Some (JObj members) ->
  lacks_field Adapter.CloudWatchAlarm_fields "AlarmName" members = true ->
  lacks_field Adapter.CloudWatchAlarm_fields "NewStateValue" members = true ->
  Adapter.decode_CloudWatchAlarm rt (JObj members) (Adapter.CloudWatchAlarm_zero rt)
    = Ok alarm ->
  Adapter.cw_AlarmName rt alarm = "" /\
  Adapter.cw_NewStateValue rt alarm = "" /\
  exists msg,
    Adapter.AdaptSQSMessageWithRouting rt body channels alarmChannels = Ok msg /\
    Adapter.Message msg = Adapter.formatSlackMessage rt alarm /\
    Adapter.Priority msg = Adapter.determinePriority rt alarm.
Proof.
  intros Henv Hparse Hname Hstate Hdec.
  destruct (decode_CloudWatchAlarm_Ok rt _ _ _ Hdec) as [spare Hobj].
  split; [|split].
  - apply (decode_object_preserves Adapter.CloudWatchAlarm_fields
             (Adapter.set_CloudWatchAlarm rt)
             (fun a => Adapter.cw_AlarmName rt (fst a) = "") members) with
      (cur := (Adapter.CloudWatchAlarm_zero rt, [])) (r := (alarm, spare));
      [|reflexivity|exact Hobj].
    intros kv f c c' Hin Hf Hc Hset.
    rewrite (set_CloudWatchAlarm_keeps_AlarmName rt f (snd kv) c c'); [exact Hc| |exact Hset].
    exact (lacks_field_spec _ _ _ Hname kv f Hin Hf).
  - apply (decode_object_preserves Adapter.CloudWatchAlarm_fields
             (Adapter.set_CloudWatchAlarm rt)
             (fun a => Adapter.cw_NewStateValue rt (fst a) = "") members) with
      (cur := (Adapter.CloudWatchAlarm_zero rt, [])) (r := (alarm, spare));
      [|reflexivity|exact Hobj].
    intros kv f c c' Hin Hf Hc Hset.
    rewrite (set_CloudWatchAlarm_keeps_NewStateValue rt f (snd kv) c c');
      [exact Hc| |exact Hset].
    exact (lacks_field_spec _ _ _ Hstate kv f Hin Hf).
  - unfold Adapter.AdaptSQSMessageWithRouting. rewrite Henv. simpl.
    unfold Unmarshal at 1. rewrite Hparse. rewrite Hdec. simpl.
    eexists. split; [reflexivity|]. split; reflexivity.
Qed.

Lemma sqs_adaptation_without_required_fields_witness :
  exists msg,
    Adapter.AdaptSQSMessageWithRouting Example.runtime
      (Example.q "{'Message':'{\'Region\':\'ap-south-1\'}'}") ∅ ∅ = Ok msg /\
    Adapter.Priority msg = "P2".
Proof.
  destruct (sqs_adaptation_without_required_fields Example.runtime
              (Example.q "{'Message':'{\'Region\':\'ap-south-1\'}'}") ∅ ∅
              {| Adapter.env_Message := Example.q "{'Region':'ap-south-1'}";
                 Adapter.env_Subject := "" |}
              [("Region", JStr "ap-south-1")]
              (Adapter.Build_CloudWatchAlarm Example.runtime "" None "" "" "" "" ""
                 "ap-south-1" "" (Adapter.Trigger_zero Example.runtime)))
    as (_ & _ & msg & Hmsg & _ & Hprio);
    [reflexivity | reflexivity | reflexivity
    | reflexivity | reflexivity |].
  exists msg. split; [exact Hmsg|]. rewrite Hprio. reflexivity.
Defined.

(** C2 as stated fails: the payload {} inside the envelope has neither
    AlarmName nor NewStateValue, and it is adapted, whatever the runtime and
    the routing tables. *)
Lemma sqs_adapts_empty_alarm_object :
  exists envelope,
    Unmarshal Adapter.decode_Envelope (Example.q "{'Message':'{}'}") Adapter.Envelope_zero
      = Ok envelope /\
    parse (Adapter.env_Message envelope) = Some (JObj []) /\
    lacks_field Adapter.CloudWatchAlarm_fields "AlarmName" [] = true /\
    lacks_field Adapter.CloudWatchAlarm_fields "NewStateValue" [] = true /\
    forall rt channels alarmChannels,
      is_ok (Adapter.AdaptSQSMessageWithRouting rt (Example.q "{'Message':'{}'}")
               channels alarmChannels) = true.
Proof.
  exists {| Adapter.env_Message := "{}"; Adapter.env_Subject := "" |}.
  split; [vm_compute; reflexivity|]. split; [vm_compute; reflexivity|].
  split; [reflexivity|]. split; [reflexivity|].
  intros rt channels alarmChannels. reflexivity.
Qed.

(** ** Routing *)

Lemma map_get_lookup (m : gmap string string) (k v : string) :
  m !! k = Some v -> Adapter.map_get m k = v.
Proof. intros H. unfold Adapter.map_get. rewrite H. reflexivity. Qed.

Lemma eqb_nonempty (s : string) : s <> "" -> String.eqb s "" = false.
Proof. intros H. destruct (String.eqb_spec s ""); [contradiction|reflexivity]. Qed.

(** C3, as the code has it: when the name an adapter routes by (the
    AlarmName of a cloud alarm, the ruleName of a legacy webhook, the
    alertname of the commonLabels of a modern webhook) has an entry with a
    non-empty channel in the explicit mapping, the alert goes to that
    channel, whatever the priority tables say; the priority is computed all
    the same. *)
Theorem explicit_mapping_wins (rt : GoRuntime) (channels alarmChannels : gmap string string)
    (name ch : string) :
  alarmChannels !! name = Some ch ->
  ch <> "" ->
  (forall body envelope alarm,
      Unmarshal Adapter.decode_Envelope body Adapter.Envelope_zero = Ok envelope ->
      Unmarshal (Adapter.decode_CloudWatchAlarm rt) (Adapter.env_Message envelope)
        (Adapter.CloudWatchAlarm_zero rt) = Ok alarm ->
      Adapter.cw_AlarmName rt alarm = name ->
      exists msg,
        Adapter.AdaptSQSMessageWithRouting rt body channels alarmChannels = Ok msg /\
        Adapter.Channel msg = ch /\
        Adapter.Priority msg = Adapter.determinePriority rt alarm) /\
  (forall orders body grafanaAlert,
      Adapter.modernWebhook rt body = None ->
      Unmarshal (Adapter.decode_GrafanaWebhook rt) body (Adapter.GrafanaWebhook_zero rt)
        = Ok grafanaAlert ->
      Adapter.gw_RuleName rt grafanaAlert = name ->
      exists msg,
        Adapter.AdaptGrafanaWebhook rt orders body channels alarmChannels = Ok msg /\
        Adapter.Channel msg = ch /\
        Adapter.Priority msg = Adapter.determineGrafanaPriority rt grafanaAlert) /\
  (forall orders body webhook,
      Adapter.modernWebhook rt body = Some webhook ->
      Adapter.map_get (Adapter.am_CommonLabels rt webhook) "alertname" = name ->
      exists msg,
        Adapter.AdaptGrafanaWebhook rt orders body channels alarmChannels = Ok msg /\
        Adapter.Channel msg = ch /\
        Adapter.Priority msg = Adapter.alertmanagerPriority rt webhook).
Proof.
  intros Hentry Hne.
  pose proof (map_get_lookup _ _ _ Hentry) as Hget.
  pose proof (eqb_nonempty _ Hne) as Hneb.
  split; [|split].
  - intros body envelope alarm Henv Halarm <-.
    unfold Adapter.AdaptSQSMessageWithRouting. rewrite Henv. simpl.
    rewrite Halarm. simpl. rewrite Hget, Hneb.
    eexists. split; [reflexivity|]. split; reflexivity.
  - intros orders body g Hmodern Hdec <-.
    unfold Adapter.AdaptGrafanaWebhook. rewrite Hmodern, Hdec.
    rewrite Hget, Hneb.
    eexists. split; [reflexivity|]. split; reflexivity.
  - intros orders body w Hmodern <-.
    unfold Adapter.AdaptGrafanaWebhook. rewrite Hmodern.
    unfold Adapter.adaptAlertmanagerWebhook. rewrite Hget, Hneb.
    eexists. split; [reflexivity|]. split; reflexivity.
Qed.

Lemma explicit_mapping_wins_witness :
  exists msg,
    Adapter.AdaptSQSMessageWithRouting Example.runtime
      (Example.q "{'Message':'{\'AlarmName\':\'prod-db-cpu-high\'}'}")
      {[ "P0" := "#p0-infra-alerts"; "default" := "#alerts" ]}
      {[ "prod-db-cpu-high" := "#dba-oncall" ]} = Ok msg /\
    Adapter.Channel msg = "#dba-oncall" /\
    Adapter.Priority msg = "P0".
Proof.
  destruct (explicit_mapping_wins Example.runtime
              {[ "P0" := "#p0-infra-alerts"; "default" := "#alerts" ]}
              {[ "prod-db-cpu-high" := "#dba-oncall" ]}
              "prod-db-cpu-high" "#dba-oncall")
    as (Hsqs & _ & _); [reflexivity | discriminate |].
  destruct (Hsqs (Example.q "{'Message':'{\'AlarmName\':\'prod-db-cpu-high\'}'}")
              {| Adapter.env_Message := Example.q "{'AlarmName':'prod-db-cpu-high'}";
                 Adapter.env_Subject := "" |}
              (Adapter.Build_CloudWatchAlarm Example.runtime "prod-db-cpu-high" None
                 "" "" "" "" "" "" "" (Adapter.Trigger_zero Example.runtime)))
    as (msg & Hmsg & Hch & Hprio);
    [reflexivity | reflexivity | reflexivity |].
  exists msg. split; [exact Hmsg|]. split; [exact Hch|].
  rewrite Hprio. reflexivity.
Defined.

(** C3 as stated fails where the entry of the mapping holds the empty
    channel name: the lookup result is taken for a missing entry and the
    alert is routed by priority. *)
Lemma empty_mapping_entry_is_ignored :
  ({[ "disk-full" := "" ]} : gmap string string) !! "disk-full" = Some "" /\
  forall rt,
    exists msg,
      Adapter.AdaptSQSMessageWithRouting rt
        (Example.q "{'Message':'{\'AlarmName\':\'disk-full\'}'}")
        {[ "P2" := "#p2-infra-alerts"; "default" := "#alerts" ]}
        {[ "disk-full" := "" ]} = Ok msg /\
      Adapter.Channel msg = "#p2-infra-alerts" /\
      Adapter.Channel msg <> "".
Proof.
  split; [vm_compute; reflexivity|].
  intros rt. eexists. split; [vm_compute; reflexivity|].
  split; [vm_compute; reflexivity|discriminate].
Qed.

(** ** The NoData rule of the modern webhook *)

Lemma noDataPriority_hit (rt : GoRuntime) (alerts : list (gmap string (any rt)))
    (alert : gmap string (any rt)) (text : string) :
  In alert alerts ->
  Adapter.nested_string rt alert "labels" "alertname" = Some text \/
  Adapter.nested_string rt alert "annotations" "description" = Some text ->
  Adapter.isNoDataText rt text = true ->
  forall priority, Adapter.noDataPriority rt alerts priority = "P1".
Proof.
  intros Hin Htext Hnodata priority.
  induction alerts as [|a alerts IH]; [destruct Hin|].
  simpl. destruct Hin as [->|Hin].
  - destruct Htext as [Hname|Hdesc].
    + rewrite Hname, Hnodata. reflexivity.
    + rewrite Hdesc, Hnodata.
      destruct (Adapter.nested_string rt alert "labels" "alertname") as [n|];
        [destruct (Adapter.isNoDataText rt n)|]; reflexivity.
  - rewrite (IH Hin).
    repeat match goal with
           | |- context [match ?x with _ => _ end] => destruct x
           end; reflexivity.
Qed.

Lemma ToUpper_firing (rt : GoRuntime) : ToUpper rt "firing" = "FIRING".
Proof. reflexivity. Qed.

(** C4: for a modern webhook whose status is "firing" and one of whose
    alerts has an alertname label or a description annotation that contains
    "nodata", "no data" or "data source" once lowered, the priority is P1,
    whatever the channel tag asks for. *)
Theorem nodata_forces_P1 (rt : GoRuntime) (annotationOrder : list (string * any rt))
    (webhook : Adapter.AlertmanagerWebhook rt) (channels alarmChannels : gmap string string)
    (alert : gmap string (any rt)) (text : string) :
  Adapter.am_Status rt webhook = "firing" ->
  In alert (Adapter.am_Alerts rt webhook) ->
  Adapter.nested_string rt alert "labels" "alertname" = Some text \/
  Adapter.nested_string rt alert "annotations" "description" = Some text ->
  Adapter.isNoDataText rt text = true ->
  Adapter.alertmanagerPriority rt webhook = "P1" /\
  exists msg,
    Adapter.adaptAlertmanagerWebhook rt annotationOrder webhook channels alarmChannels
      = Ok msg /\
    Adapter.Priority msg = "P1".
Proof.
  intros Hstatus Hin Htext Hnodata.
  assert (Hprio : Adapter.alertmanagerPriority rt webhook = "P1").
  { unfold Adapter.alertmanagerPriority. rewrite Hstatus, ToUpper_firing.
    destruct (Adapter.am_Alerts rt webhook) as [|a alerts] eqn:Halerts; [destruct Hin|].
    change (String.eqb "FIRING" "FIRING" && (0 <? List.length (a :: alerts))%nat) with true.
    cbv iota.
    rewrite (noDataPriority_hit rt (a :: alerts) alert text Hin Htext Hnodata).
    reflexivity. }
  split; [exact Hprio|].
  unfold Adapter.adaptAlertmanagerWebhook. rewrite Hprio.
  eexists. split; reflexivity.
Qed.

Lemma nodata_forces_P1_witness :
  exists msg,
    Adapter.AdaptGrafanaWebhook Example.runtime
      {| Adapter.ord_annotations := []; Adapter.ord_matchTags := [];
         Adapter.ord_tags := [] |}
      (Example.q
         "{'status':'firing','commonLabels':{'channel':'P2'},'alerts':[{'labels':{'alertname':'DatasourceNoData'}}]}")
      {[ "P1" := "#p1-infra-alerts"; "P2" := "#p2-infra-alerts" ]} ∅ = Ok msg /\
    Adapter.Priority msg = "P1".
Proof.
  pose (alert := ({[ "labels" := AnyMap {[ "alertname" := AnyString "DatasourceNoData" ]} ]}
                  : gmap string (any Example.runtime))).
  destruct (nodata_forces_P1 Example.runtime []
              (Adapter.Build_AlertmanagerWebhook Example.runtime [alert]
                 {[ "channel" := "P2" ]} "firing" "" "")
              {[ "P1" := "#p1-infra-alerts"; "P2" := "#p2-infra-alerts" ]} ∅
              alert "DatasourceNoData")
    as (_ & msg & Hmsg & Hprio);
    [reflexivity | left; reflexivity | left; reflexivity
    | reflexivity |].
  exists msg. split; [|exact Hprio].
  rewrite <- Hmsg. reflexivity.
Defined.

(** ** Priorities *)

Lemma determinePriority_closed (rt : GoRuntime) (alarm : Adapter.CloudWatchAlarm rt) :
  is_priority (Adapter.determinePriority rt alarm).
Proof.
  unfold Adapter.determinePriority, is_priority.
  repeat match goal with
         | |- context [if ?b then _ else _] => destruct b
         end; auto.
Qed.

Lemma determineGrafanaPriority_closed (rt : GoRuntime) (alert : Adapter.GrafanaWebhook rt) :
  is_priority (Adapter.determineGrafanaPriority rt alert).
Proof.
  unfold Adapter.determineGrafanaPriority, is_priority.
  destruct (Adapter.gw_Tags rt alert !! "channel") as [tag|].
  - repeat match goal with
           | |- context [if ?b then _ else _] => destruct b
           end; auto.
  - repeat match goal with
           | |- context [if ?b then _ else _] => destruct b
           end; auto.
Qed.

Lemma noDataPriority_values (rt : GoRuntime) (alerts : list (gmap string (any rt)))
    (priority : string) :
  Adapter.noDataPriority rt alerts priority = priority \/
  Adapter.noDataPriority rt alerts priority = "P1".
Proof.
  induction alerts as [|a alerts IH]; simpl; [left; reflexivity|].
  repeat match goal with
         | |- context [if ?b then _ else _] => destruct b
         end; auto.
Qed.

Lemma alertmanagerPriority_closed (rt : GoRuntime) (webhook : Adapter.AlertmanagerWebhook rt) :
  is_priority (Adapter.alertmanagerPriority rt webhook).
Proof.
  unfold Adapter.alertmanagerPriority, is_priority.
  destruct (String.eqb (ToUpper rt (Adapter.am_Status rt webhook)) "FIRING"
            && (0 <? List.length (Adapter.am_Alerts rt webhook))%nat).
  - destruct (noDataPriority_values rt (Adapter.am_Alerts rt webhook) "") as [-> | ->].
    + cbn [String.eqb].
      repeat match goal with
             | |- context [if ?b then _ else _] => destruct b
             end; auto.
    + auto.
  - cbn [String.eqb].
    repeat match goal with
           | |- context [if ?b then _ else _] => destruct b
           end; auto.
Qed.

Lemma alertmanagerPriority_unrecognised (rt : GoRuntime)
    (webhook : Adapter.AlertmanagerWebhook rt) :
  recognised_tag rt (Adapter.extractChannelTag rt webhook) = false ->
  Adapter.alertmanagerPriority rt webhook = "P2" \/
  (Adapter.alertmanagerPriority rt webhook = "P1" /\
   String.eqb (ToUpper rt (Adapter.am_Status rt webhook)) "FIRING" = true /\
   Adapter.noDataPriority rt (Adapter.am_Alerts rt webhook) "" = "P1").
Proof.
  unfold recognised_tag. intros Htag.
  apply orb_false_elim in Htag as [Htag H2]. apply orb_false_elim in Htag as [H0 H1].
  unfold Adapter.alertmanagerPriority.
  destruct (String.eqb (ToUpper rt (Adapter.am_Status rt webhook)) "FIRING") eqn:Hfiring;
    cbn [andb].
  - destruct ((0 <? List.length (Adapter.am_Alerts rt webhook))%nat).
    + destruct (noDataPriority_values rt (Adapter.am_Alerts rt webhook) "") as [Hn | Hn];
        rewrite Hn.
      * cbn [String.eqb]. rewrite H0, H1, H2. left. destruct (negb _); reflexivity.
      * right. auto.
    + cbn [String.eqb]. rewrite H0, H1, H2. left. destruct (negb _); reflexivity.
  - cbn [String.eqb]. rewrite H0, H1, H2. left. destruct (negb _); reflexivity.
Qed.

Lemma determineGrafanaPriority_unrecognised (rt : GoRuntime)
    (alert : Adapter.GrafanaWebhook rt) (tag : string) :
  Adapter.gw_Tags rt alert !! "channel" = Some tag ->
  recognised_tag rt tag = false ->
  Adapter.determineGrafanaPriority rt alert
  = Adapter.determineGrafanaPriority rt (without_channel_tag rt alert).
Proof.
  unfold recognised_tag. intros Hlookup Htag.
  apply orb_false_elim in Htag as [Htag H2]. apply orb_false_elim in Htag as [H0 H1].
  destruct alert as [di em iu me oi pi ri rn ru st tg ti]. simpl in Hlookup.
  unfold Adapter.determineGrafanaPriority, without_channel_tag. simpl.
  rewrite Hlookup, H0, H1, H2, lookup_delete_eq. reflexivity.
Qed.

(** C5, as the code has it: no classifier produces a priority outside
    P0, P1, P2; a channel tag with any other value is treated like a missing
    tag.  The modern adapter then yields P2 unless the NoData rule has
    already set P1; the legacy classifier goes on to its keyword rules and
    answers what it answers for the same alert without the tag. *)
Theorem priorities_closed_and_unrecognised_tags (rt : GoRuntime) :
  (forall alarm, is_priority (Adapter.determinePriority rt alarm)) /\
  (forall alert, is_priority (Adapter.determineGrafanaPriority rt alert)) /\
  (forall webhook, is_priority (Adapter.alertmanagerPriority rt webhook)) /\
  (forall webhook,
      recognised_tag rt (Adapter.extractChannelTag rt webhook) = false ->
      Adapter.alertmanagerPriority rt webhook = "P2" \/
      (Adapter.alertmanagerPriority rt webhook = "P1" /\
       String.eqb (ToUpper rt (Adapter.am_Status rt webhook)) "FIRING" = true /\
       Adapter.noDataPriority rt (Adapter.am_Alerts rt webhook) "" = "P1")) /\
  (forall alert tag,
      Adapter.gw_Tags rt alert !! "channel" = Some tag ->
      recognised_tag rt tag = false ->
      Adapter.determineGrafanaPriority rt alert
      = Adapter.determineGrafanaPriority rt (without_channel_tag rt alert)).
Proof.
  repeat split.
  - apply determinePriority_closed.
  - apply determineGrafanaPriority_closed.
  - apply alertmanagerPriority_closed.
  - apply alertmanagerPriority_unrecognised.
  - apply determineGrafanaPriority_unrecognised.
Qed.

Lemma priorities_closed_and_unrecognised_tags_witness :
  Adapter.determineGrafanaPriority Example.runtime
    (Adapter.Build_GrafanaWebhook Example.runtime 0 [] "" "" 0 0 0 "disk usage" "" ""
       {[ "channel" := "sev-5" ]} "")
  = "P2".
Proof.
  destruct (priorities_closed_and_unrecognised_tags Example.runtime)
    as (_ & _ & _ & _ & Hlegacy).
  rewrite (Hlegacy _ "sev-5"); reflexivity.
Defined.

(** C5 as stated fails: a legacy alert tagged channel=P5 whose rule name
    contains "critical" is classified P0, and a firing modern webhook tagged
    channel=P5 whose alert name is a NoData indicator is classified P1. *)
Lemma unrecognised_tag_not_folded_to_P2 :
  exists (tags : gmap string string) (alertname : string),
    tags !! "channel" = Some "P5" /\
    forall rt,
      recognised_tag rt "P5" = false /\
      Adapter.determineGrafanaPriority rt
        (Adapter.Build_GrafanaWebhook rt 0 [] "" "" 0 0 0 "critical-disk" "" "" tags "")
      = "P0" /\
      Adapter.alertmanagerPriority rt
        (Adapter.Build_AlertmanagerWebhook rt
           [ {[ "labels" := AnyMap {[ "alertname" := AnyString alertname ]} ]} ]
           tags "firing" "" "")
      = "P1".
Proof.
  exists {[ "channel" := "P5" ]}, "DatasourceNoData".
  split; [vm_compute; reflexivity|].
  intros rt. split; [reflexivity|]. split; vm_compute; reflexivity.
Qed.

(** ** Rendering and the order of map ranges *)

Lemma append_cons (c : ascii) (s t : string) : String c s +:+ t = String c (s +:+ t).
Proof. reflexivity. Qed.

Lemma append_empty_r (s : string) : s +:+ "" = s.
Proof. induction s as [|c s IH]; [reflexivity|]. rewrite append_cons, IH. reflexivity. Qed.

Lemma append_assoc (a b c : string) : (a +:+ b) +:+ c = a +:+ (b +:+ c).
Proof. induction a as [|x a IH]; [reflexivity|]. rewrite !append_cons, IH. reflexivity. Qed.

Lemma filter_Permutation_bool {A : Type} (f : A -> bool) (l1 l2 : list A) :
  l1 ≡ₚ l2 -> List.filter f l1 ≡ₚ List.filter f l2.
Proof.
  induction 1 as [|x l1 l2 _ IH|x y l|l1 l2 l3 _ IH1 _ IH2]; simpl.
  - reflexivity.
  - destruct (f x); [constructor|]; exact IH.
  - destruct (f x), (f y); try reflexivity. apply perm_swap.
  - etransitivity; eassumption.
Qed.

Lemma short_Permutation_eq {A : Type} (l1 l2 : list A) :
  l1 ≡ₚ l2 -> (List.length l1 <= 1)%nat -> l1 = l2.
Proof.
  intros Hperm Hlen. destruct l1 as [|x [|y l1]]; simpl in Hlen; [| |lia].
  - symmetry. apply Permutation_nil. exact Hperm.
  - symmetry. apply Permutation_length_1_inv. exact Hperm.
Qed.

(** Two visiting orders of one map show the same entries in the same order
    when at most one entry is shown. *)
Lemma shown_entries_agree {V : Type} (shown : string * V -> bool) (m : gmap string V)
    (o1 o2 : list (string * V)) :
  Adapter.range_order m o1 -> Adapter.range_order m o2 ->
  at_most_one_shown shown m ->
  List.filter shown o1 = List.filter shown o2.
Proof.
  unfold Adapter.range_order, at_most_one_shown. intros H1 H2 Hone.
  apply short_Permutation_eq.
  - apply filter_Permutation_bool. rewrite H1, H2. reflexivity.
  - rewrite (Permutation_length (filter_Permutation_bool shown _ _ H1)). exact Hone.
Qed.

Lemma fold_matches_agree (rt : GoRuntime) (matches : list (Adapter.EvalMatch rt)) :
  forall (mo1 mo2 : list (list (string * string))) (init : string),
    Forall2 (fun em o => Adapter.range_order (Adapter.em_Tags rt em) o) matches mo1 ->
    Forall2 (fun em o => Adapter.range_order (Adapter.em_Tags rt em) o) matches mo2 ->
    Forall (fun em => at_most_one_shown Adapter.isImportantMatchTag (Adapter.em_Tags rt em))
      matches ->
    fold_left (fun msg mo => msg +:+ Adapter.formatEvalMatch rt (fst mo) (snd mo))
      (combine matches mo1) init
    = fold_left (fun msg mo => msg +:+ Adapter.formatEvalMatch rt (fst mo) (snd mo))
        (combine matches mo2) init.
Proof.
  induction matches as [|em matches IH]; intros mo1 mo2 init H1 H2 Hone.
  - reflexivity.
  - inversion H1 as [|? o1 ? mo1' Ho1 H1']; subst.
    inversion H2 as [|? o2 ? mo2' Ho2 H2']; subst.
    inversion Hone as [|? ? Hem Hone']; subst.
    simpl.
    assert (Heq : Adapter.formatEvalMatch rt em o1 = Adapter.formatEvalMatch rt em o2).
    { unfold Adapter.formatEvalMatch, Adapter.matchTagsSuffix.
      rewrite (shown_entries_agree _ _ o1 o2 Ho1 Ho2 Hem). reflexivity. }
    rewrite Heq. apply IH; assumption.
Qed.

Lemma fold_annotations_shown (rt : GoRuntime) (order : list (string * any rt)) :
  forall init,
    fold_left (fun msg kv => msg +:+ Adapter.annotationLine rt kv) order init
    = fold_left (fun msg kv => msg +:+ Adapter.annotationLine rt kv)
        (List.filter (rendersAnnotation rt) order) init.
Proof.
  induction order as [|kv order IH]; intros init; [reflexivity|].
  cbn [fold_left List.filter]. unfold rendersAnnotation at 1.
  destruct (String.eqb_spec (Adapter.annotationLine rt kv) "") as [Hline|_];
    cbn [negb fold_left].
  - rewrite Hline, append_empty_r. apply IH.
  - apply IH.
Qed.

(** C6, as the code has it: a formatter that ranges over a map renders the
    same text on every run when each such map shows at most one entry: the
    tags of a legacy alert other than channel with a non-empty value, the
    tags of each metric other than __name__, job and instance, and the
    annotations of the first modern alert that add a line.  (The cloud-alarm
    formatter ranges over no map.) *)
Theorem rendering_deterministic_with_single_entries (rt : GoRuntime) :
  (forall (alert : Adapter.GrafanaWebhook rt) mo1 mo2 to1 to2,
      Forall2 (fun em o => Adapter.range_order (Adapter.em_Tags rt em) o)
        (Adapter.gw_EvalMatches rt alert) mo1 ->
      Forall2 (fun em o => Adapter.range_order (Adapter.em_Tags rt em) o)
        (Adapter.gw_EvalMatches rt alert) mo2 ->
      Adapter.range_order (Adapter.gw_Tags rt alert) to1 ->
      Adapter.range_order (Adapter.gw_Tags rt alert) to2 ->
      Forall (fun em => at_most_one_shown Adapter.isImportantMatchTag (Adapter.em_Tags rt em))
        (Adapter.gw_EvalMatches rt alert) ->
      at_most_one_shown Adapter.isImportantTag (Adapter.gw_Tags rt alert) ->
      Adapter.formatGrafanaSlackMessage rt mo1 to1 alert
      = Adapter.formatGrafanaSlackMessage rt mo2 to2 alert) /\
  (forall (webhook : Adapter.AlertmanagerWebhook rt) ao1 ao2,
      (forall annotations,
          firstAnnotations rt webhook = Some annotations ->
          Adapter.range_order annotations ao1 /\
          Adapter.range_order annotations ao2 /\
          at_most_one_shown (rendersAnnotation rt) annotations) ->
      Adapter.formatAlertmanagerSlackMessage rt ao1 webhook
      = Adapter.formatAlertmanagerSlackMessage rt ao2 webhook).
Proof.
  split.
  - intros alert mo1 mo2 to1 to2 Hmo1 Hmo2 Hto1 Hto2 Hmatches Htags.
    unfold Adapter.formatGrafanaSlackMessage.
    rewrite (shown_entries_agree _ _ to1 to2 Hto1 Hto2 Htags).
    match goal with
    | |- context [let '(_, _) := ?b in _] => destruct b as [emoji stateColor]
    end.
    remember (Adapter.gw_EvalMatches rt alert) as ms eqn:Hms.
    destruct ms as [|em matches]; [reflexivity|].
    rewrite (fold_matches_agree rt (em :: matches) mo1 mo2 _ Hmo1 Hmo2 Hmatches).
    reflexivity.
  - intros webhook ao1 ao2 Hann.
    assert (Henh : Adapter.formatEnhancedAlertMessage rt ao1 webhook
                   = Adapter.formatEnhancedAlertMessage rt ao2 webhook).
    { unfold Adapter.formatEnhancedAlertMessage.
      destruct (Adapter.statusBadge rt (Adapter.am_Status rt webhook))
        as [emoji stateColor].
      unfold firstAnnotations in Hann.
      destruct (Adapter.am_Alerts rt webhook) as [|first rest]; [reflexivity|].
      destruct (as_map (first !! "annotations")) as [annotations|]; [|reflexivity].
      destruct (Hann annotations eq_refl) as (H1 & H2 & Hone).
      rewrite (fold_annotations_shown rt ao1), (fold_annotations_shown rt ao2).
      rewrite (shown_entries_agree _ _ ao1 ao2 H1 H2 Hone). reflexivity. }
    unfold Adapter.formatAlertmanagerSlackMessage. rewrite Henh. reflexivity.
Qed.

Lemma rendering_deterministic_with_single_entries_witness :
  Adapter.formatGrafanaSlackMessage Example.runtime []
    [("channel", "P1"); ("team", "db")]
    (Adapter.Build_GrafanaWebhook Example.runtime 0 [] "" "" 0 0 0 "" "" "ok"
       {[ "channel" := "P1"; "team" := "db" ]} "latency")
  = Adapter.formatGrafanaSlackMessage Example.runtime []
      [("team", "db"); ("channel", "P1")]
      (Adapter.Build_GrafanaWebhook Example.runtime 0 [] "" "" 0 0 0 "" "" "ok"
         {[ "channel" := "P1"; "team" := "db" ]} "latency").
Proof.
  destruct (rendering_deterministic_with_single_entries Example.runtime) as [Hlegacy _].
  apply Hlegacy.
  - constructor.
  - constructor.
  - unfold Adapter.range_order. vm_compute map_to_list.
    first [reflexivity | apply perm_swap].
  - unfold Adapter.range_order. vm_compute map_to_list.
    first [reflexivity | apply perm_swap].
  - constructor.
  - unfold at_most_one_shown. vm_compute map_to_list. simpl. lia.
Defined.

(** C6 as stated fails: with two tags to show, the two orders in which a
    range may visit the map give two different texts, for the legacy
    formatter and, with two annotations, for the modern one. *)
Lemma rendering_depends_on_range_order :
  (exists (tags : gmap string string) (o1 o2 : list (string * string)),
      Adapter.range_order tags o1 /\ Adapter.range_order tags o2 /\
      forall rt,
        Adapter.formatGrafanaSlackMessage rt [] o1
          (Adapter.Build_GrafanaWebhook rt 0 [] "" "" 0 0 0 "" "" "ok" tags "latency")
        <> Adapter.formatGrafanaSlackMessage rt [] o2
             (Adapter.Build_GrafanaWebhook rt 0 [] "" "" 0 0 0 "" "" "ok" tags "latency")) /\
  (forall rt,
      exists (annotations : gmap string (any rt)) (o1 o2 : list (string * any rt)),
        Adapter.range_order annotations o1 /\ Adapter.range_order annotations o2 /\
        Adapter.formatAlertmanagerSlackMessage rt o1
          (Adapter.Build_AlertmanagerWebhook rt
             [ {[ "annotations" := AnyMap annotations ]} ] ∅ "firing" "" "")
        <> Adapter.formatAlertmanagerSlackMessage rt o2
             (Adapter.Build_AlertmanagerWebhook rt
                [ {[ "annotations" := AnyMap annotations ]} ] ∅ "firing" "" "")).
Proof.
  split.
  - exists {[ "env" := "prod"; "team" := "db" ]},
           [("env", "prod"); ("team", "db")], [("team", "db"); ("env", "prod")].
    split; [|split].
    + unfold Adapter.range_order. vm_compute map_to_list.
      first [reflexivity | apply perm_swap].
    + unfold Adapter.range_order. vm_compute map_to_list.
      first [reflexivity | apply perm_swap].
    + intros rt H. vm_compute in H. discriminate H.
  - intros rt.
    exists {[ "runbook" := AnyString "wiki/disk"; "team" := AnyString "db" ]},
           [("runbook", AnyString "wiki/disk"); ("team", AnyString "db")],
           [("team", AnyString "db"); ("runbook", AnyString "wiki/disk")].
    split; [|split].
    + unfold Adapter.range_order. vm_compute map_to_list.
      first [reflexivity | apply perm_swap].
    + unfold Adapter.range_order. vm_compute map_to_list.
      first [reflexivity | apply perm_swap].
    + intros H. vm_compute in H. discriminate H.
Qed.

(** ** The polling loop *)

Lemma count_app (p : Sqs.event -> bool) (t1 t2 : list Sqs.event) :
  count p (t1 ++ t2)%list = (count p t1 + count p t2)%nat.
Proof. unfold count. rewrite List.filter_app, List.length_app. reflexivity. Qed.

Lemma count_zero_before (p : nat -> nat -> Sqs.event -> bool) (round idx : nat)
    (trace : list Sqs.event) :
  (forall r i ev, p r i ev = true ->
     match ev with
     | Sqs.Handled r' i' _ | Sqs.Deleted r' i' _ _ => r' = r /\ i' = i
     | _ => False
     end) ->
  Forall (before round idx) trace ->
  count (p round idx) trace = 0%nat.
Proof.
  intros Hp Hbefore. unfold count.
  induction Hbefore as [|ev trace Hev _ IH]; [reflexivity|].
  simpl. destruct (p round idx ev) eqn:Hpe; [|exact IH].
  exfalso. specialize (Hp round idx ev Hpe).
  destruct ev; simpl in Hev; try contradiction; destruct Hp; subst; lia.
Qed.

Lemma handled_ok_names (r i : nat) (ev : Sqs.event) :
  handled_ok r i ev = true ->
  match ev with
  | Sqs.Handled r' i' _ | Sqs.Deleted r' i' _ _ => r' = r /\ i' = i
  | _ => False
  end.
Proof.
  destruct ev as [| |r' i' [|]|]; simpl; try discriminate.
  intros H. apply andb_true_iff in H as [H1 H2].
  apply Nat.eqb_eq in H1, H2. auto.
Qed.

Lemma handled_err_names (r i : nat) (ev : Sqs.event) :
  handled_err r i ev = true ->
  match ev with
  | Sqs.Handled r' i' _ | Sqs.Deleted r' i' _ _ => r' = r /\ i' = i
  | _ => False
  end.
Proof.
  destruct ev as [| |r' i' [|]|]; simpl; try discriminate.
  intros H. apply andb_true_iff in H as [H1 H2].
  apply Nat.eqb_eq in H1, H2. auto.
Qed.

Lemma deleted_names (r i : nat) (ev : Sqs.event) :
  deleted r i ev = true ->
  match ev with
  | Sqs.Handled r' i' _ | Sqs.Deleted r' i' _ _ => r' = r /\ i' = i
  | _ => False
  end.
Proof.
  destruct ev as [| |r' i' ok|r' i' h ok]; simpl; try discriminate.
  intros H. apply andb_true_iff in H as [H1 H2].
  apply Nat.eqb_eq in H1, H2. auto.
Qed.

Lemma before_weaken (round idx round' idx' : nat) (trace : list Sqs.event) :
  (round < round' \/ (round = round' /\ idx <= idx'))%nat ->
  Forall (before round idx) trace -> Forall (before round' idx') trace.
Proof.
  intros Hle H. eapply Forall_impl; [exact H|].
  intros ev. destruct ev; simpl; auto; lia.
Qed.

(** Appending what the loop does for the message at [round], [idx] keeps
    the trace consistent. *)
Lemma consistent_step (round idx : nat) (trace extra : list Sqs.event) :
  consistent trace ->
  Forall (before round idx) trace ->
  (exists h d, extra = [Sqs.Handled round idx true; Sqs.Deleted round idx h d])
  \/ extra = [Sqs.Handled round idx false] ->
  consistent (trace ++ extra)%list /\ Forall (before round (S idx)) (trace ++ extra)%list.
Proof.
  intros Hcons Hbefore Hshape. split.
  - intros r i. rewrite !count_app.
    destruct (Hcons r i) as [Hone Hdel].
    destruct (Nat.eq_dec r round) as [->|Hr];
      [destruct (Nat.eq_dec i idx) as [->|Hi]|].
    + rewrite (count_zero_before handled_ok round idx trace handled_ok_names Hbefore) in *.
      rewrite (count_zero_before handled_err round idx trace handled_err_names Hbefore) in *.
      rewrite (count_zero_before deleted round idx trace deleted_names Hbefore) in *.
      destruct Hshape as [(h & d & ->)| ->]; unfold count; simpl;
        rewrite !Nat.eqb_refl; simpl; lia.
    + assert (Hne : (idx =? i)%nat = false) by (apply Nat.eqb_neq; congruence).
      destruct Hshape as [(h & d & ->)| ->]; unfold count in *; simpl;
        rewrite Hne, ?andb_false_r; simpl; lia.
    + assert (Hne : (round =? r)%nat = false) by (apply Nat.eqb_neq; congruence).
      destruct Hshape as [(h & d & ->)| ->]; unfold count in *; simpl;
        rewrite Hne; simpl; lia.
  - apply Forall_app. split.
    + apply (before_weaken round idx); [lia|exact Hbefore].
    + destruct Hshape as [(h & d & ->)| ->]; repeat constructor; simpl; lia.
Qed.

Section PollProperties.
Variable World : Type.
Variable ReceiveMessage : World -> option (list Sqs.SQSMessage) * World.
Variable DeleteMessage : option string -> World -> bool * World.
Variable handler : string -> World -> bool * World.

Lemma processMessages_consistent (round : nat) (msgs : list Sqs.SQSMessage) :
  forall idx w trace,
    consistent trace -> Forall (before round idx) trace ->
    let trace' := snd (Sqs.processMessages World DeleteMessage handler round idx msgs w trace) in
    consistent trace' /\ Forall (before (S round) 0) trace'.
Proof.
  induction msgs as [|msg msgs IH]; intros idx w trace Hcons Hbefore; simpl.
  - split; [exact Hcons|]. apply (before_weaken round idx); [lia|exact Hbefore].
  - destruct (Sqs.Body msg) as [body|]; simpl.
    + destruct (handler body w) as [[|] w1].
      * destruct (DeleteMessage (Sqs.ReceiptHandle msg) w1) as [d w2].
        destruct (consistent_step round idx trace
                    [Sqs.Handled round idx true;
                     Sqs.Deleted round idx (Sqs.ReceiptHandle msg) d] Hcons Hbefore)
          as [Hc Hb]; [left; eauto|].
        apply IH; assumption.
      * destruct (consistent_step round idx trace
                    [Sqs.Handled round idx false] Hcons Hbefore)
          as [Hc Hb]; [right; reflexivity|].
        apply IH; assumption.
    + split; [exact Hcons|]. apply (before_weaken round idx); [lia|exact Hbefore].
Qed.

Lemma consistent_other (trace extra : list Sqs.event) (round idx : nat) :
  consistent trace -> Forall (before round idx) trace ->
  Forall (fun ev => match ev with
                    | Sqs.Received _ _ | Sqs.Slept _ => True
                    | _ => False
                    end) extra ->
  consistent (trace ++ extra)%list /\ Forall (before round idx) (trace ++ extra)%list.
Proof.
  intros Hcons Hbefore Hextra. split.
  - intros r i. rewrite !count_app. destruct (Hcons r i) as [Hone Hdel].
    assert (Hz : forall p, (forall ev, match ev with
                                       | Sqs.Received _ _ | Sqs.Slept _ => p ev = false
                                       | _ => True
                                       end) -> count p extra = 0%nat).
    { intros p Hp. unfold count. induction Hextra as [|ev extra Hev _ IH]; [reflexivity|].
      simpl. specialize (Hp ev). destruct ev; try contradiction; rewrite Hp; exact IH. }
    rewrite (Hz (handled_ok r i)), (Hz (handled_err r i)), (Hz (deleted r i));
      try (intros ev; destruct ev; reflexivity || exact I).
    lia.
  - apply Forall_app. split; [exact Hbefore|].
    eapply Forall_impl; [exact Hextra|]. intros ev. destruct ev; simpl; tauto.
Qed.

Lemma Poll_consistent (rounds : nat) :
  forall round w trace,
    consistent trace -> Forall (before round 0) trace ->
    consistent (snd (Sqs.Poll World ReceiveMessage DeleteMessage handler rounds round w trace)).
Proof.
  induction rounds as [|rounds IH]; intros round w trace Hcons Hbefore; simpl.
  - exact Hcons.
  - unfold Sqs.pollOnce. destruct (ReceiveMessage w) as [[msgs|] w1].
    + destruct (consistent_other trace [Sqs.Received round true] round 0 Hcons Hbefore)
        as [Hc Hb]; [repeat constructor|].
      pose proof (processMessages_consistent round msgs 0 w1 _ Hc Hb) as Hp.
      destruct (Sqs.processMessages World DeleteMessage handler round 0 msgs w1
                  (trace ++ [Sqs.Received round true])%list) as [[out w2] trace2].
      simpl in Hp. destruct Hp as [Hc2 Hb2].
      destruct out; [apply IH; assumption|exact Hc2].
    + destruct (consistent_other trace [Sqs.Received round false; Sqs.Slept round]
                  round 0 Hcons Hbefore) as [Hc Hb]; [repeat constructor|].
      apply IH; [exact Hc|]. apply (before_weaken round 0); [lia|exact Hb].
Qed.

Lemma count_positive (p : Sqs.event -> bool) (ev : Sqs.event) (trace : list Sqs.event) :
  In ev trace -> p ev = true -> (1 <= count p trace)%nat.
Proof.
  intros Hin Hp. unfold count.
  induction trace as [|e trace IH]; [destruct Hin|].
  simpl. destruct Hin as [->|Hin].
  - rewrite Hp. simpl. lia.
  - specialize (IH Hin). destruct (p e); simpl; lia.
Qed.

Lemma processMessages_journal (round : nat) (msgs : list Sqs.SQSMessage) :
  forall idx w journal trace,
    exists calls completed,
      Sqs.processMessages (World * list call) (journalDelete World DeleteMessage)
        (journalHandler World handler) round idx msgs (w, journal) trace
      = (fst (fst (Sqs.processMessages World DeleteMessage handler round idx msgs w trace)),
         (snd (fst (Sqs.processMessages World DeleteMessage handler round idx msgs w
                      trace)),
          (journal ++ calls)%list),
         snd (Sqs.processMessages World DeleteMessage handler round idx msgs w trace)) /\
      batch_calls msgs calls completed /\
      Forall (answered World ReceiveMessage DeleteMessage handler) calls /\
      (fst (fst (Sqs.processMessages World DeleteMessage handler round idx msgs w trace))
       = Sqs.Running <-> completed = true).
Proof.
  induction msgs as [|msg msgs IH]; intros idx w journal trace;
    cbn [Sqs.processMessages].
  - exists [], true. rewrite List.app_nil_r.
    split; [reflexivity|]. split; [constructor|]. split; [constructor|]. tauto.
  - destruct (Sqs.Body msg) as [body|] eqn:Hbody.
    + unfold journalHandler at 1. cbn [fst snd].
      destruct (handler body w) as [ok w1] eqn:Hhandler. destruct ok.
      * unfold journalDelete at 1. cbn [fst snd].
        destruct (DeleteMessage (Sqs.ReceiptHandle msg) w1) as [d w2] eqn:Hdelete.
        destruct (IH (S idx) w2
                    ((journal ++ [CallHandler body true])
                     ++ [CallDelete (Sqs.ReceiptHandle msg) d])%list
                    (trace ++ [Sqs.Handled round idx true;
                               Sqs.Deleted round idx (Sqs.ReceiptHandle msg) d])%list)
          as (calls & completed & -> & Hcalls & Hanswered & Hrun).
        exists (CallHandler body true :: CallDelete (Sqs.ReceiptHandle msg) d :: calls),
          completed.
        split; [rewrite <- !List.app_assoc; reflexivity|].
        split; [apply batch_success; assumption|].
        split; [|exact Hrun].
        constructor; [exists w; rewrite Hhandler; reflexivity|].
        constructor; [exists w1; rewrite Hdelete; reflexivity|exact Hanswered].
      * destruct (IH (S idx) w1 (journal ++ [CallHandler body false])%list
                    (trace ++ [Sqs.Handled round idx false])%list)
          as (calls & completed & -> & Hcalls & Hanswered & Hrun).
        exists (CallHandler body false :: calls), completed.
        split; [rewrite <- !List.app_assoc; reflexivity|].
        split; [apply batch_failure; assumption|].
        split; [|exact Hrun].
        constructor; [exists w; rewrite Hhandler; reflexivity|exact Hanswered].
    + exists [], false. rewrite List.app_nil_r.
      split; [reflexivity|]. split; [apply batch_no_body; exact Hbody|].
      split; [constructor|]. split; discriminate.
Qed.

Lemma Poll_journal (rounds : nat) :
  forall round w journal trace,
    exists calls,
      Sqs.Poll (World * list call) (journalReceive World ReceiveMessage)
        (journalDelete World DeleteMessage) (journalHandler World handler)
        rounds round (w, journal) trace
      = (fst (fst (Sqs.Poll World ReceiveMessage DeleteMessage handler rounds round w
                     trace)),
         (snd (fst (Sqs.Poll World ReceiveMessage DeleteMessage handler rounds round w
                      trace)),
          (journal ++ calls)%list),
         snd (Sqs.Poll World ReceiveMessage DeleteMessage handler rounds round w trace)) /\
      poll_calls calls.
Proof.
  induction rounds as [|rounds IH]; intros round w journal trace; cbn [Sqs.Poll].
  - exists []. rewrite List.app_nil_r. split; [reflexivity|constructor].
  - unfold Sqs.pollOnce.
    assert (Hreceive :
      journalReceive World ReceiveMessage (w, journal)
      = (fst (ReceiveMessage w),
         (snd (ReceiveMessage w),
          (journal ++ [CallReceive (fst (ReceiveMessage w))])%list))).
    { unfold journalReceive. cbn [fst snd]. destruct (ReceiveMessage w). reflexivity. }
    rewrite Hreceive. clear Hreceive.
    destruct (ReceiveMessage w) as [[msgs|] w1]; cbn [fst snd].
    + destruct (processMessages_journal round msgs 0 w1
                  (journal ++ [CallReceive (Some msgs)])%list
                  (trace ++ [Sqs.Received round true])%list)
        as (calls & completed & -> & Hcalls & _ & Hrun).
      destruct (Sqs.processMessages World DeleteMessage handler round 0 msgs w1
                  (trace ++ [Sqs.Received round true])%list) as [[out w2] trace2].
      cbn [fst snd] in *. destruct out; cbv beta iota.
      * assert (completed = true) as -> by (apply Hrun; reflexivity).
        destruct (IH (S round) w2 ((journal ++ [CallReceive (Some msgs)]) ++ calls)%list
                    trace2) as (rest & -> & Hrest).
        exists (CallReceive (Some msgs) :: calls ++ rest)%list.
        split; [rewrite <- !List.app_assoc; reflexivity|].
        apply poll_batch; assumption.
      * assert (completed = false) as ->.
        { destruct completed; [|reflexivity].
          assert (Sqs.Panicked = Sqs.Running) by (apply Hrun; reflexivity).
          discriminate. }
        exists (CallReceive (Some msgs) :: calls).
        split; [rewrite <- !List.app_assoc; reflexivity|].
        apply poll_panic. exact Hcalls.
    + destruct (IH (S round) w1 (journal ++ [CallReceive None])%list
                  (trace ++ [Sqs.Received round false; Sqs.Slept round])%list)
        as (rest & -> & Hrest).
      exists (CallReceive None :: rest).
      split; [rewrite <- !List.app_assoc; reflexivity|].
      apply poll_receive_error. exact Hrest.
Qed.

Lemma batch_calls_deletes (msgs : list Sqs.SQSMessage) (calls : list call)
    (completed : bool) :
  batch_calls msgs calls completed ->
  List.length (List.filter is_delete calls) = List.length (List.filter is_success calls).
Proof.
  induction 1 as [| | msg rest body d calls completed _ _ IH
                  | msg rest body calls completed _ _ IH];
    cbn [List.filter is_delete is_success List.length]; congruence.
Qed.

Lemma poll_calls_deletes (calls : list call) :
  poll_calls calls ->
  List.length (List.filter is_delete calls) = List.length (List.filter is_success calls).
Proof.
  induction 1 as [|rest _ IH|msgs calls rest Hbatch _ IH|msgs calls Hbatch];
    cbn [List.filter is_delete is_success]; [reflexivity|exact IH| |].
  - rewrite !List.filter_app, !List.length_app, IH, (batch_calls_deletes _ _ _ Hbatch).
    reflexivity.
  - exact (batch_calls_deletes _ _ _ Hbatch).
Qed.

(** C7: for any number of rounds of Poll and any three operations, let the
    operations write their own calls in a journal (which changes neither the
    outcome, nor the world, nor the trace of the run).  The journal is then
    made of rounds, and within the batch of a round every call of the handler
    that answered success is followed at once by one call of DeleteMessage
    with the receipt handle of that message, whatever DeleteMessage answers,
    and a call of the handler that answered an error is followed by no delete;
    so DeleteMessage was invoked as often as the handler succeeded.  In the
    trace of the run each message is handled at most once and has one delete
    after a success and none after an error. *)
Theorem poll_deletes_exactly_the_successes (rounds : nat) (w : World) (r i : nat) :
  let run := Sqs.Poll World ReceiveMessage DeleteMessage handler rounds 0 w [] in
  let journalled :=
    Sqs.Poll (World * list call) (journalReceive World ReceiveMessage)
      (journalDelete World DeleteMessage) (journalHandler World handler)
      rounds 0 (w, []) [] in
  let journal := snd (snd (fst journalled)) in
  let trace := snd run in
  (fst (fst journalled) = fst (fst run) /\
   fst (snd (fst journalled)) = snd (fst run) /\
   snd journalled = trace) /\
  poll_calls journal /\
  List.length (List.filter is_delete journal)
  = List.length (List.filter is_success journal) /\
  (In (Sqs.Handled r i true) trace -> count (deleted r i) trace = 1%nat) /\
  (In (Sqs.Handled r i false) trace -> count (deleted r i) trace = 0%nat) /\
  (count (handled_ok r i) trace + count (handled_err r i) trace <= 1)%nat /\
  count (deleted r i) trace = count (handled_ok r i) trace.
Proof.
  intros run journalled journal trace.
  destruct (Poll_journal rounds 0 w [] []) as (calls & Hjournalled & Hcalls).
  assert (Hjournal : journal = calls).
  { unfold journal, journalled. rewrite Hjournalled. reflexivity. }
  split; [unfold journalled; rewrite Hjournalled; repeat split; reflexivity|].
  rewrite Hjournal. split; [exact Hcalls|]. split; [exact (poll_calls_deletes _ Hcalls)|].
  assert (Hcons : consistent trace).
  { apply Poll_consistent; [|constructor].
    intros r' i'. unfold count. simpl. split; [lia|reflexivity]. }
  destruct (Hcons r i) as [Hone Hdel].
  split; [|split; [|split; assumption]].
  - intros Hin.
    pose proof (count_positive (handled_ok r i) _ trace Hin) as Hpos.
    simpl in Hpos. rewrite !Nat.eqb_refl in Hpos. specialize (Hpos eq_refl). lia.
  - intros Hin.
    pose proof (count_positive (handled_err r i) _ trace Hin) as Hpos.
    simpl in Hpos. rewrite !Nat.eqb_refl in Hpos. specialize (Hpos eq_refl). lia.
Qed.

End PollProperties.

(** One round over a batch of three messages, the second of which the
    handler refuses, with a queue that answers every delete with an error:
    the journal holds the two deletes all the same. *)
Lemma poll_deletes_exactly_the_successes_witness :
  let batch :=
    [ {| Sqs.Body := Some "alarm-1"; Sqs.ReceiptHandle := Some "h1" |};
      {| Sqs.Body := Some "not json"; Sqs.ReceiptHandle := Some "h2" |};
      {| Sqs.Body := Some "alarm-3"; Sqs.ReceiptHandle := Some "h3" |} ] in
  let journal :=
    snd (snd (fst
      (Sqs.Poll (unit * list call)
         (journalReceive unit (fun w => (Some batch, w)))
         (journalDelete unit (fun _ w => (false, w)))
         (journalHandler unit (fun body w => (negb (String.eqb body "not json"), w)))
         1 0 (tt, []) []))) in
  journal
  = [ CallReceive (Some batch);
      CallHandler "alarm-1" true; CallDelete (Some "h1") false;
      CallHandler "not json" false;
      CallHandler "alarm-3" true; CallDelete (Some "h3") false ] /\
  poll_calls journal /\
  List.length (List.filter is_delete journal) = 2%nat.
Proof.
  intros batch journal.
  split; [reflexivity|].
  destruct (poll_deletes_exactly_the_successes unit (fun w => (Some batch, w))
              (fun _ w => (false, w))
              (fun body w => (negb (String.eqb body "not json"), w)) 1 tt 0 0)
    as (_ & Hcalls & Hdeletes & _).
  split; [exact Hcalls|].
  exact Hdeletes.
Defined.

(** ** Searching and trimming byte strings *)

Lemma HasPrefix_cons (c p : ascii) (s prefix : string) :
  HasPrefix (String c s) (String p prefix) = Ascii.eqb p c && HasPrefix s prefix.
Proof. reflexivity. Qed.

Lemma HasPrefix_nil (s : string) : HasPrefix s "" = true.
Proof. destruct s; reflexivity. Qed.

Lemma HasPrefix_app (p r : string) : HasPrefix (p +:+ r) p = true.
Proof.
  induction p as [|c p IH]; [apply HasPrefix_nil|].
  rewrite append_cons, HasPrefix_cons, Ascii.eqb_refl. exact IH.
Qed.

Lemma HasPrefix_split (s a b : string) :
  HasPrefix s (a +:+ b) = true ->
  HasPrefix s a = true /\ HasPrefix (drop_bytes (String.length a) s) b = true.
Proof.
  revert s. induction a as [|c a IH]; intros s H.
  - split; [apply HasPrefix_nil|exact H].
  - destruct s as [|x s]; [discriminate H|].
    rewrite append_cons, HasPrefix_cons in H. apply andb_true_iff in H as [Hc H].
    destruct (IH s H) as [Ha Hb]. split.
    + rewrite HasPrefix_cons, Hc. exact Ha.
    + exact Hb.
Qed.

Lemma HasPrefix_eq (s p : string) :
  HasPrefix s p = true -> s = p +:+ drop_bytes (String.length p) s.
Proof.
  revert s. induction p as [|c p IH]; intros s H; [reflexivity|].
  destruct s as [|x s]; [discriminate H|].
  rewrite HasPrefix_cons in H. apply andb_true_iff in H as [Hc H].
  apply Ascii.eqb_eq in Hc. subst x. rewrite append_cons. f_equal. exact (IH s H).
Qed.

Lemma Contains_unfold (s substr : string) :
  Contains s substr =
  HasPrefix s substr ||
  match s with
  | EmptyString => false
  | String _ s' => Contains s' substr
  end.
Proof. destruct s; reflexivity. Qed.

Lemma Contains_of_prefix (s substr : string) :
  HasPrefix s substr = true -> Contains s substr = true.
Proof. intros H. rewrite Contains_unfold, H. reflexivity. Qed.

Lemma Contains_app_r (a s substr : string) :
  Contains s substr = true -> Contains (a +:+ s) substr = true.
Proof.
  intros H. induction a as [|c a IH]; [exact H|].
  rewrite append_cons, Contains_unfold, IH. apply orb_true_r.
Qed.

Lemma Contains_middle (a b c : string) : Contains (a +:+ b +:+ c) b = true.
Proof. apply Contains_app_r, Contains_of_prefix, HasPrefix_app. Qed.

Lemma Contains_drop (p : nat) (s substr : string) :
  Contains (drop_bytes p s) substr = true -> Contains s substr = true.
Proof.
  revert s. induction p as [|p IH]; intros s H; [exact H|].
  destruct s as [|c s]; [exact H|].
  rewrite Contains_unfold. rewrite (IH s H). apply orb_true_r.
Qed.

Lemma bytes_of_app (a b : string) : bytes_of (a +:+ b) = (bytes_of a ++ bytes_of b)%list.
Proof.
  induction a as [|c a IH]; [reflexivity|].
  rewrite append_cons. simpl. rewrite IH. reflexivity.
Qed.

Lemma string_of_app (a b : list N) : string_of (a ++ b)%list = string_of a +:+ string_of b.
Proof.
  induction a as [|x a IH]; [reflexivity|].
  simpl. rewrite IH. reflexivity.
Qed.

Lemma string_of_bytes_of (s : string) : string_of (bytes_of s) = s.
Proof.
  induction s as [|c s IH]; [reflexivity|].
  simpl. rewrite IH. unfold char_of, byte_of. rewrite ascii_N_embedding. reflexivity.
Qed.

(** A byte that occurs in no encoding of a white-space rune. *)
Definition plain_byte (b : N) : Prop :=
  Forall (fun rune => ~ In b rune) space_runes.

Lemma strip_prefix_keeps (rune r1 : list N) (b : N) (rest r' : list N) :
  ~ In b rune ->
  strip_prefix rune (r1 ++ b :: rest)%list = Some r' ->
  exists r1', r' = (r1' ++ b :: rest)%list.
Proof.
  revert r1. induction rune as [|a rune IH]; intros r1 Hb H.
  - injection H as <-. exists r1. reflexivity.
  - destruct r1 as [|x r1]; simpl in H.
    + destruct (N.eqb_spec a b) as [->|_]; [|discriminate H].
      exfalso. apply Hb. left. reflexivity.
    + destruct (a =? x)%N; [|discriminate H].
      apply (IH r1); [|exact H]. intros Hin. apply Hb. right. exact Hin.
Qed.

Lemma strip_space_rune_keeps (runes : list (list N)) (r1 : list N) (b : N)
    (rest r' : list N) :
  Forall (fun rune => ~ In b rune) runes ->
  strip_space_rune runes (r1 ++ b :: rest)%list = Some r' ->
  exists r1', r' = (r1' ++ b :: rest)%list.
Proof.
  induction 1 as [|rune runes Hrune _ IH]; simpl; intros H; [discriminate H|].
  destruct (strip_prefix rune (r1 ++ b :: rest)%list) as [l'|] eqn:Hstrip.
  - injection H as <-. exact (strip_prefix_keeps rune r1 b rest l' Hrune Hstrip).
  - exact (IH H).
Qed.

Lemma space_runes_nonempty : Forall (fun rune : list N => rune <> []) space_runes.
Proof. unfold space_runes. repeat constructor; discriminate. Qed.

Lemma strip_space_rune_plain_head (b : N) (l : list N) :
  plain_byte b -> strip_space_rune space_runes (b :: l) = None.
Proof.
  unfold plain_byte. intros Hb.
  pose proof space_runes_nonempty as Hne.
  induction Hb as [|rune runes Hrune _ IH]; [reflexivity|].
  inversion Hne as [|? ? Hrune_ne Hne']; subst.
  cbn [strip_space_rune].
  destruct rune as [|a rune]; [contradiction|].
  cbn [strip_prefix].
  destruct (N.eqb_spec a b) as [->|_].
  - exfalso. apply Hrune. left. reflexivity.
  - exact (IH Hne').
Qed.

Lemma trim_left_plain_head (b : N) (l : list N) :
  plain_byte b -> trim_left (b :: l) = (b :: l).
Proof.
  intros Hb. unfold trim_left. cbn [List.length trim_left_go].
  rewrite (strip_space_rune_plain_head b l Hb). reflexivity.
Qed.

Lemma plain_byte_rev (b : N) :
  plain_byte b -> Forall (fun rune => ~ In b rune) (List.map (@List.rev N) space_runes).
Proof.
  unfold plain_byte. intros H. apply Forall_map.
  eapply Forall_impl; [exact H|]. intros rune Hrune Hin. apply Hrune.
  apply in_rev. exact Hin.
Qed.

Lemma trim_right_rev_go_keeps (fuel : nat) (b : N) (rest : list N) :
  plain_byte b ->
  forall r1,
    exists r1', trim_right_rev_go fuel (r1 ++ b :: rest)%list = (r1' ++ b :: rest)%list.
Proof.
  intros Hb. induction fuel as [|fuel IH]; intros r1; cbn [trim_right_rev_go]; [eauto|].
  destruct (strip_space_rune (List.map (@List.rev N) space_runes) (r1 ++ b :: rest)%list)
    as [l'|] eqn:Hstrip; [|eauto].
  destruct (strip_space_rune_keeps _ _ _ _ _ (plain_byte_rev b Hb) Hstrip) as [r1' ->].
  apply IH.
Qed.

(** TrimSpace never cuts into text that begins and ends with plain bytes:
    what begins with such text still begins with it after trimming. *)
Lemma TrimSpace_keeps_plain_prefix (first last : ascii) (core tail : string) :
  plain_byte (byte_of first) -> plain_byte (byte_of last) ->
  exists tail',
    TrimSpace (String first (core +:+ String last tail))
    = String first (core +:+ String last tail').
Proof.
  intros Hfirst Hlast. unfold TrimSpace.
  cbn [bytes_of]. rewrite bytes_of_app. cbn [bytes_of].
  rewrite (trim_left_plain_head _ _ Hfirst).
  unfold trim_right.
  set (l := (byte_of first :: bytes_of core ++ byte_of last :: bytes_of tail)%list).
  assert (Hrev : List.rev l
                 = (List.rev (bytes_of tail)
                    ++ byte_of last :: List.rev (byte_of first :: bytes_of core))%list).
  { unfold l. cbn [List.rev]. rewrite List.rev_app_distr. cbn [List.rev].
    rewrite <- !List.app_assoc. reflexivity. }
  rewrite Hrev.
  destruct (trim_right_rev_go_keeps (List.length l) (byte_of last)
              (List.rev (byte_of first :: bytes_of core)) Hlast (List.rev (bytes_of tail)))
    as [r1' ->].
  exists (string_of (List.rev r1')).
  rewrite List.rev_app_distr. cbn [List.rev]. rewrite List.rev_app_distr.
  rewrite List.rev_involutive. cbn [List.rev List.app].
  rewrite <- !List.app_assoc. cbn [List.app string_of].
  rewrite string_of_app. cbn [string_of].
  rewrite string_of_bytes_of.
  unfold char_of, byte_of. rewrite !ascii_N_embedding. reflexivity.
Qed.

Lemma find_submatch_unfold (lit : string) (stop : ascii -> bool) (text : string) :
  Server.find_submatch lit stop text =
  match (if HasPrefix text lit
         then match Server.take_until stop (drop_bytes (String.length lit) text) with
              | EmptyString => None
              | group => Some group
              end
         else None) with
  | Some group => Some group
  | None =>
      match text with
      | EmptyString => None
      | String _ text' => Server.find_submatch lit stop text'
      end
  end.
Proof. destruct text; reflexivity. Qed.

Lemma Index_unfold (s substr : string) :
  Index s substr =
  if HasPrefix s substr then Some O
  else match s with
       | EmptyString => None
       | String _ s' => option_map S (Index s' substr)
       end.
Proof. destruct s; reflexivity. Qed.

(** The group found is the run after the first place where the literal
    stands, when that run is not empty. *)
Lemma find_submatch_first (lit : string) (stop : ascii -> bool) (text : string) :
  forall p,
    Index text lit = Some p ->
    Server.take_until stop (drop_bytes (String.length lit) (drop_bytes p text)) <> "" ->
    Server.find_submatch lit stop text
    = Some (Server.take_until stop (drop_bytes (String.length lit) (drop_bytes p text))).
Proof.
  induction text as [|c text IH]; intros p Hidx Hne;
    rewrite Index_unfold in Hidx; rewrite find_submatch_unfold.
  - destruct (HasPrefix "" lit); [|discriminate Hidx].
    injection Hidx as <-. cbn [drop_bytes] in *.
    destruct (Server.take_until stop (drop_bytes (String.length lit) ""));
      [contradiction|reflexivity].
  - destruct (HasPrefix (String c text) lit).
    + injection Hidx as <-. cbn [drop_bytes] in *.
      destruct (Server.take_until stop (drop_bytes (String.length lit) (String c text)));
        [contradiction|reflexivity].
    + destruct (Index text lit) as [p'|] eqn:Hidx'; [|discriminate Hidx].
      injection Hidx as <-. cbn [drop_bytes] in *. exact (IH p' eq_refl Hne).
Qed.

Lemma Index_prefix (s substr : string) :
  forall p, Index s substr = Some p -> HasPrefix (drop_bytes p s) substr = true.
Proof.
  induction s as [|c s IH]; intros p H; rewrite Index_unfold in H.
  - destruct (HasPrefix "" substr) eqn:Hp; [|discriminate H].
    injection H as <-. exact Hp.
  - destruct (HasPrefix (String c s) substr) eqn:Hp.
    + injection H as <-. exact Hp.
    + destruct (Index s substr) as [p'|] eqn:Hidx; [|discriminate H].
      injection H as <-. exact (IH p' eq_refl).
Qed.

Lemma plain_byte_d : plain_byte (byte_of "d").
Proof.
  unfold plain_byte, space_runes.
  repeat constructor; cbn; intuition discriminate.
Qed.

Lemma plain_byte_l : plain_byte (byte_of "l").
Proof.
  unfold plain_byte, space_runes.
  repeat constructor; cbn; intuition discriminate.
Qed.

(** ** The acknowledge action *)

Lemma extractAlertInfo_disk_full (text : string) (p : nat) :
  Contains text "Grafana Alert:" = false ->
  Index text "CloudWatch Alarm: " = Some p ->
  HasPrefix (drop_bytes p text) "CloudWatch Alarm: disk-full" = true ->
  exists tail, Server.Name (Server.extractAlertInfo text) = "disk-full" +:+ tail.
Proof.
  intros Hgrafana Hidx Hhere.
  unfold Server.extractAlertInfo. rewrite Hgrafana.
  assert (Hcw : Contains text "CloudWatch Alarm:" = true).
  { apply (Contains_drop p), Contains_of_prefix.
    exact (proj1 (HasPrefix_split _ "CloudWatch Alarm:" " disk-full" Hhere)). }
  rewrite Hcw. cbn [Server.Name].
  destruct (HasPrefix_split _ "CloudWatch Alarm: " "disk-full" Hhere) as [_ Hname].
  apply HasPrefix_eq in Hname.
  set (rest := drop_bytes (String.length "disk-full")
                 (drop_bytes (String.length "CloudWatch Alarm: ") (drop_bytes p text))) in *.
  assert (Hgroup : Server.take_until Server.is_star_or_newline
                     (drop_bytes (String.length "CloudWatch Alarm: ") (drop_bytes p text))
                   = "disk-full" +:+ Server.take_until Server.is_star_or_newline rest).
  { rewrite Hname. reflexivity. }
  rewrite (find_submatch_first "CloudWatch Alarm: " Server.is_star_or_newline text p Hidx)
    by (rewrite Hgroup; discriminate).
  rewrite Hgroup. cbn [Server.trimmed_or].
  destruct (TrimSpace_keeps_plain_prefix "d" "l" "isk-ful"
              (Server.take_until Server.is_star_or_newline rest)
              plain_byte_d plain_byte_l) as [tail Htrim].
  exists tail. exact Htrim.
Qed.

(** C8, as the code has it: for an acknowledge action on a message whose
    text has no "Grafana Alert:" marker and whose first "CloudWatch Alarm: "
    is followed by disk-full, the handler delivers to the response URL a
    text that names an alarm beginning with disk-full and the acting user,
    and ends with the line saying the alert is being handled. *)
Theorem acknowledge_names_the_alarm (signingSecret : string) (now : Z)
    (formPayload : string -> option string)
    (sendSlackResponse : string -> Server.SlackResponse -> bool)
    (r : Server.Request) (body payloadStr : string) (slackPayload : Server.SlackPayload)
    (action : Server.Action) (others : list Server.Action) (p : nat) :
  Server.Method r = "POST" ->
  Server.verifySlackRequest signingSecret now r body = true ->
  formPayload body = Some payloadStr ->
  payloadStr <> "" ->
  Unmarshal Server.decode_SlackPayload payloadStr Server.SlackPayload_zero = Ok slackPayload ->
  Server.sp_Actions slackPayload = action :: others ->
  Server.act_ActionID action = "acknowledge" ->
  Contains (Server.sm_Text (Server.sp_Message slackPayload)) "Grafana Alert:" = false ->
  Index (Server.sm_Text (Server.sp_Message slackPayload)) "CloudWatch Alarm: " = Some p ->
  HasPrefix (drop_bytes p (Server.sm_Text (Server.sp_Message slackPayload)))
    "CloudWatch Alarm: disk-full" = true ->
  exists response name description,
    Server.delivery
      (Server.handleInteractive signingSecret now formPayload sendSlackResponse r (Some body))
    = Some (Server.sp_ResponseURL slackPayload, response) /\
    Server.text response
    = "✅ **Alert '" +:+ name +:+ "' acknowledged by " +:+
      Server.sp_User_Name slackPayload +:+ "**" +:+ description +:+
      Adapter.nl +:+ Adapter.nl +:+ "_This alert is now being handled._" /\
    HasPrefix name "disk-full" = true /\
    Contains (Server.text response) "disk-full" = true /\
    Contains (Server.text response) (Server.sp_User_Name slackPayload) = true.
Proof.
  intros Hmethod Hverify Hform Hpayload Hdecode Hactions Hack Hgrafana Hidx Hhere.
  destruct (extractAlertInfo_disk_full _ p Hgrafana Hidx Hhere) as [tail Hname].
  assert (Hinfo : Server.alertInfoOf (Server.sp_Message slackPayload)
                  = Server.extractAlertInfo (Server.sm_Text (Server.sp_Message slackPayload))).
  { unfold Server.alertInfoOf. rewrite Hname. reflexivity. }
  set (info := Server.extractAlertInfo (Server.sm_Text (Server.sp_Message slackPayload))) in *.
  set (description :=
         if negb (String.eqb (Server.Description info) "")
         then Adapter.nl +:+ "• *Description:* " +:+ Server.Description info else "").
  assert (Hnonempty : negb (String.eqb ("disk-full" +:+ tail) "") = true) by reflexivity.
  eexists _, ("disk-full" +:+ tail), description.
  split; [|split; [|split; [|split]]].
  - unfold Server.handleInteractive.
    rewrite Hmethod, Hverify, Hform. cbn [String.eqb Ascii.eqb Bool.eqb negb].
    rewrite (eqb_nonempty _ Hpayload), Hdecode, Hactions, Hack, Hinfo.
    destruct (sendSlackResponse _ _); reflexivity.
  - cbn [Server.text]. unfold Server.responseTextOf.
    rewrite Hname, Hnonempty. reflexivity.
  - apply HasPrefix_app.
  - cbn [Server.text]. unfold Server.responseTextOf. rewrite Hname, Hnonempty.
    cbn [String.eqb Ascii.eqb Bool.eqb].
    rewrite (append_assoc "disk-full" tail).
    apply Contains_middle.
  - cbn [Server.text]. unfold Server.responseTextOf. rewrite Hname, Hnonempty.
    cbn [String.eqb Ascii.eqb Bool.eqb].
    rewrite <- (append_assoc _ "' acknowledged by ").
    rewrite <- (append_assoc "✅ **Alert '").
    apply Contains_middle.
Qed.

Lemma acknowledge_names_the_alarm_witness :
  exists response,
    Server.delivery
      (Server.handleInteractive "8f742231b10e8888abcd99yyyz7dd1e3" 1700000200
         (fun _ =>
            Some (Example.q
              "{'type':'block_actions','actions':[{'action_id':'acknowledge','value':'alert_61'}],'user':{'name':'alice'},'response_url':'https://hooks.example/r','message':{'text':'🚨 *CloudWatch Alarm: disk-full*\n• *Reason:* Threshold Crossed'}}"))
         (fun _ _ => true)
         {| Server.Method := "POST";
            Server.X_Slack_Request_Timestamp := "1699999900";
            Server.X_Slack_Signature :=
              "v0=a606c9056987a0dcf97475445dc9bb9b3e20889cf51e14c6e2b44817756bcf62" |}
         (Some "payload=%7B%7D"))
    = Some ("https://hooks.example/r", response) /\
    Contains (Server.text response) "disk-full" = true /\
    Contains (Server.text response) "alice" = true.
Proof.
  destruct (acknowledge_names_the_alarm "8f742231b10e8888abcd99yyyz7dd1e3" 1700000200
              (fun _ =>
                 Some (Example.q
                   "{'type':'block_actions','actions':[{'action_id':'acknowledge','value':'alert_61'}],'user':{'name':'alice'},'response_url':'https://hooks.example/r','message':{'text':'🚨 *CloudWatch Alarm: disk-full*\n• *Reason:* Threshold Crossed'}}"))
              (fun _ _ => true)
              {| Server.Method := "POST";
                 Server.X_Slack_Request_Timestamp := "1699999900";
                 Server.X_Slack_Signature :=
                   "v0=a606c9056987a0dcf97475445dc9bb9b3e20889cf51e14c6e2b44817756bcf62" |}
              "payload=%7B%7D"
              (Example.q
                 "{'type':'block_actions','actions':[{'action_id':'acknowledge','value':'alert_61'}],'user':{'name':'alice'},'response_url':'https://hooks.example/r','message':{'text':'🚨 *CloudWatch Alarm: disk-full*\n• *Reason:* Threshold Crossed'}}")
              {| Server.sp_Type := "block_actions";
                 Server.sp_Actions :=
                   [{| Server.act_ActionID := "acknowledge";
                       Server.act_Value := "alert_61" |}];
                 Server.sp_User_Name := "alice";
                 Server.sp_ResponseURL := "https://hooks.example/r";
                 Server.sp_Message :=
                   {| Server.sm_Text :=
                        "🚨 *CloudWatch Alarm: disk-full*" +:+ Adapter.nl +:+
                        "• *Reason:* Threshold Crossed";
                      Server.sm_Blocks := [] |} |}
              {| Server.act_ActionID := "acknowledge"; Server.act_Value := "alert_61" |}
              [] 6)
    as (response & name & description & Hdelivery & _ & _ & Hdisk & Huser);
    [reflexivity | vm_compute; reflexivity | reflexivity | discriminate
    | vm_compute; reflexivity | reflexivity | reflexivity | vm_compute; reflexivity
    | vm_compute; reflexivity | vm_compute; reflexivity |].
  exists response. split; [exact Hdelivery|]. split; [exact Hdisk|exact Huser].
Defined.

(** C8 as stated fails: a message text that holds "CloudWatch Alarm:
    disk-full" and a reason line is taken for a Grafana message when it also
    holds "Grafana Alert:", and a "CloudWatch Alarm: " that stands earlier in
    the text gives the name; in both cases the outcome text does not contain
    disk-full. *)
Lemma acknowledge_may_name_another_alert :
  let text1 :=
    "Grafana Alert: latency" +:+ Adapter.nl +:+ "CloudWatch Alarm: disk-full" +:+
    Adapter.nl +:+ "• *Reason:* Threshold Crossed" in
  let text2 :=
    "CloudWatch Alarm: cpu-high*" +:+ Adapter.nl +:+ "CloudWatch Alarm: disk-full" +:+
    Adapter.nl +:+ "• *Reason:* Threshold Crossed" in
  let outcome text :=
    Server.responseTextOf "acknowledge" "alert_93" "alice"
      (Server.alertInfoOf {| Server.sm_Text := text; Server.sm_Blocks := [] |}) in
  Contains text1 "CloudWatch Alarm: disk-full" = true /\
  Contains text1 "• *Reason:* " = true /\
  Contains (outcome text1) "disk-full" = false /\
  Contains text2 "CloudWatch Alarm: disk-full" = true /\
  Contains text2 "• *Reason:* " = true /\
  Contains (outcome text2) "disk-full" = false.
Proof. vm_compute. repeat split; reflexivity. Qed.

(** ** Adaptation on the webhook path *)

Lemma field_for_In (fields : list string) (key f : string) :
  field_for fields key = Some f -> In f fields.
Proof.
  unfold field_for. intros H.
  destruct (List.find (String.eqb key) fields) as [f1|] eqn:H1.
  - injection H as <-. exact (proj1 (List.find_some _ _ H1)).
  - exact (proj1 (List.find_some _ _ H)).
Qed.

Lemma decode_object_total {T : Type} (fields : list string)
    (set : string -> json -> T -> result T) (fits : string -> json -> bool)
    (members : list (string * json)) :
  (forall f v c, In f fields -> fits f v = true -> exists c', set f v c = Ok c') ->
  members_fit fields fits members = true ->
  forall cur, exists r, decode_object fields set (JObj members) cur = Ok r.
Proof.
  intros Hset. unfold decode_object, members_fit.
  induction members as [|kv members IH]; intros Hfit cur; simpl in *; [eauto|].
  apply andb_true_iff in Hfit as [Hkv Hfit].
  destruct (field_for fields (fst kv)) as [f|] eqn:Hf.
  - destruct (Hset f (snd kv) cur (field_for_In _ _ _ Hf) Hkv) as [c' ->].
    exact (IH Hfit c').
  - exact (IH Hfit cur).
Qed.

Lemma decode_string_total (v : json) (cur : string) :
  is_string_shape v = true -> exists s, decode_string v cur = Ok s.
Proof. destruct v; simpl; intros H; try discriminate H; eauto. Qed.

Lemma decode_int64_total (v : json) (cur : Z) :
  is_int64_shape v = true -> exists z, decode_int64 v cur = Ok z.
Proof.
  destruct v; simpl; intros H; try discriminate H; eauto.
  destruct (ParseInt literal); [eauto|discriminate H].
Qed.

Lemma decode_float64_total (rt : GoRuntime) (v : json) (cur : float64 rt) :
  is_float64_shape rt v = true -> exists x, decode_float64 rt v cur = Ok x.
Proof.
  destruct v; simpl; intros H; try discriminate H; eauto.
  destruct (strconv_ParseFloat rt literal); [eauto|discriminate H].
Qed.

Lemma decode_map_string_string_total (v : json) (cur : gmap string string) :
  is_string_map_shape v = true -> exists m, decode_map_string_string v cur = Ok m.
Proof.
  destruct v; simpl; intros H; try discriminate H; eauto.
  revert cur. induction members as [|kv members IH]; intros cur; simpl in *; [eauto|].
  apply andb_true_iff in H as [Hkv H].
  destruct (decode_string_total (snd kv) "" Hkv) as [s ->]. simpl.
  exact (IH H _).
Qed.

Lemma decode_EvalMatch_total (rt : GoRuntime) (v : json) (cur : Adapter.EvalMatch rt) :
  is_EvalMatch_shape rt v = true -> exists m, Adapter.decode_EvalMatch rt v cur = Ok m.
Proof.
  destruct v; simpl; intros H; try discriminate H; [eauto|].
  apply (decode_object_total Adapter.EvalMatch_fields (Adapter.set_EvalMatch rt)
           (fits_EvalMatch_field rt) members); [|exact H].
  intros f v c Hin Hfits. unfold Adapter.set_EvalMatch.
  unfold fits_EvalMatch_field in Hfits.
  destruct (String.eqb f "value").
  - destruct (decode_float64_total rt v (Adapter.em_Value rt c) Hfits) as [x ->].
    simpl. eauto.
  - destruct (String.eqb f "metric").
    + destruct (decode_string_total v (Adapter.em_Metric rt c) Hfits) as [x ->].
      simpl. eauto.
    + destruct (decode_map_string_string_total v (Adapter.em_Tags rt c) Hfits) as [x ->].
      simpl. eauto.
Qed.

Lemma decode_EvalMatch_elements_total (rt : GoRuntime) (elems : list json) :
  forallb (is_EvalMatch_shape rt) elems = true ->
  forall old,
    exists r,
      decode_elements (Adapter.decode_EvalMatch rt) (Adapter.EvalMatch_zero rt) elems old
      = Ok r.
Proof.
  induction elems as [|e elems IH]; cbn [forallb decode_elements]; intros H old; [eauto|].
  apply andb_true_iff in H as [He H].
  destruct (decode_EvalMatch_total rt e
              (match old with x :: _ => x | [] => Adapter.EvalMatch_zero rt end) He)
    as [m ->].
  destruct (IH H (List.tl old)) as [r ->]. cbn [bind]. eauto.
Qed.

Lemma decode_EvalMatches_total (rt : GoRuntime) (v : json)
    (cur : list (Adapter.EvalMatch rt) * list (Adapter.EvalMatch rt)) :
  is_EvalMatches_shape rt v = true ->
  exists l, decode_slice (Adapter.decode_EvalMatch rt) (Adapter.EvalMatch_zero rt) v cur = Ok l.
Proof.
  destruct v; simpl; intros H; try discriminate H; [eauto|].
  destruct elems as [|e elems]; [eauto|].
  exact (decode_EvalMatch_elements_total rt (e :: elems) H _).
Qed.

Lemma set_GrafanaWebhook_total (rt : GoRuntime) (f : string) (v : json)
    (c : Adapter.GrafanaWebhook rt * list (Adapter.EvalMatch rt)) :
  In f Adapter.GrafanaWebhook_fields ->
  fits_GrafanaWebhook_field rt f v = true ->
  exists c', Adapter.set_GrafanaWebhook rt f v c = Ok c'.
Proof.
  intros Hin Hfits. destruct c as [[di em iu me oi pi ri rn ru st tg ti] spare].
  unfold Adapter.GrafanaWebhook_fields in Hin. simpl in Hin.
  repeat (destruct Hin as [<-|Hin]); try contradiction;
    unfold fits_GrafanaWebhook_field in Hfits; simpl in Hfits;
    unfold Adapter.set_GrafanaWebhook; cbn [String.eqb Ascii.eqb Bool.eqb];
    first
      [ destruct (decode_int64_total v di Hfits) as [x ->]
      | destruct (decode_int64_total v oi Hfits) as [x ->]
      | destruct (decode_int64_total v pi Hfits) as [x ->]
      | destruct (decode_int64_total v ri Hfits) as [x ->]
      | destruct (decode_EvalMatches_total rt v (em, spare) Hfits) as [x ->]
      | destruct (decode_map_string_string_total v tg Hfits) as [x ->]
      | destruct (decode_string_total v iu Hfits) as [x ->]
      | destruct (decode_string_total v me Hfits) as [x ->]
      | destruct (decode_string_total v rn Hfits) as [x ->]
      | destruct (decode_string_total v ru Hfits) as [x ->]
      | destruct (decode_string_total v st Hfits) as [x ->]
      | destruct (decode_string_total v ti Hfits) as [x ->] ];
    simpl; eauto.
Qed.

(** Adaptation fails only when the modern shape is absent and the body
    does not decode into the legacy structure. *)
Lemma webhook_adaptation_fails_only_on_decoding (rt : GoRuntime)
    (orders : Adapter.RangeOrders rt) (body : string)
    (channels alarmChannels : gmap string string) (e : JSON.error) :
  Adapter.AdaptGrafanaWebhook rt orders body channels alarmChannels = Err e ->
  Adapter.modernWebhook rt body = None /\
  exists cause,
    Unmarshal (Adapter.decode_GrafanaWebhook rt) body (Adapter.GrafanaWebhook_zero rt)
    = Err cause.
Proof.
  unfold Adapter.AdaptGrafanaWebhook. intros H.
  destruct (Adapter.modernWebhook rt body) as [w|]; [discriminate H|].
  split; [reflexivity|].
  destruct (Unmarshal (Adapter.decode_GrafanaWebhook rt) body _) as [g|cause];
    [discriminate H|eauto].
Qed.

(** C9, as the code has it: every payload that parses as a JSON object
    whose members, where they name a field of the legacy structure, hold a
    value of that field's type (or null) is adapted successfully, through
    the legacy path when the modern shape is absent; no alert list, ruleId
    or state is required. *)
Theorem webhook_adapts_well_typed_objects (rt : GoRuntime) (orders : Adapter.RangeOrders rt)
    (body : string) (channels alarmChannels : gmap string string)
    (members : list (string * json)) :
  parse body = Some (JObj members) ->
  well_typed_legacy rt members = true ->
  exists msg,
    Adapter.AdaptGrafanaWebhook rt orders body channels alarmChannels = Ok msg /\
    (Adapter.modernWebhook rt body = None ->
     exists grafanaAlert,
       Unmarshal (Adapter.decode_GrafanaWebhook rt) body (Adapter.GrafanaWebhook_zero rt)
       = Ok grafanaAlert /\
       Adapter.Message msg
       = Adapter.formatGrafanaSlackMessage rt (Adapter.ord_matchTags rt orders)
           (Adapter.ord_tags rt orders) grafanaAlert /\
       Adapter.Priority msg = Adapter.determineGrafanaPriority rt grafanaAlert).
Proof.
  intros Hparse Htyped.
  destruct (decode_object_total Adapter.GrafanaWebhook_fields (Adapter.set_GrafanaWebhook rt)
              (fits_GrafanaWebhook_field rt) members
              (fun f v c => set_GrafanaWebhook_total rt f v c) Htyped
              (Adapter.GrafanaWebhook_zero rt, [])) as [[g spare] Hg].
  assert (Hlegacy : Unmarshal (Adapter.decode_GrafanaWebhook rt) body
                      (Adapter.GrafanaWebhook_zero rt) = Ok g).
  { unfold Unmarshal, Adapter.decode_GrafanaWebhook. rewrite Hparse, Hg. reflexivity. }
  unfold Adapter.AdaptGrafanaWebhook.
  destruct (Adapter.modernWebhook rt body) as [w|].
  - unfold Adapter.adaptAlertmanagerWebhook. eexists. split; [reflexivity|].
    intros H. discriminate H.
  - rewrite Hlegacy. eexists. split; [reflexivity|].
    intros _. exists g. split; [reflexivity|]. split; reflexivity.
Qed.

Lemma webhook_adapts_well_typed_objects_witness :
  exists msg,
    Adapter.AdaptGrafanaWebhook Example.runtime
      {| Adapter.ord_annotations := []; Adapter.ord_matchTags := [];
         Adapter.ord_tags := [] |}
      (Example.q "{'alerts':[],'title':'disk latency','receiver':7}")
      {[ "P2" := "#p2-infra-alerts" ]} ∅ = Ok msg.
Proof.
  destruct (webhook_adapts_well_typed_objects Example.runtime
              {| Adapter.ord_annotations := []; Adapter.ord_matchTags := [];
                 Adapter.ord_tags := [] |}
              (Example.q "{'alerts':[],'title':'disk latency','receiver':7}")
              {[ "P2" := "#p2-infra-alerts" ]} ∅
              [("alerts", JArr []); ("title", JStr "disk latency"); ("receiver", JNum "7")])
    as (msg & Hmsg & _); [vm_compute; reflexivity | vm_compute; reflexivity |].
  exists msg. exact Hmsg.
Defined.

(** C9 as stated fails: the body {"ruleId":"x"} parses as a JSON object and
    is rejected, because the field ruleId is an int64; so is an object whose
    state is a number. *)
Lemma webhook_rejects_ill_typed_object :
  parse (Example.q "{'ruleId':'x'}") = Some (JObj [("ruleId", JStr "x")]) /\
  parse (Example.q "{'state':5}") = Some (JObj [("state", JNum "5")]) /\
  forall rt orders channels alarmChannels,
    is_ok (Adapter.AdaptGrafanaWebhook rt orders (Example.q "{'ruleId':'x'}")
             channels alarmChannels) = false /\
    is_ok (Adapter.AdaptGrafanaWebhook rt orders (Example.q "{'state':5}")
             channels alarmChannels) = false.
Proof.
  split; [vm_compute; reflexivity|]. split; [vm_compute; reflexivity|].
  intros rt orders channels alarmChannels. split; reflexivity.
Qed.

(** ** The correlation value of the buttons *)

Lemma buildPost_default_values (s : Notifier.SlackNotifier) (message : string) :
  List.map (fun b => (Notifier.ActionID b, Notifier.Value b))
    (Notifier.post_buttons (Notifier.buildPost s message ""))
  = [("acknowledge", "alert_" +:+ itoa (Z.of_nat (String.length message)));
     ("dismiss", "alert_" +:+ itoa (Z.of_nat (String.length message)))].
Proof. reflexivity. Qed.

(** C10, as the code has it: a queue-sourced alert is sent with no
    correlation id of its own; the message handed to the chat client goes to
    the channel the adapter chose and carries an acknowledge and a dismiss
    button whose value is "alert_" followed by the decimal length in bytes of
    the message text ([len] of the Go string), not its number of characters.
    Hence the buttons of any other message of the same length in bytes carry
    the same value. *)
Theorem queue_alert_correlation_is_message_length (rt : GoRuntime) (SlackBotToken : string)
    (SlackChannels AlarmChannels : gmap string string) (body : string)
    (alertMsg : Adapter.AlertMessage) :
  Adapter.AdaptSQSMessageWithRouting rt body SlackChannels AlarmChannels = Ok alertMsg ->
  exists post,
    (forall PostMessage,
        Main.handler rt PostMessage SlackBotToken SlackChannels AlarmChannels body
        = PostMessage post) /\
    Notifier.post_channel post = Adapter.Channel alertMsg /\
    Notifier.post_text post = Adapter.Message alertMsg /\
    List.map (fun b => (Notifier.ActionID b, Notifier.Value b)) (Notifier.post_buttons post)
    = [("acknowledge",
        "alert_" +:+ itoa (Z.of_nat (String.length (Adapter.Message alertMsg))));
       ("dismiss",
        "alert_" +:+ itoa (Z.of_nat (String.length (Adapter.Message alertMsg))))] /\
    (forall s' message',
        String.length message' = String.length (Adapter.Message alertMsg) ->
        List.map Notifier.Value (Notifier.post_buttons (Notifier.buildPost s' message' ""))
        = List.map Notifier.Value (Notifier.post_buttons post)).
Proof.
  intros Hadapt.
  exists (Notifier.buildPost
            (Notifier.NewSlackNotifier SlackBotToken (Adapter.Channel alertMsg))
            (Adapter.Message alertMsg) "").
  split; [|split; [|split; [|split]]].
  - intros PostMessage. unfold Main.handler. rewrite Hadapt. reflexivity.
  - reflexivity.
  - reflexivity.
  - apply buildPost_default_values.
  - intros s' message' Hlen. unfold Notifier.buildPost. cbn [String.eqb].
    cbn [Notifier.post_buttons List.map Notifier.Value]. rewrite Hlen. reflexivity.
Qed.

Lemma queue_alert_correlation_is_message_length_witness :
  exists post,
    (forall PostMessage,
        Main.handler Example.runtime PostMessage "xoxb-token"
          {[ "P2" := "#p2-infra-alerts" ]} ∅ (Example.q "{'Message':'{}'}")
        = PostMessage post) /\
    List.map Notifier.Value (Notifier.post_buttons post) = ["alert_210"; "alert_210"].
Proof.
  destruct (Adapter.AdaptSQSMessageWithRouting Example.runtime
              (Example.q "{'Message':'{}'}") {[ "P2" := "#p2-infra-alerts" ]} ∅)
    as [alertMsg|e] eqn:Hadapt; [|discriminate Hadapt].
  destruct (queue_alert_correlation_is_message_length Example.runtime "xoxb-token"
              {[ "P2" := "#p2-infra-alerts" ]} ∅ (Example.q "{'Message':'{}'}")
              alertMsg Hadapt)
    as (post & Hpost & _ & _ & Hvalues & _).
  exists post. split; [exact Hpost|].
  injection Hadapt as <-.
  transitivity
    (List.map snd
       (List.map (fun b => (Notifier.ActionID b, Notifier.Value b))
          (Notifier.post_buttons post))).
  - rewrite List.map_map. reflexivity.
  - rewrite Hvalues. vm_compute. reflexivity.
Defined.

(** Two different alarms whose messages have the same length get the same
    correlation value. *)
Lemma distinct_alerts_share_correlation_value :
  exists m1 m2 : Adapter.AlertMessage,
    Adapter.AdaptSQSMessageWithRouting Example.runtime
      (Example.q "{'Message':'{\'AlarmName\':\'disk-full-a\'}'}") ∅ ∅ = Ok m1 /\
    Adapter.AdaptSQSMessageWithRouting Example.runtime
      (Example.q "{'Message':'{\'AlarmName\':\'disk-full-b\'}'}") ∅ ∅ = Ok m2 /\
    Adapter.Message m1 <> Adapter.Message m2 /\
    List.map Notifier.Value
      (Notifier.post_buttons
         (Notifier.buildPost (Notifier.NewSlackNotifier "t" "") (Adapter.Message m1) ""))
    = List.map Notifier.Value
        (Notifier.post_buttons
           (Notifier.buildPost (Notifier.NewSlackNotifier "t" "") (Adapter.Message m2) "")).
Proof.
  eexists _, _. split; [reflexivity|]. split; [reflexivity|].
  split; [intros H; vm_compute in H; discriminate H|vm_compute; reflexivity].
Qed.

(** * Further properties *)

(** ** The verifier and the interactive handler *)

Lemma be_bytes_length (width : nat) (x : N) : List.length (Crypto.be_bytes width x) = width.
Proof.
  unfold Crypto.be_bytes. rewrite List.length_map, List.length_rev, List.length_seq.
  reflexivity.
Qed.

Lemma sha256_length (msg : list N) : List.length (Crypto.sha256 msg) = 32%nat.
Proof.
  unfold Crypto.sha256.
  set (st := fold_left Crypto.compress _ Crypto.initial_state).
  cbn [List.map concat]. rewrite !List.length_app, !be_bytes_length. reflexivity.
Qed.

Lemma hex_EncodeToString_length (l : list N) :
  String.length (Crypto.hex_EncodeToString l) = (2 * List.length l)%nat.
Proof.
  induction l as [|b l IH]; [reflexivity|].
  cbn [Crypto.hex_EncodeToString String.length List.length]. rewrite IH. lia.
Qed.

(** The verifier accepts a request only when both headers are present, the
    timestamp header is a decimal int64 ts for which the difference now - ts,
    as signed 64-bit arithmetic computes it, is at most 300 (which a timestamp
    in the future satisfies as well), and the signature header is "v0="
    followed by the hexadecimal HMAC-SHA256 of "v0:" timestamp ":" body, a
    text of 67 bytes.  Hence with any other signature header the same request
    is rejected. *)
Theorem verify_accepts_only_the_expected_signature (secret : string) (now : Z)
    (r : Server.Request) (body : string) :
  Server.verifySlackRequest secret now r body = true ->
  Server.X_Slack_Request_Timestamp r <> "" /\
  (exists ts, ParseInt (Server.X_Slack_Request_Timestamp r) = Some ts /\
              (wrap64 (now - ts) <= 300)%Z) /\
  Server.X_Slack_Signature r
  = "v0=" +:+ Crypto.hex_EncodeToString
                (Crypto.hmac_sha256 (bytes_of secret)
                   (bytes_of ("v0:" +:+ Server.X_Slack_Request_Timestamp r +:+ ":"
                              +:+ body))) /\
  String.length (Server.X_Slack_Signature r) = 67%nat /\
  (forall method signature,
      signature <> Server.X_Slack_Signature r ->
      Server.verifySlackRequest secret now
        {| Server.Method := method;
           Server.X_Slack_Request_Timestamp := Server.X_Slack_Request_Timestamp r;
           Server.X_Slack_Signature := signature |} body = false).
Proof.
  unfold Server.verifySlackRequest. intros H.
  destruct (String.eqb_spec (Server.X_Slack_Request_Timestamp r) "") as [|Hts];
    [discriminate H|].
  destruct (String.eqb_spec (Server.X_Slack_Signature r) "") as [|Hsig];
    [discriminate H|].
  cbn [orb] in H.
  destruct (ParseInt (Server.X_Slack_Request_Timestamp r)) as [ts|] eqn:Hparse;
    [|discriminate H].
  destruct (Z.ltb_spec 300 (wrap64 (now - ts))) as [|Hwindow]; [discriminate H|].
  apply String.eqb_eq in H.
  split; [exact Hts|]. split; [exists ts; auto|]. split; [exact H|]. split.
  - rewrite H. unfold Crypto.hmac_sha256.
    change (String.length ("v0=" +:+ ?s)) with (S (S (S (String.length s)))).
    rewrite hex_EncodeToString_length, sha256_length. reflexivity.
  - intros method signature Hne. cbn [Server.X_Slack_Request_Timestamp Server.X_Slack_Signature].
    destruct (String.eqb_spec (Server.X_Slack_Request_Timestamp r) ""); [contradiction|].
    destruct (String.eqb signature ""); [reflexivity|]. cbn [orb].
    rewrite Hparse.
    destruct (Z.ltb_spec 300 (wrap64 (now - ts))); [reflexivity|].
    apply String.eqb_neq. rewrite <- H. exact Hne.
Qed.

Lemma verify_accepts_only_the_expected_signature_witness :
  String.length "v0=a606c9056987a0dcf97475445dc9bb9b3e20889cf51e14c6e2b44817756bcf62" = 67%nat /\
  Server.verifySlackRequest "8f742231b10e8888abcd99yyyz7dd1e3" 1700000200
    {| Server.Method := "POST";
       Server.X_Slack_Request_Timestamp := "1699999900";
       Server.X_Slack_Signature :=
         "v0=b606c9056987a0dcf97475445dc9bb9b3e20889cf51e14c6e2b44817756bcf62" |}
    "payload=%7B%7D" = false.
Proof.
  destruct (verify_accepts_only_the_expected_signature
              "8f742231b10e8888abcd99yyyz7dd1e3" 1700000200
              {| Server.Method := "POST";
                 Server.X_Slack_Request_Timestamp := "1699999900";
                 Server.X_Slack_Signature :=
                   "v0=a606c9056987a0dcf97475445dc9bb9b3e20889cf51e14c6e2b44817756bcf62" |}
              "payload=%7B%7D")
    as (_ & _ & _ & Hlen & Hother); [vm_compute; reflexivity|].
  split; [exact Hlen|].
  apply (Hother "POST"). discriminate.
Defined.

(** The interactive handler sends a message to the response URL only for a
    POST request whose body was read and verified and whose payload decoded
    with at least one action; the message replaces the original in the
    channel, and the status is 200 exactly when the delivery succeeded (500
    otherwise). *)
Theorem interactive_delivers_only_verified_requests (signingSecret : string) (now : Z)
    (formPayload : string -> option string)
    (sendSlackResponse : string -> Server.SlackResponse -> bool)
    (r : Server.Request) (body : option string) (url : string)
    (response : Server.SlackResponse) :
  Server.delivery
    (Server.handleInteractive signingSecret now formPayload sendSlackResponse r body)
  = Some (url, response) ->
  Server.Method r = "POST" /\
  (exists raw payloadStr slackPayload action others,
      body = Some raw /\
      Server.verifySlackRequest signingSecret now r raw = true /\
      formPayload raw = Some payloadStr /\
      Unmarshal Server.decode_SlackPayload payloadStr Server.SlackPayload_zero
      = Ok slackPayload /\
      Server.sp_Actions slackPayload = action :: others /\
      url = Server.sp_ResponseURL slackPayload /\
      Server.text response
      = Server.responseTextOf (Server.act_ActionID action) (Server.act_Value action)
          (Server.sp_User_Name slackPayload)
          (Server.alertInfoOf (Server.sp_Message slackPayload))) /\
  Server.replace_original response = true /\
  Server.response_type response = "in_channel" /\
  Server.status
    (Server.handleInteractive signingSecret now formPayload sendSlackResponse r body)
  = (if sendSlackResponse url response then 200 else 500)%Z.
Proof.
  unfold Server.handleInteractive. intros H.
  destruct (String.eqb_spec (Server.Method r) "POST") as [Hmethod|]; [|discriminate H].
  cbn [negb] in *.
  destruct body as [raw|]; [|discriminate H].
  destruct (Server.verifySlackRequest signingSecret now r raw) eqn:Hverify;
    [|discriminate H].
  cbn [negb] in *.
  destruct (formPayload raw) as [payloadStr|] eqn:Hform; [|discriminate H].
  destruct (String.eqb payloadStr ""); [discriminate H|].
  destruct (Unmarshal Server.decode_SlackPayload payloadStr Server.SlackPayload_zero)
    as [slackPayload|e] eqn:Hdecode; [|discriminate H].
  destruct (Server.sp_Actions slackPayload) as [|action others] eqn:Hactions;
    [discriminate H|].
  destruct (sendSlackResponse _ _) eqn:Hsend;
    cbn [Server.delivery Server.status] in *; injection H as <- <-;
    cbn [Server.text Server.replace_original Server.response_type];
    rewrite Hsend;
    (split; [exact Hmethod|]; split;
     [exists raw, payloadStr, slackPayload, action, others; repeat split; auto|];
     repeat split; reflexivity).
Qed.

Lemma interactive_delivers_only_verified_requests_witness :
  Server.status
    (Server.handleInteractive "8f742231b10e8888abcd99yyyz7dd1e3" 1700000200
       (fun _ =>
          Some (Example.q
            "{'actions':[{'action_id':'dismiss','value':'alert_61'}],'user':{'name':'bob'},'response_url':'https://hooks.example/r'}"))
       (fun _ _ => false)
       {| Server.Method := "POST";
          Server.X_Slack_Request_Timestamp := "1699999900";
          Server.X_Slack_Signature :=
            "v0=a606c9056987a0dcf97475445dc9bb9b3e20889cf51e14c6e2b44817756bcf62" |}
       (Some "payload=%7B%7D"))
  = 500%Z.
Proof.
  destruct (interactive_delivers_only_verified_requests
              "8f742231b10e8888abcd99yyyz7dd1e3" 1700000200
              (fun _ =>
                 Some (Example.q
                   "{'actions':[{'action_id':'dismiss','value':'alert_61'}],'user':{'name':'bob'},'response_url':'https://hooks.example/r'}"))
              (fun _ _ => false)
              {| Server.Method := "POST";
                 Server.X_Slack_Request_Timestamp := "1699999900";
                 Server.X_Slack_Signature :=
                   "v0=a606c9056987a0dcf97475445dc9bb9b3e20889cf51e14c6e2b44817756bcf62" |}
              (Some "payload=%7B%7D") "https://hooks.example/r"
              {| Server.text :=
                   "❌ **Alert alert_61 dismissed by bob**" +:+ Adapter.nl +:+ Adapter.nl +:+
                   "_This alert has been dismissed and will not be actioned._";
                 Server.replace_original := true;
                 Server.response_type := "in_channel" |})
    as (_ & _ & _ & _ & Hstatus); [vm_compute; reflexivity|].
  exact Hstatus.
Defined.

Lemma extractAlertInfo_unmarked (text : string) :
  unmarked text = true ->
  Server.extractAlertInfo text = {| Server.Name := ""; Server.Description := "" |}.
Proof.
  unfold unmarked, Server.extractAlertInfo. intros H.
  apply andb_true_iff in H as [Hg Hc].
  apply negb_true_iff in Hg, Hc. rewrite Hg, Hc. reflexivity.
Qed.

Lemma alertInfoFromBlocks_unmarked (blocks : list Server.Block) (info : Server.AlertInfo) :
  Forall (fun b => Server.blk_Type b = "section" -> unmarked (Server.blk_Text b) = true)
    blocks ->
  Server.Name info = "" ->
  Server.Name (Server.alertInfoFromBlocks blocks info) = "".
Proof.
  intros Hblocks. revert info.
  induction Hblocks as [|b blocks Hb _ IH]; intros info Hinfo; [exact Hinfo|].
  cbn [Server.alertInfoFromBlocks].
  destruct (String.eqb_spec (Server.blk_Type b) "section") as [Hsection|_].
  - rewrite (extractAlertInfo_unmarked _ (Hb Hsection)). cbn [Server.Name String.eqb negb].
    apply IH. reflexivity.
  - apply IH. exact Hinfo.
Qed.

(** When neither the text of the original message nor the text of any of
    its section blocks holds one of the two markers, no alert name is found
    and the outcome of both actions names the alert by the correlation value
    of the button instead. *)
Theorem outcome_falls_back_to_correlation_value (message : Server.SlackMessage)
    (alertID user : string) :
  unmarked (Server.sm_Text message) = true ->
  Forall (fun b => Server.blk_Type b = "section" -> unmarked (Server.blk_Text b) = true)
    (Server.sm_Blocks message) ->
  Server.responseTextOf "acknowledge" alertID user (Server.alertInfoOf message)
  = "✅ **Alert " +:+ alertID +:+ " acknowledged by " +:+ user +:+ "**" +:+
    Adapter.nl +:+ Adapter.nl +:+ "_This alert is now being handled._" /\
  Server.responseTextOf "dismiss" alertID user (Server.alertInfoOf message)
  = "❌ **Alert " +:+ alertID +:+ " dismissed by " +:+ user +:+ "**" +:+
    Adapter.nl +:+ Adapter.nl +:+
    "_This alert has been dismissed and will not be actioned._".
Proof.
  intros Htext Hblocks.
  assert (Hname : Server.Name (Server.alertInfoOf message) = "").
  { unfold Server.alertInfoOf. rewrite (extractAlertInfo_unmarked _ Htext).
    cbn [Server.Name String.eqb].
    apply alertInfoFromBlocks_unmarked; [exact Hblocks|reflexivity]. }
  unfold Server.responseTextOf. rewrite Hname. split; reflexivity.
Qed.

Lemma outcome_falls_back_to_correlation_value_witness :
  Server.responseTextOf "acknowledge" "alert_61" "bob"
    (Server.alertInfoOf
       {| Server.sm_Text := "disk is full";
          Server.sm_Blocks :=
            [{| Server.blk_Type := "actions";
                Server.blk_Text := "CloudWatch Alarm: hidden" |}] |})
  = "✅ **Alert alert_61 acknowledged by bob**" +:+ Adapter.nl +:+ Adapter.nl +:+
    "_This alert is now being handled._".
Proof.
  apply (outcome_falls_back_to_correlation_value
           {| Server.sm_Text := "disk is full";
              Server.sm_Blocks :=
                [{| Server.blk_Type := "actions";
                    Server.blk_Text := "CloudWatch Alarm: hidden" |}] |}
           "alert_61" "bob").
  - vm_compute. reflexivity.
  - repeat constructor. cbn. discriminate.
Defined.

(** ** From the formatters back to the alert name *)

Lemma extends_refl (p : string) : extends p p.
Proof. exists "". symmetry. apply append_empty_r. Qed.

Lemma extends_app (p s t : string) : extends p s -> extends p (s +:+ t).
Proof. intros [rest ->]. exists (rest +:+ t). apply append_assoc. Qed.

Lemma extends_fold {A : Type} (f : A -> string) (l : list A) (p init : string) :
  extends p init -> extends p (fold_left (fun msg x => msg +:+ f x) l init).
Proof.
  revert init. induction l as [|x l IH]; intros init H; [exact H|].
  cbn [fold_left]. apply IH, extends_app, H.
Qed.

Lemma all_chars_app (p : ascii -> bool) (x y : string) :
  all_chars p (x +:+ y) = all_chars p x && all_chars p y.
Proof.
  induction x as [|c x IH]; [reflexivity|].
  rewrite append_cons. cbn [all_chars]. rewrite IH. apply andb_assoc.
Qed.

Lemma drop_bytes_app (a s : string) : drop_bytes (String.length a) (a +:+ s) = s.
Proof. induction a as [|c a IH]; [reflexivity|exact IH]. Qed.

Lemma Index_after (a : ascii) (lit pre s : string) :
  free_of a pre = true ->
  Index (pre +:+ String a lit +:+ s) (String a lit) = Some (String.length pre).
Proof.
  intros Hpre. induction pre as [|c pre IH].
  - change ("" +:+ String a lit +:+ s) with (String a lit +:+ s).
    rewrite Index_unfold, HasPrefix_app. reflexivity.
  - cbn [free_of all_chars] in Hpre. apply andb_true_iff in Hpre as [Hc Hpre].
    apply negb_true_iff in Hc.
    rewrite append_cons, Index_unfold, HasPrefix_cons, Hc. cbn [andb].
    unfold free_of in IH. rewrite (IH Hpre). reflexivity.
Qed.

Lemma Contains_after (a : ascii) (lit pre s : string) :
  free_of a pre = true ->
  Contains (pre +:+ s) (String a lit) = Contains s (String a lit).
Proof.
  intros Hpre. induction pre as [|c pre IH]; [reflexivity|].
  cbn [free_of all_chars] in Hpre. apply andb_true_iff in Hpre as [Hc Hpre].
  apply negb_true_iff in Hc.
  rewrite append_cons, Contains_unfold, HasPrefix_cons, Hc. cbn [andb orb].
  exact (IH Hpre).
Qed.

Lemma take_until_app (stop : ascii -> bool) (name : string) (c : ascii) (rest : string) :
  all_chars (fun x => negb (stop x)) name = true -> stop c = true ->
  Server.take_until stop (name +:+ String c rest) = name.
Proof.
  intros Hname Hc. induction name as [|x name IH].
  - change ("" +:+ String c rest) with (String c rest).
    cbn [Server.take_until]. rewrite Hc. reflexivity.
  - cbn [all_chars] in Hname. apply andb_true_iff in Hname as [Hx Hname].
    apply negb_true_iff in Hx.
    rewrite append_cons. cbn [Server.take_until]. rewrite Hx, (IH Hname). reflexivity.
Qed.

(** The group of a pattern whose literal stands once after a prefix that
    is free of its first byte. *)
Lemma find_submatch_after (a : ascii) (lit : string) (stop : ascii -> bool)
    (pre name : string) (c : ascii) (rest : string) :
  free_of a pre = true ->
  name <> "" ->
  all_chars (fun x => negb (stop x)) name = true ->
  stop c = true ->
  Server.find_submatch (String a lit) stop
    (pre +:+ String a lit +:+ name +:+ String c rest)
  = Some name.
Proof.
  intros Hpre Hne Hname Hc.
  pose proof (Index_after a lit pre (name +:+ String c rest) Hpre) as Hidx.
  assert (Hgroup :
    Server.take_until stop
      (drop_bytes (String.length (String a lit))
         (drop_bytes (String.length pre)
            (pre +:+ String a lit +:+ name +:+ String c rest))) = name).
  { rewrite drop_bytes_app, drop_bytes_app. apply take_until_app; assumption. }
  rewrite (find_submatch_first _ stop _ _ Hidx); rewrite Hgroup; [reflexivity|exact Hne].
Qed.

Lemma star_stops : Server.is_star_or_newline "*" = true.
Proof. reflexivity. Qed.

Lemma extractAlertInfo_grafana_header (pre name rest : string) :
  free_of "G" pre = true ->
  name <> "" ->
  name_like name = true ->
  Server.Name
    (Server.extractAlertInfo (pre +:+ "Grafana Alert: " +:+ name +:+ String "*" rest))
  = TrimSpace name.
Proof.
  intros Hpre Hne Hname. unfold Server.extractAlertInfo.
  assert (Hmarker :
    Contains (pre +:+ "Grafana Alert: " +:+ name +:+ String "*" rest) "Grafana Alert:"
    = true).
  { apply Contains_app_r, Contains_of_prefix. reflexivity. }
  rewrite Hmarker. cbn [Server.Name].
  rewrite (find_submatch_after "G" "rafana Alert: " _ pre name "*" rest Hpre Hne Hname
             star_stops).
  reflexivity.
Qed.

Lemma extractAlertInfo_cloudwatch_header (pre name rest : string) :
  Contains (pre +:+ "CloudWatch Alarm: " +:+ name +:+ String "*" rest) "Grafana Alert:"
  = false ->
  free_of "C" pre = true ->
  name <> "" ->
  name_like name = true ->
  Server.Name
    (Server.extractAlertInfo (pre +:+ "CloudWatch Alarm: " +:+ name +:+ String "*" rest))
  = TrimSpace name.
Proof.
  intros Hgrafana Hpre Hne Hname. unfold Server.extractAlertInfo.
  rewrite Hgrafana.
  assert (Hmarker :
    Contains (pre +:+ "CloudWatch Alarm: " +:+ name +:+ String "*" rest)
      "CloudWatch Alarm:" = true).
  { apply Contains_app_r, Contains_of_prefix. reflexivity. }
  rewrite Hmarker. cbn [Server.Name].
  rewrite (find_submatch_after "C" "loudWatch Alarm: " _ pre name "*" rest Hpre Hne Hname
             star_stops).
  reflexivity.
Qed.

(** The badges the three formatters begin with. *)
Lemma legacy_message_header (rt : GoRuntime) (matchOrders : list (list (string * string)))
    (tagOrder : list (string * string)) (alert : Adapter.GrafanaWebhook rt) :
  exists emoji,
    In emoji ["🚨"; "✅"; "⚠️"; "⏳"; "📊"] /\
    extends (emoji +:+ " *Grafana Alert: " +:+ Adapter.gw_Title rt alert +:+ "*")
      (Adapter.formatGrafanaSlackMessage rt matchOrders tagOrder alert).
Proof.
  unfold Adapter.formatGrafanaSlackMessage.
  match goal with
  | |- context [let '(_, _) := ?b in _] =>
      assert (Hbadge : exists emoji stateColor,
                 In emoji ["🚨"; "✅"; "⚠️"; "⏳"; "📊"] /\ b = (emoji, stateColor))
  end.
  { repeat match goal with
           | |- context [if ?c then _ else _] => destruct c
           end; do 2 eexists; (split; [|reflexivity]); cbn; tauto. }
  destruct Hbadge as (emoji & stateColor & Hin & ->).
  exists emoji. split; [exact Hin|].
  cbv beta iota zeta.
  set (p := emoji +:+ " *Grafana Alert: " +:+ Adapter.gw_Title rt alert +:+ "*").
  assert (H0 : extends p
                 (emoji +:+ " *Grafana Alert: " +:+ Adapter.gw_Title rt alert +:+ "*" +:+
                  Adapter.nl +:+ "• *State:* " +:+ stateColor)).
  { exists (Adapter.nl +:+ "• *State:* " +:+ stateColor). unfold p.
    rewrite !append_assoc. reflexivity. }
  repeat match goal with
         | |- extends _ (if ?c then _ else _) => destruct c
         | |- extends _ (match ?l with [] => _ | _ :: _ => _ end) => destruct l
         | |- extends _ (fold_left _ _ _) => apply extends_fold
         | |- extends _ (_ +:+ _) => first [exact H0 | apply extends_app]
         end; exact H0.
Qed.

Lemma enhanced_message_header (rt : GoRuntime) (annotationOrder : list (string * any rt))
    (webhook : Adapter.AlertmanagerWebhook rt) :
  exists emoji,
    In emoji ["🚨"; "✅"; "📊"] /\
    extends (emoji +:+ " *Grafana Alert: " +:+ Adapter.displayAlertname rt webhook +:+ "*")
      (Adapter.formatEnhancedAlertMessage rt annotationOrder webhook).
Proof.
  unfold Adapter.formatEnhancedAlertMessage.
  assert (Hbadge : exists emoji stateColor,
             In emoji ["🚨"; "✅"; "📊"] /\
             Adapter.statusBadge rt (Adapter.am_Status rt webhook) = (emoji, stateColor)).
  { unfold Adapter.statusBadge.
    repeat match goal with
           | |- context [if ?c then _ else _] => destruct c
           end; do 2 eexists; (split; [|reflexivity]); cbn; tauto. }
  destruct Hbadge as (emoji & stateColor & Hin & ->).
  exists emoji. split; [exact Hin|].
  cbv beta iota zeta.
  set (p := emoji +:+ " *Grafana Alert: " +:+ Adapter.displayAlertname rt webhook +:+ "*").
  assert (H0 : extends p
                 (emoji +:+ " *Grafana Alert: " +:+ Adapter.displayAlertname rt webhook +:+
                  "*" +:+ Adapter.nl +:+ "• *State:* " +:+ stateColor)).
  { exists (Adapter.nl +:+ "• *State:* " +:+ stateColor). unfold p.
    rewrite !append_assoc. reflexivity. }
  destruct (Adapter.am_Alerts rt webhook) as [|first others]; [exact H0|].
  repeat match goal with
         | |- extends _ (if ?c then _ else _) => destruct c
         | |- extends _ (match ?o with Some _ => _ | None => _ end) => destruct o
         | |- extends _ (fold_left _ _ _) => apply extends_fold
         | |- extends _ (_ +:+ _) => first [exact H0 | apply extends_app]
         end; exact H0.
Qed.

Lemma cloudwatch_message_header (rt : GoRuntime) (alarm : Adapter.CloudWatchAlarm rt) :
  exists emoji,
    In emoji ["🚨"; "✅"; "⚠️"; "📊"] /\
    extends (emoji +:+ " *CloudWatch Alarm: " +:+ Adapter.cw_AlarmName rt alarm +:+ "*")
      (Adapter.formatSlackMessage rt alarm).
Proof.
  unfold Adapter.formatSlackMessage.
  match goal with
  | |- context [let '(_, _) := ?b in _] =>
      assert (Hbadge : exists emoji stateColor,
                 In emoji ["🚨"; "✅"; "⚠️"; "📊"] /\ b = (emoji, stateColor))
  end.
  { repeat match goal with
           | |- context [if ?c then _ else _] => destruct c
           end; do 2 eexists; (split; [|reflexivity]); cbn; tauto. }
  destruct Hbadge as (emoji & stateColor & Hin & ->).
  exists emoji. split; [exact Hin|].
  cbv beta iota zeta.
  eexists. rewrite !append_assoc. reflexivity.
Qed.

(** What a message that begins with a badge and a marked name gives back,
    read from the text itself or from the header the notifier puts in the
    section block. *)
Lemma grafana_name_round_trip (emoji name message : string) (s : Notifier.SlackNotifier)
    (alertID : string) :
  free_of "G" emoji = true ->
  extends (emoji +:+ " *Grafana Alert: " +:+ name +:+ "*") message ->
  name <> "" ->
  name_like name = true ->
  Server.Name (Server.extractAlertInfo message) = TrimSpace name /\
  Server.Name
    (Server.extractAlertInfo (Notifier.post_header (Notifier.buildPost s message alertID)))
  = TrimSpace name.
Proof.
  intros Hemoji [rest ->] Hne Hname.
  assert (Hfree : forall pre, free_of "G" pre = true ->
                              free_of "G" (pre +:+ emoji +:+ " *") = true).
  { intros pre Hpre. unfold free_of in *.
    rewrite !all_chars_app, Hpre, Hemoji. reflexivity. }
  split.
  - replace ((emoji +:+ " *Grafana Alert: " +:+ name +:+ "*") +:+ rest)
      with (("" +:+ emoji +:+ " *") +:+ "Grafana Alert: " +:+ name +:+ String "*" rest)
      by (change ("" +:+ emoji +:+ " *") with (emoji +:+ " *");
          rewrite !append_assoc; reflexivity).
    apply extractAlertInfo_grafana_header; [apply Hfree; reflexivity|exact Hne|exact Hname].
  - cbn [Notifier.buildPost Notifier.post_header].
    replace ("🚨 *Alert*" +:+ Adapter.nl +:+
             (emoji +:+ " *Grafana Alert: " +:+ name +:+ "*") +:+ rest)
      with ((("🚨 *Alert*" +:+ Adapter.nl) +:+ emoji +:+ " *") +:+ "Grafana Alert: " +:+
            name +:+ String "*" rest)
      by (rewrite !append_assoc; reflexivity).
    apply extractAlertInfo_grafana_header; [apply Hfree; reflexivity|exact Hne|exact Hname].
Qed.

(** The name extracted from a legacy Grafana message, taken from the text
    or from the section header the notifier builds around it, is the title of
    the alert with surrounding white space removed, whenever the title is not
    empty and holds no asterisk and no line feed. *)
Theorem legacy_title_is_extracted (rt : GoRuntime)
    (matchOrders : list (list (string * string))) (tagOrder : list (string * string))
    (alert : Adapter.GrafanaWebhook rt) (s : Notifier.SlackNotifier) (alertID : string) :
  Adapter.gw_Title rt alert <> "" ->
  name_like (Adapter.gw_Title rt alert) = true ->
  Server.Name
    (Server.extractAlertInfo (Adapter.formatGrafanaSlackMessage rt matchOrders tagOrder alert))
  = TrimSpace (Adapter.gw_Title rt alert) /\
  Server.Name
    (Server.extractAlertInfo
       (Notifier.post_header
          (Notifier.buildPost s
             (Adapter.formatGrafanaSlackMessage rt matchOrders tagOrder alert) alertID)))
  = TrimSpace (Adapter.gw_Title rt alert).
Proof.
  intros Hne Hname.
  destruct (legacy_message_header rt matchOrders tagOrder alert) as (emoji & Hin & Hext).
  apply (grafana_name_round_trip emoji); [|exact Hext|exact Hne|exact Hname].
  cbn in Hin. intuition (subst; reflexivity).
Qed.

Lemma legacy_title_is_extracted_witness :
  Server.Name
    (Server.extractAlertInfo
       (Adapter.formatGrafanaSlackMessage Example.runtime [] []
          {| Adapter.gw_DashboardID := 0%Z; Adapter.gw_EvalMatches := [];
             Adapter.gw_ImageURL := ""; Adapter.gw_Message := "p99 above 2s";
             Adapter.gw_OrgID := 0%Z; Adapter.gw_PanelID := 0%Z; Adapter.gw_RuleID := 0%Z;
             Adapter.gw_RuleName := ""; Adapter.gw_RuleURL := "";
             Adapter.gw_State := "alerting"; Adapter.gw_Tags := ∅;
             Adapter.gw_Title := " High latency " |}))
  = "High latency".
Proof.
  assert (Hne : " High latency " <> "") by discriminate.
  assert (Hname : name_like " High latency " = true) by reflexivity.
  destruct (legacy_title_is_extracted Example.runtime [] []
              {| Adapter.gw_DashboardID := 0%Z; Adapter.gw_EvalMatches := [];
                 Adapter.gw_ImageURL := ""; Adapter.gw_Message := "p99 above 2s";
                 Adapter.gw_OrgID := 0%Z; Adapter.gw_PanelID := 0%Z;
                 Adapter.gw_RuleID := 0%Z;
                 Adapter.gw_RuleName := ""; Adapter.gw_RuleURL := "";
                 Adapter.gw_State := "alerting"; Adapter.gw_Tags := ∅;
                 Adapter.gw_Title := " High latency " |}
              (Notifier.NewSlackNotifier "" "#alerts") "" Hne Hname) as [Htext _].
  cbn [Adapter.gw_Title] in Htext.
  rewrite Htext. reflexivity.
Defined.

(** The same for the modern webhook format.  The message of a modern
    webhook is always the one of the enhanced format, the basic format being
    the fallback for an empty enhanced message, which does not occur; and the
    name extracted from the message is the alert name the formatter displays
    (the alertname of the common labels, else of the labels of the first
    alert) with surrounding white space removed, whenever that name is not
    empty and holds no asterisk and no line feed. *)
Theorem modern_alertname_is_extracted (rt : GoRuntime)
    (annotationOrder : list (string * any rt)) (webhook : Adapter.AlertmanagerWebhook rt)
    (s : Notifier.SlackNotifier) (alertID : string) :
  Adapter.formatAlertmanagerSlackMessage rt annotationOrder webhook
  = Adapter.formatEnhancedAlertMessage rt annotationOrder webhook /\
  (Adapter.displayAlertname rt webhook <> "" ->
   name_like (Adapter.displayAlertname rt webhook) = true ->
   Server.Name
     (Server.extractAlertInfo
        (Adapter.formatAlertmanagerSlackMessage rt annotationOrder webhook))
   = TrimSpace (Adapter.displayAlertname rt webhook) /\
   Server.Name
     (Server.extractAlertInfo
        (Notifier.post_header
           (Notifier.buildPost s
              (Adapter.formatAlertmanagerSlackMessage rt annotationOrder webhook) alertID)))
   = TrimSpace (Adapter.displayAlertname rt webhook)).
Proof.
  destruct (enhanced_message_header rt annotationOrder webhook) as (emoji & Hin & Hext).
  assert (Hformat : Adapter.formatAlertmanagerSlackMessage rt annotationOrder webhook
                    = Adapter.formatEnhancedAlertMessage rt annotationOrder webhook).
  { unfold Adapter.formatAlertmanagerSlackMessage. destruct Hext as [rest ->].
    cbn in Hin. intuition (subst; reflexivity). }
  split; [exact Hformat|].
  intros Hne Hname. rewrite Hformat.
  apply (grafana_name_round_trip emoji); [|exact Hext|exact Hne|exact Hname].
  cbn in Hin. intuition (subst; reflexivity).
Qed.

Lemma modern_alertname_is_extracted_witness :
  Server.Name
    (Server.extractAlertInfo
       (Adapter.formatAlertmanagerSlackMessage Example.runtime []
          {| Adapter.am_Alerts :=
               [ {[ "labels" := AnyMap {[ "alertname" := AnyString "PodCrashLooping" ]};
                    "generatorURL" := AnyString "https://grafana.example/alerting/1" ]} ];
             Adapter.am_CommonLabels := ∅;
             Adapter.am_Status := "firing";
             Adapter.am_Title := "";
             Adapter.am_Message := "" |}))
  = "PodCrashLooping".
Proof.
  pose (webhook :=
          {| Adapter.am_Alerts :=
               [ ({[ "labels" := AnyMap {[ "alertname" := AnyString "PodCrashLooping" ]};
                     "generatorURL" := AnyString "https://grafana.example/alerting/1" ]}
                  : gmap string (any Example.runtime)) ];
             Adapter.am_CommonLabels := ∅;
             Adapter.am_Status := "firing";
             Adapter.am_Title := "";
             Adapter.am_Message := "" |}).
  assert (Hdisplay : Adapter.displayAlertname Example.runtime webhook = "PodCrashLooping")
    by reflexivity.
  destruct (modern_alertname_is_extracted Example.runtime [] webhook
              (Notifier.NewSlackNotifier "" "#alerts") "") as [_ Hround].
  destruct Hround as [Htext _].
  - rewrite Hdisplay. discriminate.
  - rewrite Hdisplay. reflexivity.
  - fold webhook. rewrite Htext, Hdisplay. reflexivity.
Defined.

(** And for a queue alert: when the rendered message holds no
    "Grafana Alert:" marker, the name extracted from it, or from the section
    header the notifier builds around it, is the alarm name with surrounding
    white space removed, whenever the alarm name is not empty and holds no
    asterisk and no line feed. *)
Theorem alarm_name_is_extracted (rt : GoRuntime) (alarm : Adapter.CloudWatchAlarm rt)
    (s : Notifier.SlackNotifier) (alertID : string) :
  Contains (Adapter.formatSlackMessage rt alarm) "Grafana Alert:" = false ->
  Adapter.cw_AlarmName rt alarm <> "" ->
  name_like (Adapter.cw_AlarmName rt alarm) = true ->
  Server.extractAlarmName (Adapter.formatSlackMessage rt alarm)
  = TrimSpace (Adapter.cw_AlarmName rt alarm) /\
  Server.extractAlarmName
    (Notifier.post_header (Notifier.buildPost s (Adapter.formatSlackMessage rt alarm) alertID))
  = TrimSpace (Adapter.cw_AlarmName rt alarm).
Proof.
  intros Hgrafana Hne Hname. unfold Server.extractAlarmName.
  destruct (cloudwatch_message_header rt alarm) as (emoji & Hin & rest & Hext).
  rewrite Hext in *. clear Hext.
  set (name := Adapter.cw_AlarmName rt alarm) in *.
  assert (Hemoji : free_of "C" emoji = true /\ free_of "G" emoji = true).
  { cbn in Hin. intuition (subst; reflexivity). }
  destruct Hemoji as [HemojiC HemojiG].
  assert (Hfree : forall a pre, free_of a pre = true -> free_of a emoji = true ->
                                free_of a " *" = true ->
                                free_of a (pre +:+ emoji +:+ " *") = true).
  { intros a pre Hpre He Hs. unfold free_of in *.
    rewrite !all_chars_app, Hpre, He, Hs. reflexivity. }
  assert (Heq : (emoji +:+ " *CloudWatch Alarm: " +:+ name +:+ "*") +:+ rest
                = ("" +:+ emoji +:+ " *") +:+ "CloudWatch Alarm: " +:+ name +:+
                  String "*" rest).
  { change ("" +:+ emoji +:+ " *") with (emoji +:+ " *").
    rewrite !append_assoc. reflexivity. }
  split.
  - rewrite Heq in Hgrafana |- *.
    apply extractAlertInfo_cloudwatch_header;
      [exact Hgrafana|apply Hfree; auto|exact Hne|exact Hname].
  - cbn [Notifier.buildPost Notifier.post_header].
    replace ("🚨 *Alert*" +:+ Adapter.nl +:+
             (emoji +:+ " *CloudWatch Alarm: " +:+ name +:+ "*") +:+ rest)
      with ((("🚨 *Alert*" +:+ Adapter.nl) +:+ emoji +:+ " *") +:+ "CloudWatch Alarm: " +:+
            name +:+ String "*" rest)
      by (rewrite !append_assoc; reflexivity).
    apply extractAlertInfo_cloudwatch_header;
      [|apply Hfree; auto|exact Hne|exact Hname].
    rewrite append_assoc.
    rewrite (Contains_after "G" "rafana Alert:" ("🚨 *Alert*" +:+ Adapter.nl)) by reflexivity.
    etransitivity; [|exact Hgrafana]. f_equal. rewrite !append_assoc. reflexivity.
Qed.

Lemma alarm_name_is_extracted_witness :
  Server.extractAlarmName
    (Adapter.formatSlackMessage Example.runtime
       {| Adapter.cw_AlarmName := "disk-full"; Adapter.cw_AlarmDescription := None;
          Adapter.cw_AWSAccountId := ""; Adapter.cw_NewStateValue := "ALARM";
          Adapter.cw_OldStateValue := "OK"; Adapter.cw_NewStateReason := "Threshold Crossed";
          Adapter.cw_StateChangeTime := ""; Adapter.cw_Region := "ap-south-1";
          Adapter.cw_AlarmArn := ""; Adapter.cw_Trigger := Adapter.Trigger_zero Example.runtime |})
  = "disk-full".
Proof.
  pose (alarm :=
          {| Adapter.cw_AlarmName := "disk-full"; Adapter.cw_AlarmDescription := None;
             Adapter.cw_AWSAccountId := ""; Adapter.cw_NewStateValue := "ALARM";
             Adapter.cw_OldStateValue := "OK";
             Adapter.cw_NewStateReason := "Threshold Crossed";
             Adapter.cw_StateChangeTime := ""; Adapter.cw_Region := "ap-south-1";
             Adapter.cw_AlarmArn := "";
             Adapter.cw_Trigger := Adapter.Trigger_zero Example.runtime |}).
  destruct (alarm_name_is_extracted Example.runtime alarm
              (Notifier.NewSlackNotifier "" "#alerts") "") as [Htext _].
  - reflexivity.
  - discriminate.
  - reflexivity.
  - fold alarm. rewrite Htext. reflexivity.
Defined.

(** ** Routing and the configuration *)

Lemma map_get_nonempty (m : gmap string string) (k : string) :
  Adapter.map_get m k <> "" -> m !! k = Some (Adapter.map_get m k).
Proof.
  unfold Adapter.map_get. destruct (m !! k) as [v|]; [reflexivity|].
  intros H. contradiction H. reflexivity.
Qed.

(** The routing rule the three adapters share. *)
Lemma route_cases (channels alarmChannels : gmap string string) (name priority : string) :
  let channel :=
    if String.eqb (Adapter.map_get alarmChannels name) "" then
      if String.eqb (Adapter.map_get channels priority) ""
      then Adapter.map_get channels "default" else Adapter.map_get channels priority
    else Adapter.map_get alarmChannels name in
  (Adapter.map_get channels priority <> "" \/ Adapter.map_get channels "default" <> "") ->
  channel <> "" /\
  (alarmChannels !! name = Some channel \/
   channels !! priority = Some channel \/
   (Adapter.map_get channels priority = "" /\ channels !! "default" = Some channel)).
Proof.
  cbv zeta. intros Hsome.
  destruct (String.eqb_spec (Adapter.map_get alarmChannels name) "") as [_|Hexplicit].
  - destruct (String.eqb_spec (Adapter.map_get channels priority) "") as [Hempty|Hprio].
    + destruct Hsome as [Hsome|Hdefault]; [contradiction|].
      split; [exact Hdefault|]. right. right. split; [exact Hempty|].
      apply map_get_nonempty, Hdefault.
    + split; [exact Hprio|]. right. left. apply map_get_nonempty, Hprio.
  - split; [exact Hexplicit|]. left. apply map_get_nonempty, Hexplicit.
Qed.

Lemma adapted_cases (rt : GoRuntime) (channels alarmChannels : gmap string string)
    (msg : Adapter.AlertMessage) :
  adapted rt channels alarmChannels msg ->
  exists name,
    is_priority (Adapter.Priority msg) /\
    Adapter.Channel msg
    = if String.eqb (Adapter.map_get alarmChannels name) "" then
        if String.eqb (Adapter.map_get channels (Adapter.Priority msg)) ""
        then Adapter.map_get channels "default"
        else Adapter.map_get channels (Adapter.Priority msg)
      else Adapter.map_get alarmChannels name.
Proof.
  intros [[body H] | (orders & body & H)].
  - unfold Adapter.AdaptSQSMessageWithRouting in H.
    destruct (Unmarshal Adapter.decode_Envelope body Adapter.Envelope_zero)
      as [envelope|]; [|discriminate H].
    cbn [bind] in H.
    destruct (Unmarshal (Adapter.decode_CloudWatchAlarm rt) _ _) as [alarm|];
      [|discriminate H].
    cbn [bind] in H. injection H as <-.
    exists (Adapter.cw_AlarmName rt alarm). cbn [Adapter.Priority Adapter.Channel].
    split; [apply determinePriority_closed|reflexivity].
  - unfold Adapter.AdaptGrafanaWebhook in H.
    destruct (Adapter.modernWebhook rt body) as [webhook|].
    + unfold Adapter.adaptAlertmanagerWebhook in H. injection H as <-.
      exists (Adapter.map_get (Adapter.am_CommonLabels rt webhook) "alertname").
      cbn [Adapter.Priority Adapter.Channel].
      split; [apply alertmanagerPriority_closed|reflexivity].
    + destruct (Unmarshal (Adapter.decode_GrafanaWebhook rt) body _) as [alert|];
        [|discriminate H].
      injection H as <-.
      exists (Adapter.gw_RuleName rt alert). cbn [Adapter.Priority Adapter.Channel].
      split; [apply determineGrafanaPriority_closed|reflexivity].
Qed.

(** When the priority table has a non-empty "default" entry, every alert
    the adapters produce, from the queue or from a webhook in either format,
    has a non-empty channel, and that channel is the value of an entry of one
    of the two tables; its priority is P0, P1 or P2. *)
Theorem adapted_alert_has_a_configured_channel (rt : GoRuntime)
    (channels alarmChannels : gmap string string) (msg : Adapter.AlertMessage) :
  Adapter.map_get channels "default" <> "" ->
  adapted rt channels alarmChannels msg ->
  Adapter.Channel msg <> "" /\
  routed_by channels alarmChannels msg /\
  is_priority (Adapter.Priority msg).
Proof.
  intros Hdefault Hadapted.
  destruct (adapted_cases rt channels alarmChannels msg Hadapted) as (name & Hprio & Hch).
  destruct (route_cases channels alarmChannels name (Adapter.Priority msg)
              (or_intror Hdefault)) as [Hne Hcases].
  rewrite <- Hch in Hne, Hcases.
  split; [exact Hne|]. split; [|exact Hprio].
  unfold routed_by. destruct Hcases as [H | [H | [_ H]]]; eauto.
Qed.

Lemma adapted_alert_has_a_configured_channel_witness :
  exists msg,
    Adapter.AdaptSQSMessageWithRouting Example.runtime
      (Example.q "{'Message':'{\'AlarmName\':\'orders-latency\'}'}")
      {[ "default" := "#alerts" ]} ∅ = Ok msg /\
    Adapter.Channel msg <> "".
Proof.
  destruct (Adapter.AdaptSQSMessageWithRouting Example.runtime
              (Example.q "{'Message':'{\'AlarmName\':\'orders-latency\'}'}")
              {[ "default" := "#alerts" ]} ∅) as [msg|e] eqn:Hmsg; [|discriminate Hmsg].
  exists msg. split; [reflexivity|].
  apply (adapted_alert_has_a_configured_channel Example.runtime
           {[ "default" := "#alerts" ]} ∅ msg).
  - discriminate.
  - left. eexists. exact Hmsg.
Defined.

Section ConfigProperties.
Variable Getenv : string -> string.
Variable filepath_Join : string -> string -> string.
Variable readFile : string -> Config.file_state.
Variable yaml_Unmarshal : string -> option Config.AlarmChannelConfig.

Lemma getEnvOrDefault_nonempty (key defaultValue : string) :
  defaultValue <> "" -> Config.getEnvOrDefault Getenv key defaultValue <> "".
Proof.
  intros Hdefault. unfold Config.getEnvOrDefault.
  destruct (String.eqb_spec (Getenv key) ""); cbn [negb]; assumption.
Qed.

Lemma LoadConfig_channels (cfg : Config.Config) :
  Config.LoadConfig Getenv filepath_Join readFile yaml_Unmarshal = Some cfg ->
  forall p, is_priority p \/ p = "default" ->
            Adapter.map_get (Config.SlackChannels cfg) p <> "".
Proof.
  unfold Config.LoadConfig. intros H.
  repeat match type of H with
         | (if ?c then None else _) = Some _ => destruct c; [discriminate H|]
         end.
  injection H as <-. cbn [Config.SlackChannels].
  intros p [[-> | [-> | ->]] | ->]; unfold Adapter.map_get.
  - rewrite lookup_insert_eq. apply getEnvOrDefault_nonempty. discriminate.
  - rewrite lookup_insert_ne, lookup_insert_eq by discriminate.
    apply getEnvOrDefault_nonempty. discriminate.
  - rewrite !lookup_insert_ne, lookup_insert_eq by discriminate.
    apply getEnvOrDefault_nonempty. discriminate.
  - rewrite !lookup_insert_ne, lookup_insert_eq by discriminate.
    apply getEnvOrDefault_nonempty. discriminate.
Qed.

(** LoadConfig ends the process exactly when SQS_QUEUE_URL, SLACK_BOT_TOKEN
    or SLACK_SIGNING_SECRET is unset or empty (SLACK_WEBHOOK_URL is not
    required).  A configuration it returns has a non-empty queue URL, bot
    token, signing secret and port, and the port is 8088 when SERVER_PORT is
    unset; the poll interval is 10 when POLL_INTERVAL_SEC is unset or is not
    a decimal integer. *)
Theorem LoadConfig_needs_three_variables :
  (Config.LoadConfig Getenv filepath_Join readFile yaml_Unmarshal = None <->
   Getenv "SQS_QUEUE_URL" = "" \/ Getenv "SLACK_BOT_TOKEN" = "" \/
   Getenv "SLACK_SIGNING_SECRET" = "") /\
  (forall cfg,
      Config.LoadConfig Getenv filepath_Join readFile yaml_Unmarshal = Some cfg ->
      Config.SQSQueueURL cfg <> "" /\ Config.SlackBotToken cfg <> "" /\
      Config.SlackSigningSecret cfg <> "" /\ Config.ServerPort cfg <> "" /\
      (Getenv "SERVER_PORT" = "" -> Config.ServerPort cfg = "8088") /\
      (ParseInt (Getenv "POLL_INTERVAL_SEC") = None -> Config.PollIntervalSec cfg = 10%Z)).
Proof.
  unfold Config.LoadConfig. split.
  - destruct (String.eqb_spec (Getenv "SQS_QUEUE_URL") "") as [Hq|Hq]; [tauto|].
    destruct (String.eqb_spec (Getenv "SLACK_BOT_TOKEN") "") as [Ht|Ht]; [tauto|].
    destruct (String.eqb_spec (Getenv "SLACK_SIGNING_SECRET") "") as [Hs|Hs]; [tauto|].
    split; [discriminate|]. tauto.
  - intros cfg H.
    destruct (String.eqb_spec (Getenv "SQS_QUEUE_URL") "") as [Hq|Hq]; [discriminate H|].
    destruct (String.eqb_spec (Getenv "SLACK_BOT_TOKEN") "") as [Ht|Ht]; [discriminate H|].
    destruct (String.eqb_spec (Getenv "SLACK_SIGNING_SECRET") "") as [Hs|Hs];
      [discriminate H|].
    injection H as <-.
    cbn [Config.SQSQueueURL Config.SlackBotToken Config.SlackSigningSecret
         Config.ServerPort Config.PollIntervalSec].
    repeat split; try assumption.
    + destruct (String.eqb_spec (Getenv "SERVER_PORT") ""); [discriminate|assumption].
    + intros ->. reflexivity.
    + intros ->. destruct (negb _); reflexivity.
Qed.

(** With a configuration that LoadConfig returns, every alert the adapters
    produce has a non-empty channel, which is the value of an entry of the
    explicit mapping or the channel configured for the priority of the alert:
    the "default" channel is reached only through those. *)
Theorem loaded_config_routes_by_priority (rt : GoRuntime) (cfg : Config.Config)
    (msg : Adapter.AlertMessage) :
  Config.LoadConfig Getenv filepath_Join readFile yaml_Unmarshal = Some cfg ->
  adapted rt (Config.SlackChannels cfg) (Config.AlarmChannels cfg) msg ->
  Adapter.Channel msg <> "" /\
  ((exists name, Config.AlarmChannels cfg !! name = Some (Adapter.Channel msg)) \/
   Config.SlackChannels cfg !! Adapter.Priority msg = Some (Adapter.Channel msg)).
Proof.
  intros Hcfg Hadapted.
  destruct (adapted_cases rt _ _ msg Hadapted) as (name & Hprio & Hch).
  pose proof (LoadConfig_channels cfg Hcfg (Adapter.Priority msg) (or_introl Hprio))
    as Hchannel.
  destruct (route_cases (Config.SlackChannels cfg) (Config.AlarmChannels cfg) name
              (Adapter.Priority msg) (or_introl Hchannel)) as [Hne Hcases].
  rewrite <- Hch in Hne, Hcases.
  split; [exact Hne|].
  destruct Hcases as [H | [H | [H _]]]; [eauto|eauto|contradiction].
Qed.

End ConfigProperties.

Lemma loaded_config_routes_by_priority_witness :
  exists cfg msg,
    Config.LoadConfig
      (fun key =>
         if String.eqb key "SQS_QUEUE_URL" then "https://sqs.example/q"
         else if String.eqb key "SLACK_BOT_TOKEN" then "xoxb-1"
         else if String.eqb key "SLACK_SIGNING_SECRET" then "secret"
         else "")
      (fun dir name => dir +:+ "/" +:+ name) (fun _ => Config.NotExist) (fun _ => None)
    = Some cfg /\
    Adapter.AdaptSQSMessageWithRouting Example.runtime
      (Example.q "{'Message':'{\'AlarmName\':\'orders-cpu\'}'}")
      (Config.SlackChannels cfg) (Config.AlarmChannels cfg) = Ok msg /\
    Adapter.Channel msg <> "".
Proof.
  pose (Getenv := fun key =>
         if String.eqb key "SQS_QUEUE_URL" then "https://sqs.example/q"
         else if String.eqb key "SLACK_BOT_TOKEN" then "xoxb-1"
         else if String.eqb key "SLACK_SIGNING_SECRET" then "secret"
         else "").
  destruct (Config.LoadConfig Getenv (fun dir name => dir +:+ "/" +:+ name)
              (fun _ => Config.NotExist) (fun _ => None)) as [cfg|] eqn:Hcfg;
    [|discriminate Hcfg].
  destruct (Adapter.AdaptSQSMessageWithRouting Example.runtime
              (Example.q "{'Message':'{\'AlarmName\':\'orders-cpu\'}'}")
              (Config.SlackChannels cfg) (Config.AlarmChannels cfg)) as [msg|e] eqn:Hmsg.
  - exists cfg, msg. split; [exact Hcfg|]. split; [exact Hmsg|].
    apply (loaded_config_routes_by_priority Getenv (fun dir name => dir +:+ "/" +:+ name)
             (fun _ => Config.NotExist) (fun _ => None) Example.runtime cfg msg Hcfg).
    left. eexists. exact Hmsg.
  - exfalso. injection Hcfg as <-. discriminate Hmsg.
Defined.

Lemma LoadConfig_needs_three_variables_witness :
  Config.LoadConfig
    (fun key =>
       if String.eqb key "SQS_QUEUE_URL" then "https://sqs.example/q"
       else if String.eqb key "SLACK_WEBHOOK_URL" then "https://hooks.example/w"
       else if String.eqb key "SLACK_SIGNING_SECRET" then "secret"
       else "")
    (fun dir name => dir +:+ "/" +:+ name) (fun _ => Config.NotExist) (fun _ => None)
  = None.
Proof.
  apply (LoadConfig_needs_three_variables
           (fun key =>
              if String.eqb key "SQS_QUEUE_URL" then "https://sqs.example/q"
              else if String.eqb key "SLACK_WEBHOOK_URL" then "https://hooks.example/w"
              else if String.eqb key "SLACK_SIGNING_SECRET" then "secret"
              else "")
           (fun dir name => dir +:+ "/" +:+ name) (fun _ => Config.NotExist)
           (fun _ => None)).
  right. left. reflexivity.
Defined.

(** ** The batch of one round *)

Section BatchProperties.
Variable World : Type.
Variable ReceiveMessage : World -> option (list Sqs.SQSMessage) * World.
Variable DeleteMessage : option string -> World -> bool * World.
Variable handler : string -> World -> bool * World.

Lemma handlings_app (round idx : nat) (t1 t2 : list Sqs.event) :
  handlings round idx (t1 ++ t2)%list
  = (handlings round idx t1 + handlings round idx t2)%nat.
Proof. unfold handlings. rewrite !count_app. lia. Qed.

Lemma handlings_step (round idx i : nat) (ok : bool) (tail : list Sqs.event) :
  handlings round i (Sqs.Handled round idx ok :: tail)
  = ((if (idx =? i)%nat then 1 else 0) + handlings round i tail)%nat.
Proof.
  unfold handlings, count. cbn [List.filter handled_ok handled_err].
  rewrite Nat.eqb_refl. cbn [andb].
  destruct ok, (idx =? i)%nat; cbn [List.length]; lia.
Qed.

Lemma handlings_deleted (round idx i : nat) (h : option string) (d : bool)
    (tail : list Sqs.event) :
  handlings round i (Sqs.Deleted round idx h d :: tail) = handlings round i tail.
Proof. reflexivity. Qed.

Lemma processMessages_handles_leading (round : nat) (msgs : list Sqs.SQSMessage) :
  forall idx w trace,
    exists extra,
      snd (Sqs.processMessages World DeleteMessage handler round idx msgs w trace)
      = (trace ++ extra)%list /\
      (fst (fst (Sqs.processMessages World DeleteMessage handler round idx msgs w trace))
       = Sqs.Running <-> leading_bodies msgs = List.length msgs) /\
      forall i,
        handlings round i extra
        = if ((idx <=? i) && (i <? idx + leading_bodies msgs))%nat then 1%nat else 0%nat.
Proof.
  induction msgs as [|msg msgs IH]; intros idx w trace;
    cbn [Sqs.processMessages leading_bodies List.length].
  - exists []. rewrite List.app_nil_r. split; [reflexivity|]. split; [tauto|].
    intros i. destruct (Nat.leb_spec idx i), (Nat.ltb_spec i (idx + 0)); cbn; try lia;
      reflexivity.
  - destruct (Sqs.Body msg) as [body|].
    + destruct (handler body w) as [ok w1]. destruct ok.
      * destruct (DeleteMessage (Sqs.ReceiptHandle msg) w1) as [d w2].
        destruct (IH (S idx) w2
                    (trace ++ [Sqs.Handled round idx true;
                               Sqs.Deleted round idx (Sqs.ReceiptHandle msg) d])%list)
          as (extra & -> & Hrun & Hcount).
        exists ([Sqs.Handled round idx true;
                 Sqs.Deleted round idx (Sqs.ReceiptHandle msg) d] ++ extra)%list.
        split; [rewrite List.app_assoc; reflexivity|].
        split; [rewrite Hrun; lia|].
        intros i. cbn [List.app]. rewrite handlings_step, handlings_deleted, Hcount.
        destruct (Nat.eqb_spec idx i), (Nat.leb_spec (S idx) i), (Nat.leb_spec idx i),
          (Nat.ltb_spec i (S idx + leading_bodies msgs)),
          (Nat.ltb_spec i (idx + S (leading_bodies msgs))); cbn; lia.
      * destruct (IH (S idx) w1 (trace ++ [Sqs.Handled round idx false])%list)
          as (extra & -> & Hrun & Hcount).
        exists ([Sqs.Handled round idx false] ++ extra)%list.
        split; [rewrite List.app_assoc; reflexivity|].
        split; [rewrite Hrun; lia|].
        intros i. cbn [List.app]. rewrite handlings_step, Hcount.
        destruct (Nat.eqb_spec idx i), (Nat.leb_spec (S idx) i), (Nat.leb_spec idx i),
          (Nat.ltb_spec i (S idx + leading_bodies msgs)),
          (Nat.ltb_spec i (idx + S (leading_bodies msgs))); cbn; lia.
    + exists []. rewrite List.app_nil_r. split; [reflexivity|].
      split; [split; [discriminate|lia]|].
      intros i. destruct (Nat.leb_spec idx i), (Nat.ltb_spec i (idx + 0)); cbn; try lia;
        reflexivity.
Qed.

Lemma batch_calls_bodies (msgs : list Sqs.SQSMessage) (calls : list call)
    (completed : bool) :
  batch_calls msgs calls completed ->
  handler_bodies calls = omap Sqs.Body (leading msgs).
Proof.
  induction 1 as [|msg rest Hbody|msg rest body d calls completed Hbody _ IH
                  |msg rest body calls completed Hbody _ IH];
    cbn [handler_bodies leading]; try rewrite Hbody; cbn [omap list_omap];
    try rewrite Hbody; congruence.
Qed.

(** The journal of one round that receives a batch. *)
Lemma pollOnce_journal (round : nat) (w w1 : World) (msgs : list Sqs.SQSMessage)
    (journal : list call) (trace : list Sqs.event) :
  ReceiveMessage w = (Some msgs, w1) ->
  exists calls completed,
    snd (snd (fst (Sqs.pollOnce (World * list call) (journalReceive World ReceiveMessage)
                     (journalDelete World DeleteMessage) (journalHandler World handler)
                     round (w, journal) trace)))
    = (journal ++ CallReceive (Some msgs) :: calls)%list /\
    batch_calls msgs calls completed /\
    Forall (answered World ReceiveMessage DeleteMessage handler) calls.
Proof.
  intros Hreceive. unfold Sqs.pollOnce, journalReceive. cbn [fst snd].
  rewrite Hreceive.
  destruct (processMessages_journal World ReceiveMessage DeleteMessage handler round msgs
              0 w1 (journal ++ [CallReceive (Some msgs)])%list
              (trace ++ [Sqs.Received round true])%list)
    as (calls & completed & -> & Hcalls & Hanswered & _).
  exists calls, completed. cbn [fst snd].
  split; [rewrite <- List.app_assoc; reflexivity|]. split; assumption.
Qed.

(** One round that receives a batch calls the handler once for each
    message, with the body of that message and in the order of the batch,
    whatever the handler and DeleteMessage answered for the messages before
    it, up to the first message without a body; for that message and those
    after it the handler is not called, and the round goes on to the next one
    exactly when no message lacks a body.  The calls are those the handler
    itself writes in the journal; the trace of the round counts one handling
    for each of these messages and none for the others. *)
Theorem batch_is_handled_up_to_missing_body (round : nat) (w w1 : World)
    (msgs : list Sqs.SQSMessage) :
  ReceiveMessage w = (Some msgs, w1) ->
  handler_bodies
    (snd (snd (fst (Sqs.pollOnce (World * list call)
                      (journalReceive World ReceiveMessage)
                      (journalDelete World DeleteMessage) (journalHandler World handler)
                      round (w, []) []))))
  = omap Sqs.Body (leading msgs) /\
  (fst (fst (Sqs.pollOnce World ReceiveMessage DeleteMessage handler round w []))
   = Sqs.Running <-> leading_bodies msgs = List.length msgs) /\
  forall i,
    handlings round i
      (snd (Sqs.pollOnce World ReceiveMessage DeleteMessage handler round w []))
    = if (i <? leading_bodies msgs)%nat then 1%nat else 0%nat.
Proof.
  intros Hreceive. split.
  { destruct (pollOnce_journal round w w1 msgs [] [] Hreceive)
      as (calls & completed & -> & Hcalls & _).
    cbn [List.app handler_bodies]. exact (batch_calls_bodies _ _ _ Hcalls). }
  unfold Sqs.pollOnce. rewrite Hreceive.
  destruct (processMessages_handles_leading round msgs 0 w1
              ([] ++ [Sqs.Received round true])%list) as (extra & -> & Hrun & Hcount).
  split; [exact Hrun|].
  intros i. rewrite handlings_app, Hcount. cbn [List.app].
  unfold handlings at 1, count. cbn. reflexivity.
Qed.

Lemma pollOnce_survives (round : nat) (w : World) (trace : list Sqs.event) :
  (forall w0 msgs w', ReceiveMessage w0 = (Some msgs, w') ->
                      Forall (fun msg => Sqs.Body msg <> None) msgs) ->
  fst (fst (Sqs.pollOnce World ReceiveMessage DeleteMessage handler round w trace))
  = Sqs.Running.
Proof.
  intros Hbodies. unfold Sqs.pollOnce.
  destruct (ReceiveMessage w) as [[msgs|] w1] eqn:Hreceive; [|reflexivity].
  destruct (processMessages_handles_leading round msgs 0 w1
              (trace ++ [Sqs.Received round true])%list) as (_ & _ & Hrun & _).
  apply Hrun. specialize (Hbodies w msgs w1 Hreceive). clear -Hbodies.
  induction Hbodies as [|msg rest Hmsg _ IH]; [reflexivity|].
  cbn [leading_bodies List.length]. destruct (Sqs.Body msg); [|contradiction].
  rewrite IH. reflexivity.
Qed.

(** As long as the queue never delivers a message without a body, the loop
    of Poll goes on for any number of rounds: no error of ReceiveMessage, of
    the handler or of DeleteMessage ends it. *)
Theorem poll_survives_every_error (rounds round : nat) (w : World)
    (trace : list Sqs.event) :
  (forall w0 msgs w', ReceiveMessage w0 = (Some msgs, w') ->
                      Forall (fun msg => Sqs.Body msg <> None) msgs) ->
  fst (fst (Sqs.Poll World ReceiveMessage DeleteMessage handler rounds round w trace))
  = Sqs.Running.
Proof.
  intros Hbodies. revert round w trace.
  induction rounds as [|rounds IH]; intros round w trace; [reflexivity|].
  cbn [Sqs.Poll].
  pose proof (pollOnce_survives round w trace Hbodies) as Hrun.
  destruct (Sqs.pollOnce World ReceiveMessage DeleteMessage handler round w trace)
    as [[out w1] trace1].
  cbn [fst] in Hrun. subst out. apply IH.
Qed.

End BatchProperties.

Lemma batch_is_handled_up_to_missing_body_witness :
  handler_bodies
    (snd (snd (fst
       (Sqs.pollOnce (unit * list call)
          (journalReceive unit
             (fun w => (Some [ {| Sqs.Body := Some "not json";
                                  Sqs.ReceiptHandle := Some "h0" |};
                               {| Sqs.Body := Some "{}"; Sqs.ReceiptHandle := Some "h1" |};
                               {| Sqs.Body := None; Sqs.ReceiptHandle := Some "h2" |};
                               {| Sqs.Body := Some "{}"; Sqs.ReceiptHandle := Some "h3" |} ],
                        w)))
          (journalDelete unit (fun _ w => (false, w)))
          (journalHandler unit (fun body w => (negb (String.eqb body "not json"), w)))
          3 (tt, []) []))))
  = ["not json"; "{}"].
Proof.
  refine (proj1 (batch_is_handled_up_to_missing_body unit
           (fun w => (Some [ {| Sqs.Body := Some "not json"; Sqs.ReceiptHandle := Some "h0" |};
                             {| Sqs.Body := Some "{}"; Sqs.ReceiptHandle := Some "h1" |};
                             {| Sqs.Body := None; Sqs.ReceiptHandle := Some "h2" |};
                             {| Sqs.Body := Some "{}"; Sqs.ReceiptHandle := Some "h3" |} ],
                      w))
           (fun _ w => (false, w))
           (fun body w => (negb (String.eqb body "not json"), w)) 3 tt tt _ eq_refl)).
Defined.

Lemma poll_survives_every_error_witness :
  fst (fst (Sqs.Poll bool
              (fun w : bool => (if w then None
                         else Some [ {| Sqs.Body := Some "not json";
                                        Sqs.ReceiptHandle := None |} ],
                         negb w))
              (fun _ w => (false, w))
              (fun _ w => (false, w)) 4 0 true []))
  = Sqs.Running.
Proof.
  apply (poll_survives_every_error bool
           (fun w : bool => (if w then None
                      else Some [ {| Sqs.Body := Some "not json";
                                     Sqs.ReceiptHandle := None |} ],
                      negb w))
           (fun _ w => (false, w))
           (fun _ w => (false, w)) 4 0 true []).
  intros [|] msgs w' H; [discriminate H|].
  injection H as <- _. repeat constructor. discriminate.
Defined.

(** ** The webhook handler *)

(** The webhook handler hands a message to the chat client only for a
    POST request whose body was read and adapted; the message goes to the
    channel the adapter chose, carries the adapted text, and both buttons
    carry "grafana_" followed by the Unix time of the request in decimal; the
    status is 200 exactly when the client accepted the message (500
    otherwise). *)
Theorem webhook_posts_only_adapted_alerts (rt : GoRuntime) (config : Config.Config)
    (now : Z) (orders : Adapter.RangeOrders rt) (PostMessage : Notifier.SlackPost -> bool)
    (r : Server.Request) (body : option string) (post : Notifier.SlackPost) :
  Webhook.posted (Webhook.handleGrafanaWebhook rt config now orders PostMessage r body)
  = Some post ->
  Server.Method r = "POST" /\
  (exists raw alertMsg,
      body = Some raw /\
      Adapter.AdaptGrafanaWebhook rt orders raw (Config.SlackChannels config)
        (Config.AlarmChannels config) = Ok alertMsg /\
      Notifier.post_channel post = Adapter.Channel alertMsg /\
      Notifier.post_text post = Adapter.Message alertMsg) /\
  List.map (fun b => (Notifier.ActionID b, Notifier.Value b)) (Notifier.post_buttons post)
  = [("acknowledge", "grafana_" +:+ itoa now); ("dismiss", "grafana_" +:+ itoa now)] /\
  Webhook.status (Webhook.handleGrafanaWebhook rt config now orders PostMessage r body)
  = (if PostMessage post then 200 else 500)%Z.
Proof.
  unfold Webhook.handleGrafanaWebhook. intros H.
  destruct (String.eqb_spec (Server.Method r) "POST") as [Hmethod|]; [|discriminate H].
  cbn [negb] in *.
  destruct body as [raw|]; [|discriminate H].
  destruct (Adapter.AdaptGrafanaWebhook rt orders raw _ _) as [alertMsg|e] eqn:Hadapt;
    [|discriminate H].
  unfold Notifier.NotifyWithButtons in *.
  destruct (PostMessage _) eqn:Hpost; cbn [Webhook.posted Webhook.status] in *;
    injection H as <-; rewrite Hpost;
    (split; [exact Hmethod|]; split;
     [exists raw, alertMsg; split; [reflexivity|]; split; [exact Hadapt|];
      split; reflexivity|]; split; reflexivity).
Qed.

Lemma webhook_posts_only_adapted_alerts_witness :
  Webhook.status
    (Webhook.handleGrafanaWebhook Example.runtime
       {| Config.SQSQueueURL := "https://sqs.example/q"; Config.SlackWebhookURL := "";
          Config.SlackBotToken := "xoxb-1"; Config.SlackSigningSecret := "secret";
          Config.ServerPort := "8088"; Config.PollIntervalSec := 10;
          Config.SlackChannels := {[ "P0" := "#p0-infra-alerts"; "default" := "#alerts" ]};
          Config.AlarmChannels := ∅ |}
       1700000200
       {| Adapter.ord_annotations := []; Adapter.ord_matchTags := [];
          Adapter.ord_tags := [] |}
       (fun post => String.eqb (Notifier.post_channel post) "#p0-infra-alerts")
       {| Server.Method := "POST"; Server.X_Slack_Request_Timestamp := "";
          Server.X_Slack_Signature := "" |}
       (Some (Example.q "{'title':'High latency','state':'alerting'}")))
  = 500%Z.
Proof.
  pose (post :=
          Notifier.buildPost (Notifier.NewSlackNotifier "xoxb-1" "#alerts")
            (Adapter.formatGrafanaSlackMessage Example.runtime [] []
               {| Adapter.gw_DashboardID := 0%Z; Adapter.gw_EvalMatches := [];
                  Adapter.gw_ImageURL := ""; Adapter.gw_Message := "";
                  Adapter.gw_OrgID := 0%Z; Adapter.gw_PanelID := 0%Z;
                  Adapter.gw_RuleID := 0%Z;
                  Adapter.gw_RuleName := ""; Adapter.gw_RuleURL := "";
                  Adapter.gw_State := "alerting"; Adapter.gw_Tags := ∅;
                  Adapter.gw_Title := "High latency" |})
            "grafana_1700000200").
  destruct (webhook_posts_only_adapted_alerts Example.runtime
              {| Config.SQSQueueURL := "https://sqs.example/q"; Config.SlackWebhookURL := "";
                 Config.SlackBotToken := "xoxb-1"; Config.SlackSigningSecret := "secret";
                 Config.ServerPort := "8088"; Config.PollIntervalSec := 10;
                 Config.SlackChannels :=
                   {[ "P0" := "#p0-infra-alerts"; "default" := "#alerts" ]};
                 Config.AlarmChannels := ∅ |}
              1700000200
              {| Adapter.ord_annotations := []; Adapter.ord_matchTags := [];
                 Adapter.ord_tags := [] |}
              (fun post => String.eqb (Notifier.post_channel post) "#p0-infra-alerts")
              {| Server.Method := "POST"; Server.X_Slack_Request_Timestamp := "";
                 Server.X_Slack_Signature := "" |}
              (Some (Example.q "{'title':'High latency','state':'alerting'}"))
              post) as (_ & _ & _ & Hstatus); [reflexivity|].
  exact Hstatus.
Defined.

(** ** The channel tag *)

(** A channel tag that is P0, P1 or P2 in any letter case sets the
    priority of a legacy webhook, before any keyword rule; it sets the
    priority of a modern webhook too, unless the status is firing and the
    NoData rule has set P1. *)
Theorem recognised_tag_sets_the_priority (rt : GoRuntime) :
  (forall alert tag,
      Adapter.gw_Tags rt alert !! "channel" = Some tag ->
      recognised_tag rt tag = true ->
      Adapter.determineGrafanaPriority rt alert = ToUpper rt tag) /\
  (forall webhook,
      recognised_tag rt (Adapter.extractChannelTag rt webhook) = true ->
      Adapter.alertmanagerPriority rt webhook
      = ToUpper rt (Adapter.extractChannelTag rt webhook) \/
      (Adapter.alertmanagerPriority rt webhook = "P1" /\
       String.eqb (ToUpper rt (Adapter.am_Status rt webhook)) "FIRING" = true /\
       Adapter.noDataPriority rt (Adapter.am_Alerts rt webhook) "" = "P1")).
Proof.
  split.
  - intros alert tag Hlookup Htag. unfold Adapter.determineGrafanaPriority.
    rewrite Hlookup. unfold recognised_tag in Htag.
    destruct (String.eqb_spec (ToUpper rt tag) "P0") as [->|_]; [reflexivity|].
    destruct (String.eqb_spec (ToUpper rt tag) "P1") as [->|_]; [reflexivity|].
    destruct (String.eqb_spec (ToUpper rt tag) "P2") as [->|_]; [reflexivity|].
    discriminate Htag.
  - intros webhook Htag. unfold Adapter.alertmanagerPriority.
    set (tag := Adapter.extractChannelTag rt webhook) in *.
    assert (Hne : String.eqb tag "" = false).
    { destruct (String.eqb_spec tag "") as [Hempty|]; [|reflexivity].
      unfold recognised_tag in Htag. rewrite Hempty in Htag.
      assert (Hupper : ToUpper rt "" = "") by reflexivity.
      rewrite Hupper in Htag. discriminate Htag. }
    assert (Hplain :
      (if negb (String.eqb tag "") then
         if String.eqb (ToUpper rt tag) "P0" then "P0"
         else if String.eqb (ToUpper rt tag) "P1" then "P1"
         else if String.eqb (ToUpper rt tag) "P2" then "P2" else "P2"
       else "P2") = ToUpper rt tag).
    { rewrite Hne. cbn [negb]. unfold recognised_tag in Htag.
      destruct (String.eqb_spec (ToUpper rt tag) "P0") as [->|_]; [reflexivity|].
      destruct (String.eqb_spec (ToUpper rt tag) "P1") as [->|_]; [reflexivity|].
      destruct (String.eqb_spec (ToUpper rt tag) "P2") as [->|_]; [reflexivity|].
      discriminate Htag. }
    destruct (String.eqb (ToUpper rt (Adapter.am_Status rt webhook)) "FIRING") eqn:Hfiring;
      cbn [andb].
    + destruct ((0 <? List.length (Adapter.am_Alerts rt webhook))%nat).
      * destruct (noDataPriority_values rt (Adapter.am_Alerts rt webhook) "") as [Hn | Hn];
          rewrite Hn.
        -- left. cbn [String.eqb]. exact Hplain.
        -- right. auto.
      * left. cbn [String.eqb]. exact Hplain.
    + left. cbn [String.eqb]. exact Hplain.
Qed.

Lemma recognised_tag_sets_the_priority_witness :
  Adapter.determineGrafanaPriority Example.runtime
    {| Adapter.gw_DashboardID := 0%Z; Adapter.gw_EvalMatches := [];
       Adapter.gw_ImageURL := ""; Adapter.gw_Message := "";
       Adapter.gw_OrgID := 0%Z; Adapter.gw_PanelID := 0%Z; Adapter.gw_RuleID := 0%Z;
       Adapter.gw_RuleName := "prod-db-down"; Adapter.gw_RuleURL := "";
       Adapter.gw_State := "alerting"; Adapter.gw_Tags := {[ "channel" := "p2" ]};
       Adapter.gw_Title := "critical" |}
  = "P2".
Proof.
  apply (proj1 (recognised_tag_sets_the_priority Example.runtime)
           {| Adapter.gw_DashboardID := 0%Z; Adapter.gw_EvalMatches := [];
              Adapter.gw_ImageURL := ""; Adapter.gw_Message := "";
              Adapter.gw_OrgID := 0%Z; Adapter.gw_PanelID := 0%Z; Adapter.gw_RuleID := 0%Z;
              Adapter.gw_RuleName := "prod-db-down"; Adapter.gw_RuleURL := "";
              Adapter.gw_State := "alerting"; Adapter.gw_Tags := {[ "channel" := "p2" ]};
              Adapter.gw_Title := "critical" |} "p2"); reflexivity.
Defined.

(** ** The two queue adapters *)

(** The routing adapter renders exactly the text the plain adapter renders
    for the same body, and each fails exactly when the other does, with the
    same error. *)
Theorem routing_adapter_agrees_with_plain_adapter (rt : GoRuntime) (body : string)
    (channels alarmChannels : gmap string string) :
  match Adapter.AdaptSQSMessage rt body,
        Adapter.AdaptSQSMessageWithRouting rt body channels alarmChannels with
  | Ok text, Ok msg => Adapter.Message msg = text
  | Err e, Err e' => e = e'
  | _, _ => False
  end.
Proof.
  unfold Adapter.AdaptSQSMessage, Adapter.AdaptSQSMessageWithRouting.
  destruct (Unmarshal Adapter.decode_Envelope body Adapter.Envelope_zero) as [envelope|e];
    cbn [bind]; [|reflexivity].
  destruct (Unmarshal (Adapter.decode_CloudWatchAlarm rt) _ _) as [alarm|e];
    cbn [bind]; reflexivity.
Qed.

(** ** Correlation values *)

Lemma byte_of_digit_char (d : N) :
  (d < 10)%N -> byte_of (GoStrings.digit_char d) = (48 + d)%N.
Proof.
  intros Hd. unfold GoStrings.digit_char, byte_of, char_of.
  apply N_ascii_embedding. lia.
Qed.

Lemma parse_digits_digit (d : N) (s : string) (a : Z) :
  (d < 10)%N ->
  GoStrings.parse_digits (String (GoStrings.digit_char d) s) a
  = GoStrings.parse_digits s (10 * a + Z.of_N d)%Z.
Proof.
  intros Hd. cbn [GoStrings.parse_digits]. unfold GoStrings.is_digit.
  rewrite (byte_of_digit_char d Hd).
  replace ((48 <=? 48 + d)%N && (48 + d <=? 57)%N) with true
    by (symmetry; apply andb_true_iff; split; apply N.leb_le; lia).
  replace (48 + d - 48)%N with d by lia. reflexivity.
Qed.

Lemma utoa_go_parses (fuel : nat) :
  forall n : N,
    (n < 10 ^ N.of_nat fuel)%N ->
    exists k : Z,
      (0 <= k)%Z /\
      forall acc a,
        GoStrings.parse_digits (GoStrings.utoa_go fuel n acc) a
        = GoStrings.parse_digits acc (a * 10 ^ k + Z.of_N n)%Z.
Proof.
  induction fuel as [|fuel IH]; intros n Hn.
  - exists 0%Z. split; [lia|]. intros acc a. cbn [GoStrings.utoa_go].
    f_equal. change (10 ^ N.of_nat 0)%N with 1%N in Hn. lia.
  - cbn [GoStrings.utoa_go].
    assert (Hmod : (n mod 10 < 10)%N) by (apply N.mod_lt; lia).
    destruct (N.ltb_spec n 10) as [Hsmall|Hbig].
    + exists 1%Z. split; [lia|]. intros acc a.
      rewrite (parse_digits_digit _ _ _ Hmod). f_equal.
      rewrite N.mod_small by exact Hsmall. lia.
    + assert (Hdiv : (n / 10 < 10 ^ N.of_nat fuel)%N).
      { apply N.Div0.div_lt_upper_bound.
        rewrite Nat2N.inj_succ, N.pow_succ_r' in Hn. exact Hn. }
      destruct (IH (n / 10)%N Hdiv) as (k & Hk & Hparse).
      exists (k + 1)%Z. split; [lia|]. intros acc a.
      rewrite Hparse, (parse_digits_digit _ _ _ Hmod). f_equal.
      rewrite Z.pow_add_r by lia.
      pose proof (N.div_mod n 10 ltac:(lia)) as Hdm.
      rewrite N2Z.inj_div, N2Z.inj_mod.
      change (Z.of_N 10) with 10%Z.
      pose proof (Z.div_mod (Z.of_N n) 10 ltac:(lia)). lia.
Qed.

(** The decimal digits %d prints for a natural number read back as that
    number. *)
Lemma utoa_parses (n : N) : GoStrings.parse_digits (GoStrings.utoa n) 0 = Some (Z.of_N n).
Proof.
  unfold GoStrings.utoa.
  destruct (utoa_go_parses (S (N.to_nat (N.log2 n))) n) as (k & _ & Hparse).
  - rewrite Nat2N.inj_succ, N2Nat.id.
    apply N.lt_le_trans with (2 ^ N.succ (N.log2 n))%N.
    + destruct (N.eq_dec n 0%N) as [->|Hn]; [reflexivity|].
      apply N.log2_spec. lia.
    + apply N.pow_le_mono_l. lia.
  - rewrite Hparse. reflexivity.
Qed.

Lemma itoa_of_nat_injective (n m : nat) :
  itoa (Z.of_nat n) = itoa (Z.of_nat m) -> n = m.
Proof.
  unfold itoa.
  destruct (Z.ltb_spec (Z.of_nat n) 0) as [|_]; [lia|].
  destruct (Z.ltb_spec (Z.of_nat m) 0) as [|_]; [lia|].
  intros H.
  pose proof (utoa_parses (Z.to_N (Z.of_nat n))) as Hn.
  rewrite H, utoa_parses in Hn. injection Hn as Hn. lia.
Qed.

(** Two alerts from the queue get the same correlation value on their
    buttons exactly when their messages have the same length in bytes; and
    the value of a queue alert, which begins with alert_, is never the value
    of a webhook alert, which begins with grafana_. *)
Theorem queue_correlation_values_meet_exactly_on_length (s s' : Notifier.SlackNotifier)
    (message message' : string) :
  (List.map Notifier.Value (Notifier.post_buttons (Notifier.buildPost s message ""))
   = List.map Notifier.Value (Notifier.post_buttons (Notifier.buildPost s' message' ""))
   <-> String.length message = String.length message') /\
  (forall now alertMessage,
      List.map Notifier.Value (Notifier.post_buttons (Notifier.buildPost s message ""))
      <> List.map Notifier.Value
           (Notifier.post_buttons
              (Notifier.buildPost s' alertMessage ("grafana_" +:+ itoa now)))).
Proof.
  cbn [Notifier.buildPost Notifier.post_buttons List.map Notifier.Value String.eqb].
  split; [split|].
  - intros H. injection H as H _.
    apply itoa_of_nat_injective. exact H.
  - intros ->. reflexivity.
  - intros now alertMessage H. discriminate H.
Qed.

Lemma character_count_app (a b : string) :
  character_count (a +:+ b) = (character_count a + character_count b)%nat.
Proof.
  induction a as [|c a IH]; [reflexivity|].
  rewrite append_cons. cbn [character_count]. rewrite IH.
  destruct ((128 <=? byte_of c) && (byte_of c <? 192))%N; reflexivity.
Qed.

Lemma length_app (a b : string) :
  String.length (a +:+ b) = (String.length a + String.length b)%nat.
Proof.
  induction a as [|c a IH]; [reflexivity|].
  rewrite append_cons. cbn [String.length]. rewrite IH. reflexivity.
Qed.

Lemma character_count_le (s : string) : (character_count s <= String.length s)%nat.
Proof.
  induction s as [|c s IH]; [reflexivity|].
  cbn [character_count String.length].
  destruct ((128 <=? byte_of c) && (byte_of c <? 192))%N; lia.
Qed.

(** C10 as stated fails: the value counts bytes, not characters.  The
    message of the empty alarm has 187 characters and its buttons carry
    alert_210; every message the queue adapter renders begins with a
    character of several bytes, so that for every alarm and every runtime the
    value differs from "alert_" followed by the number of characters; and two
    messages with the same number of characters get different values when
    their lengths in bytes differ. *)
Lemma correlation_value_is_not_the_character_length :
  (exists alertMsg,
      Adapter.AdaptSQSMessageWithRouting Example.runtime (Example.q "{'Message':'{}'}")
        {[ "P2" := "#p2-infra-alerts" ]} ∅ = Ok alertMsg /\
      character_count (Adapter.Message alertMsg) = 187%nat /\
      List.map Notifier.Value
        (Notifier.post_buttons
           (Notifier.buildPost
              (Notifier.NewSlackNotifier "xoxb-token" (Adapter.Channel alertMsg))
              (Adapter.Message alertMsg) ""))
      = ["alert_210"; "alert_210"]) /\
  (forall (rt : GoRuntime) (alarm : Adapter.CloudWatchAlarm rt) (s : Notifier.SlackNotifier),
      (character_count (Adapter.formatSlackMessage rt alarm)
       < String.length (Adapter.formatSlackMessage rt alarm))%nat /\
      List.map Notifier.Value
        (Notifier.post_buttons
           (Notifier.buildPost s (Adapter.formatSlackMessage rt alarm) ""))
      <> [ "alert_" +:+
           itoa (Z.of_nat (character_count (Adapter.formatSlackMessage rt alarm)));
           "alert_" +:+
           itoa (Z.of_nat (character_count (Adapter.formatSlackMessage rt alarm))) ]) /\
  (forall s : Notifier.SlackNotifier,
      character_count "disk é" = character_count "disk e" /\
      List.map Notifier.Value (Notifier.post_buttons (Notifier.buildPost s "disk é" ""))
      <> List.map Notifier.Value
           (Notifier.post_buttons (Notifier.buildPost s "disk e" ""))).
Proof.
  split; [|split].
  - eexists. split; [reflexivity|]. split; vm_compute; reflexivity.
  - intros rt alarm s.
    assert (Hlt : (character_count (Adapter.formatSlackMessage rt alarm)
                   < String.length (Adapter.formatSlackMessage rt alarm))%nat).
    { destruct (cloudwatch_message_header rt alarm) as (emoji & Hin & rest & ->).
      rewrite !append_assoc, character_count_app, length_app.
      pose proof (character_count_le
                    (" *CloudWatch Alarm: " +:+ Adapter.cw_AlarmName rt alarm +:+ "*" +:+
                     rest)) as Hle.
      assert (Hemoji : (character_count emoji < String.length emoji)%nat).
      { cbn [In] in Hin. destruct Hin as [<-|[<-|[<-|[<-|[]]]]]; vm_compute; lia. }
      lia. }
    split; [exact Hlt|].
    cbn [Notifier.buildPost Notifier.post_buttons List.map Notifier.Value String.eqb].
    intros H. injection H as H _.
    apply itoa_of_nat_injective in H. lia.
  - intros s. split; [vm_compute; reflexivity|].
    cbn [Notifier.buildPost Notifier.post_buttons List.map Notifier.Value String.eqb].
    intros H. vm_compute in H. discriminate H.
Qed.

(** ** The helpers for value strings *)

Lemma take_bytes_before_index (s : string) :
  forall p,
    Index s "}" = Some p ->
    free_of "}" (take_bytes p s) = true /\ (p <> 0%nat -> take_bytes p s <> "").
Proof.
  induction s as [|c s IH]; intros p H; rewrite Index_unfold in H.
  - cbn in H. discriminate H.
  - rewrite HasPrefix_cons, HasPrefix_nil, andb_true_r in H.
    destruct (Ascii.eqb "}" c) eqn:Hc.
    + injection H as <-. split; [reflexivity|]. intros Hp. contradiction Hp. reflexivity.
    + destruct (Index s "}") as [p'|]; [|discriminate H].
      injection H as <-. cbn [take_bytes free_of all_chars]. rewrite Hc. cbn [negb andb].
      split; [exact (proj1 (IH p' eq_refl))|discriminate].
Qed.

Lemma podNameOf_shape (val podName : string) :
  ValueString.podNameOf val = Some podName ->
  podName <> "" /\ free_of "}" podName = true.
Proof.
  unfold ValueString.podNameOf.
  destruct (Index val "labels={pod=") as [start|]; [|discriminate].
  destruct (Index (drop_bytes (start + 12) val) "}") as [[|n]|] eqn:Hend; try discriminate.
  intros H. injection H as <-.
  destruct (take_bytes_before_index _ _ Hend) as [Hfree Hne].
  split; [apply Hne; discriminate|exact Hfree].
Qed.

Lemma collectPodNames_distinct (values : list string) :
  forall podNames (seen : gset string),
    NoDup podNames ->
    (forall name, name ∈ seen <-> In name podNames) ->
    Forall (fun name => name <> "" /\ free_of "}" name = true) podNames ->
    NoDup (ValueString.collectPodNames values podNames seen) /\
    Forall (fun name => name <> "" /\ free_of "}" name = true)
      (ValueString.collectPodNames values podNames seen).
Proof.
  induction values as [|val values IH]; intros podNames seen Hnodup Hseen Hshape;
    cbn [ValueString.collectPodNames]; [auto|].
  destruct (Contains (ValueString.cleanValue val) "labels={pod="); [|auto].
  destruct (ValueString.podNameOf (ValueString.cleanValue val)) as [podName|] eqn:Hpod;
    [|auto].
  destruct (bool_decide_reflect (podName ∈ seen)) as [_|Hnew]; [auto|].
  apply IH.
  - apply NoDup_app. split; [exact Hnodup|]. split.
    + intros name Hin Hin'. apply list_elem_of_singleton in Hin'. subst name.
      apply Hnew, Hseen. apply list_elem_of_In. exact Hin.
    + apply NoDup_singleton.
  - intros name. rewrite elem_of_union, elem_of_singleton, Hseen, List.in_app_iff.
    cbn [In]. intuition auto.
  - apply Forall_app. split; [exact Hshape|].
    constructor; [exact (podNameOf_shape _ _ Hpod)|constructor].
Qed.

Lemma collectPodNames_members (values : list string) :
  forall podNames (seen : gset string),
    (forall name, name ∈ seen <-> In name podNames) ->
    forall name,
      In name (ValueString.collectPodNames values podNames seen) <->
      In name podNames \/
      exists val,
        In val values /\
        Contains (ValueString.cleanValue val) "labels={pod=" = true /\
        ValueString.podNameOf (ValueString.cleanValue val) = Some name.
Proof.
  induction values as [|val values IH]; intros podNames seen Hseen name;
    cbn [ValueString.collectPodNames].
  - split; [auto|]. intros [H|(val & [] & _)]. exact H.
  - assert (Hskip :
      (forall n, ValueString.podNameOf (ValueString.cleanValue val) = Some n ->
                 Contains (ValueString.cleanValue val) "labels={pod=" = true ->
                 In n podNames) ->
      (In name podNames \/
       (exists val0, In val0 values /\
          Contains (ValueString.cleanValue val0) "labels={pod=" = true /\
          ValueString.podNameOf (ValueString.cleanValue val0) = Some name)) <->
      (In name podNames \/
       (exists val0, In val0 (val :: values) /\
          Contains (ValueString.cleanValue val0) "labels={pod=" = true /\
          ValueString.podNameOf (ValueString.cleanValue val0) = Some name))).
    { intros Hhere. split.
      - intros [H|(val0 & Hin & Hc & Hp)]; [auto|].
        right. exists val0. split; [right; exact Hin|auto].
      - intros [H|(val0 & [<-|Hin] & Hc & Hp)]; [auto| |].
        + left. exact (Hhere name Hp Hc).
        + right. exists val0. auto. }
    destruct (Contains (ValueString.cleanValue val) "labels={pod=") eqn:Hcontains.
    + destruct (ValueString.podNameOf (ValueString.cleanValue val)) as [podName|] eqn:Hpod.
      * destruct (bool_decide_reflect (podName ∈ seen)) as [Hold|Hnew].
        -- rewrite (IH podNames seen Hseen name). apply Hskip.
           intros n Hn _. injection Hn as <-. apply Hseen. exact Hold.
        -- rewrite (IH (podNames ++ [podName])%list ({[ podName ]} ∪ seen)).
           ++ rewrite List.in_app_iff. cbn [In]. split.
              ** intros [[H|[<-|[]]]|(val0 & Hin & Hc & Hp)].
                 --- left. exact H.
                 --- right. exists val. split; [left; reflexivity|auto].
                 --- right. exists val0. split; [right; exact Hin|auto].
              ** intros [H|(val0 & [<-|Hin] & Hc & Hp)].
                 --- left. left. exact H.
                 --- left. right. left. congruence.
                 --- right. exists val0. auto.
           ++ intros n. rewrite elem_of_union, elem_of_singleton, Hseen, List.in_app_iff.
              cbn [In]. intuition auto.
      * rewrite (IH podNames seen Hseen name). apply Hskip. intros n Hn. discriminate Hn.
    + rewrite (IH podNames seen Hseen name). apply Hskip. intros n _ Hc. discriminate Hc.
Qed.

(** extractPodNames lists exactly the pod names found in the values of the
    value string (a name is found in a value that, cleaned of brackets and
    white space, holds the pod label and a non-empty name before the next
    closing brace): every name found is listed, nothing else is listed, and
    each name is listed once, however often the value string repeats it; no
    name listed is empty or holds a closing brace. *)
Theorem pod_names_are_listed_once (valueString : string) :
  (forall name,
      In name (ValueString.extractPodNames valueString) <->
      exists val,
        In val (ValueString.Split valueString "], [") /\
        Contains (ValueString.cleanValue val) "labels={pod=" = true /\
        ValueString.podNameOf (ValueString.cleanValue val) = Some name) /\
  NoDup (ValueString.extractPodNames valueString) /\
  Forall (fun name => name <> "" /\ free_of "}" name = true)
    (ValueString.extractPodNames valueString).
Proof.
  assert (Hseen : forall name : string, name ∈ (∅ : gset string) <-> In name []).
  { intros name. split; [intros H; exfalso; revert H; apply not_elem_of_empty|intros []]. }
  split.
  - intros name. unfold ValueString.extractPodNames.
    rewrite (collectPodNames_members _ [] ∅ Hseen name). cbn [In]. tauto.
  - unfold ValueString.extractPodNames. apply collectPodNames_distinct.
    + constructor.
    + exact Hseen.
    + constructor.
Qed.

Section ValueStringProperties.
Variable rt : GoRuntime.
Variable Sscanf_f : string -> option (float64 rt).

Lemma writeValues_plain (total : nat) (values : list string) :
  Forall (fun val => pod_value val = false) values ->
  forall i result,
    (i <= 5)%nat ->
    ValueString.writeValues rt Sscanf_f values i total result
    = result +:+ plainLines (firstn (5 - i) values) +:+
      (if (5 - i <? List.length values)%nat
       then Adapter.nl +:+ "   → ... and " +:+ itoa (Z.of_nat total - 5) +:+ " more values"
       else "").
Proof.
  induction 1 as [|val values Hval _ IH]; intros i result Hi.
  - cbn [ValueString.writeValues List.length]. rewrite firstn_nil.
    cbn [plainLines]. destruct (5 - i <? 0)%nat eqn:Hlt;
      [apply Nat.ltb_lt in Hlt; lia|].
    symmetry. apply append_empty_r.
  - cbn [ValueString.writeValues]. unfold pod_value in Hval. rewrite Hval.
    destruct (Nat.ltb_spec i 5) as [Hlt|Hge].
    + rewrite (IH (S i)) by lia.
      replace (5 - i)%nat with (S (5 - S i)) by lia.
      cbn [firstn plainLines List.length].
      change (S (5 - S i) <? S (List.length values))%nat
        with (5 - S i <? List.length values)%nat.
      rewrite !append_assoc. reflexivity.
    + assert (i = 5%nat) as -> by lia. reflexivity.
Qed.

(** For a value string none of whose values is shown as a pod,
    formatValueString writes one line for each of the first five values and,
    when there are more, one last line that counts the rest. *)
Theorem plain_values_are_capped_at_five (valueString : string) :
  Forall (fun val => pod_value val = false) (ValueString.Split valueString "], [") ->
  ValueString.formatValueString rt Sscanf_f valueString
  = plainLines (firstn 5 (ValueString.Split valueString "], [")) +:+
    (if (5 <? List.length (ValueString.Split valueString "], ["))%nat
     then Adapter.nl +:+ "   → ... and " +:+
          itoa (Z.of_nat (List.length (ValueString.Split valueString "], [")) - 5) +:+
          " more values"
     else "").
Proof.
  intros Hplain. unfold ValueString.formatValueString.
  rewrite (writeValues_plain _ _ Hplain 0 "") by lia. reflexivity.
Qed.

End ValueStringProperties.

Lemma plain_values_are_capped_at_five_witness :
  ValueString.formatValueString Example.runtime (fun _ => None)
    "[ a ], [ b ], [ c ], [ d ], [ e ], [ f ], [ g ]"
  = Adapter.nl +:+ "   → `a`" +:+ Adapter.nl +:+ "   → `b`" +:+ Adapter.nl +:+ "   → `c`" +:+
    Adapter.nl +:+ "   → `d`" +:+ Adapter.nl +:+ "   → `e`" +:+
    Adapter.nl +:+ "   → ... and 2 more values".
Proof.
  assert (Hplain : Forall (fun val => pod_value val = false)
                     (ValueString.Split "[ a ], [ b ], [ c ], [ d ], [ e ], [ f ], [ g ]"
                        "], [")).
  { assert (Hsplit : ValueString.Split "[ a ], [ b ], [ c ], [ d ], [ e ], [ f ], [ g ]"
                        "], ["
                      = ["[ a "; " b "; " c "; " d "; " e "; " f "; " g ]"])
      by (vm_compute; reflexivity).
    rewrite Hsplit. repeat (constructor; [vm_compute; reflexivity|]). constructor. }
  rewrite (plain_values_are_capped_at_five Example.runtime (fun _ => None)
             "[ a ], [ b ], [ c ], [ d ], [ e ], [ f ], [ g ]" Hplain).
  reflexivity.
Defined.

(** ** The channel tag in the rendered message *)

Lemma filter_important_not_channel (order : list (string * string)) :
  List.filter Adapter.isImportantTag (List.filter not_channel order)
  = List.filter Adapter.isImportantTag order.
Proof.
  induction order as [|kv order IH]; [reflexivity|].
  cbn [List.filter]. unfold not_channel at 1, Adapter.isImportantTag at 2.
  destruct (negb (String.eqb (fst kv) "channel")) eqn:Hk; cbn [andb].
  - cbn [List.filter]. rewrite IH. unfold Adapter.isImportantTag at 1. rewrite Hk.
    reflexivity.
  - exact IH.
Qed.

Lemma only_channel_is_unimportant (tags : gmap string string)
    (order : list (string * string)) :
  Adapter.range_order tags order ->
  delete "channel" tags = ∅ ->
  List.filter Adapter.isImportantTag order = [].
Proof.
  unfold Adapter.range_order. intros Horder Hdelete.
  assert (Hall : Forall (fun kv => Adapter.isImportantTag kv = false) order).
  { apply Forall_forall. intros [k v] Hin.
    rewrite Horder in Hin. apply elem_of_map_to_list in Hin.
    unfold Adapter.isImportantTag. cbn [fst snd].
    destruct (String.eqb_spec k "channel") as [|Hk]; [reflexivity|].
    exfalso. assert (Hlookup : delete "channel" tags !! k = Some v)
      by (rewrite lookup_delete_ne by congruence; exact Hin).
    rewrite Hdelete, lookup_empty in Hlookup. discriminate Hlookup. }
  clear Horder. induction Hall as [|kv order Hkv _ IH]; [reflexivity|].
  cbn [List.filter]. rewrite Hkv. exact IH.
Qed.

(** The channel tag of a legacy webhook is used for routing only: the
    rendered message is the one of the same alert without that tag. *)
Theorem channel_tag_is_not_rendered (rt : GoRuntime)
    (matchOrders : list (list (string * string))) (tagOrder : list (string * string))
    (alert : Adapter.GrafanaWebhook rt) :
  Adapter.range_order (Adapter.gw_Tags rt alert) tagOrder ->
  Adapter.formatGrafanaSlackMessage rt matchOrders tagOrder alert
  = Adapter.formatGrafanaSlackMessage rt matchOrders (List.filter not_channel tagOrder)
      (without_channel_tag rt alert).
Proof.
  intros Horder. destruct alert as [di em iu me oi pi ri rn ru st tg ti].
  unfold Adapter.formatGrafanaSlackMessage, without_channel_tag.
  cbn [Adapter.gw_State Adapter.gw_Title Adapter.gw_RuleName Adapter.gw_Message
       Adapter.gw_EvalMatches Adapter.gw_Tags Adapter.gw_RuleURL] in *.
  rewrite filter_important_not_channel.
  destruct (Nat.ltb_spec 0 (size tg)) as [Hsome|Hnone];
    destruct (Nat.ltb_spec 0 (size (delete "channel" tg))) as [Hsome'|Hnone'];
    try reflexivity.
  - assert (Hempty : delete "channel" tg = ∅) by (apply map_size_empty_iff; lia).
    rewrite (only_channel_is_unimportant tg tagOrder Horder Hempty). reflexivity.
  - exfalso. assert (Hempty : tg = ∅) by (apply map_size_empty_iff; lia).
    rewrite Hempty, delete_empty, map_size_empty in Hsome'. lia.
Qed.

Lemma channel_tag_is_not_rendered_witness :
  Adapter.formatGrafanaSlackMessage Example.runtime [] [("channel", "P0"); ("team", "db")]
    {| Adapter.gw_DashboardID := 0%Z; Adapter.gw_EvalMatches := [];
       Adapter.gw_ImageURL := ""; Adapter.gw_Message := "";
       Adapter.gw_OrgID := 0%Z; Adapter.gw_PanelID := 0%Z; Adapter.gw_RuleID := 0%Z;
       Adapter.gw_RuleName := ""; Adapter.gw_RuleURL := "";
       Adapter.gw_State := "ok";
       Adapter.gw_Tags := {[ "channel" := "P0"; "team" := "db" ]};
       Adapter.gw_Title := "Replica lag" |}
  = Adapter.formatGrafanaSlackMessage Example.runtime [] [("team", "db")]
      {| Adapter.gw_DashboardID := 0%Z; Adapter.gw_EvalMatches := [];
         Adapter.gw_ImageURL := ""; Adapter.gw_Message := "";
         Adapter.gw_OrgID := 0%Z; Adapter.gw_PanelID := 0%Z; Adapter.gw_RuleID := 0%Z;
         Adapter.gw_RuleName := ""; Adapter.gw_RuleURL := "";
         Adapter.gw_State := "ok";
         Adapter.gw_Tags := delete "channel" {[ "channel" := "P0"; "team" := "db" ]};
         Adapter.gw_Title := "Replica lag" |}.
Proof.
  assert (Horder : Adapter.range_order
                     ({[ "channel" := "P0"; "team" := "db" ]} : gmap string string)
                     [("channel", "P0"); ("team", "db")]).
  { unfold Adapter.range_order.
    apply NoDup_Permutation.
    - apply NoDup_cons. split; [|apply NoDup_singleton].
      rewrite list_elem_of_singleton. discriminate.
    - apply NoDup_map_to_list.
    - intros [k v]. rewrite elem_of_map_to_list.
      rewrite !elem_of_cons, elem_of_nil.
      rewrite lookup_insert_Some, lookup_singleton_Some. split.
      + intros [H|[H|[]]]; injection H as Hk Hv; subst k v;
          [left; auto|right; split; [discriminate|auto]].
      + intros [[<- <-]|[_ [<- <-]]]; auto. }
  exact (channel_tag_is_not_rendered Example.runtime []
           [("channel", "P0"); ("team", "db")]
           {| Adapter.gw_DashboardID := 0%Z; Adapter.gw_EvalMatches := [];
              Adapter.gw_ImageURL := ""; Adapter.gw_Message := "";
              Adapter.gw_OrgID := 0%Z; Adapter.gw_PanelID := 0%Z; Adapter.gw_RuleID := 0%Z;
              Adapter.gw_RuleName := ""; Adapter.gw_RuleURL := "";
              Adapter.gw_State := "ok";
              Adapter.gw_Tags := {[ "channel" := "P0"; "team" := "db" ]};
              Adapter.gw_Title := "Replica lag" |} Horder).
Defined.

(** ** Success statuses *)

(** Neither handler answers 200 unless it handed its message on and the
    receiver accepted it: the interactive handler after a delivery to the
    response URL that succeeded, the webhook handler after a post the chat
    client accepted. *)
Theorem status_200_means_delivered (rt : GoRuntime) (config : Config.Config) (now : Z)
    (orders : Adapter.RangeOrders rt) (PostMessage : Notifier.SlackPost -> bool)
    (formPayload : string -> option string)
    (sendSlackResponse : string -> Server.SlackResponse -> bool)
    (r : Server.Request) (body : option string) :
  (Server.status
     (Server.handleInteractive (Config.SlackSigningSecret config) now formPayload
        sendSlackResponse r body) = 200%Z ->
   exists url response,
     Server.delivery
       (Server.handleInteractive (Config.SlackSigningSecret config) now formPayload
          sendSlackResponse r body) = Some (url, response) /\
     sendSlackResponse url response = true) /\
  (Webhook.status (Webhook.handleGrafanaWebhook rt config now orders PostMessage r body)
   = 200%Z ->
   exists post,
     Webhook.posted (Webhook.handleGrafanaWebhook rt config now orders PostMessage r body)
     = Some post /\
     PostMessage post = true).
Proof.
  split.
  - unfold Server.handleInteractive, Server.http_error.
    repeat match goal with
           | |- context [if ?c then _ else _] =>
               let H := fresh "H" in destruct c eqn:H; cbn [Server.status Server.delivery]
           | |- context [match ?o with Some _ => _ | None => _ end] =>
               destruct o; cbn [Server.status Server.delivery]
           | |- context [match ?o with Ok _ => _ | Err _ => _ end] =>
               destruct o; cbn [Server.status Server.delivery]
           | |- context [match ?l with [] => _ | _ :: _ => _ end] =>
               destruct l; cbn [Server.status Server.delivery]
           end; try discriminate.
    intros _. eauto.
  - unfold Webhook.handleGrafanaWebhook, Webhook.http_error, Notifier.NotifyWithButtons.
    repeat match goal with
           | |- context [if ?c then _ else _] =>
               let H := fresh "H" in destruct c eqn:H; cbn [Webhook.status Webhook.posted]
           | |- context [match ?o with Some _ => _ | None => _ end] =>
               destruct o; cbn [Webhook.status Webhook.posted]
           | |- context [match ?o with Ok _ => _ | Err _ => _ end] =>
               destruct o; cbn [Webhook.status Webhook.posted]
           end; try discriminate.
    intros _. eauto.
Qed.

Lemma status_200_means_delivered_witness :
  exists post,
    Webhook.posted
      (Webhook.handleGrafanaWebhook Example.runtime
         {| Config.SQSQueueURL := "https://sqs.example/q"; Config.SlackWebhookURL := "";
            Config.SlackBotToken := "xoxb-1"; Config.SlackSigningSecret := "secret";
            Config.ServerPort := "8088"; Config.PollIntervalSec := 10;
            Config.SlackChannels := {[ "default" := "#alerts" ]};
            Config.AlarmChannels := ∅ |}
         1700000200
         {| Adapter.ord_annotations := []; Adapter.ord_matchTags := [];
            Adapter.ord_tags := [] |}
         (fun post => String.eqb (Notifier.post_channel post) "#alerts")
         {| Server.Method := "POST"; Server.X_Slack_Request_Timestamp := "";
            Server.X_Slack_Signature := "" |}
         (Some (Example.q "{'title':'High latency','state':'alerting'}")))
    = Some post /\
    String.eqb (Notifier.post_channel post) "#alerts" = true.
Proof.
  apply (proj2 (status_200_means_delivered Example.runtime
           {| Config.SQSQueueURL := "https://sqs.example/q"; Config.SlackWebhookURL := "";
              Config.SlackBotToken := "xoxb-1"; Config.SlackSigningSecret := "secret";
              Config.ServerPort := "8088"; Config.PollIntervalSec := 10;
              Config.SlackChannels := {[ "default" := "#alerts" ]};
              Config.AlarmChannels := ∅ |}
           1700000200
           {| Adapter.ord_annotations := []; Adapter.ord_matchTags := [];
              Adapter.ord_tags := [] |}
           (fun post => String.eqb (Notifier.post_channel post) "#alerts")
           (fun _ => None) (fun _ _ => false)
           {| Server.Method := "POST"; Server.X_Slack_Request_Timestamp := "";
              Server.X_Slack_Signature := "" |}
           (Some (Example.q "{'title':'High latency','state':'alerting'}")))).
  reflexivity.
Defined.

(** ** The queue handler inside the polling loop *)

Section QueueProperties.
Variable rt : GoRuntime.
Variable PostMessage : Notifier.SlackPost -> bool.
Variable SlackBotToken : string.
Variables SlackChannels AlarmChannels : gmap string string.
Variable World : Type.
Variable ReceiveMessage : World -> option (list Sqs.SQSMessage) * World.
Variable DeleteMessage : option string -> World -> bool * World.

Lemma batch_calls_handles (accepts : string -> bool) (msgs : list Sqs.SQSMessage)
    (calls : list call) (completed : bool) :
  batch_calls msgs calls completed ->
  Forall (fun c => match c with
                   | CallHandler body ok => ok = accepts body
                   | _ => True
                   end) calls ->
  delete_handles calls
  = List.map Sqs.ReceiptHandle
      (List.filter (fun msg => match Sqs.Body msg with
                               | Some body => accepts body
                               | None => false
                               end) (leading msgs)).
Proof.
  induction 1 as [|msg rest Hbody|msg rest body d calls completed Hbody _ IH
                  |msg rest body calls completed Hbody _ IH];
    intros Hanswers; cbn [delete_handles leading]; try rewrite Hbody;
    cbn [List.filter List.map]; try rewrite Hbody; try reflexivity.
  - inversion Hanswers as [|? ? Hhere Hrest]; subst.
    inversion Hrest as [|? ? _ Hrest']; subst.
    rewrite <- Hhere. cbn [List.map]. rewrite (IH Hrest'). reflexivity.
  - inversion Hanswers as [|? ? Hhere Hrest]; subst.
    rewrite <- Hhere. exact (IH Hrest).
Qed.

(** In a round of the poller that runs the handler of main, DeleteMessage
    is invoked exactly for the messages that no message without a body
    precedes and whose body was adapted and posted with success: once for each
    of them, with the receipt handle of that message, in the order of the
    batch.  For a message whose adaptation or post failed no delete is
    invoked.  The calls are those DeleteMessage itself writes in the journal,
    whatever it answers. *)
Theorem delete_is_invoked_exactly_for_delivered_messages (round : nat) (w w1 : World)
    (msgs : list Sqs.SQSMessage) :
  ReceiveMessage w = (Some msgs, w1) ->
  delete_handles
    (snd (snd (fst
       (Sqs.pollOnce (World * list call) (journalReceive World ReceiveMessage)
          (journalDelete World DeleteMessage)
          (journalHandler World
             (queue_handler rt PostMessage SlackBotToken SlackChannels AlarmChannels))
          round (w, []) []))))
  = List.map Sqs.ReceiptHandle
      (List.filter (delivered rt PostMessage SlackBotToken SlackChannels AlarmChannels)
         (leading msgs)).
Proof.
  intros Hreceive.
  destruct (pollOnce_journal World ReceiveMessage DeleteMessage
              (queue_handler rt PostMessage SlackBotToken SlackChannels AlarmChannels)
              round w w1 msgs [] [] Hreceive)
    as (calls & completed & -> & Hcalls & Hanswered).
  cbn [List.app delete_handles].
  rewrite (batch_calls_handles
             (Main.handler rt PostMessage SlackBotToken SlackChannels AlarmChannels)
             msgs calls completed Hcalls).
  - apply f_equal. apply List.filter_ext. intros msg.
    unfold delivered, Main.handler, Notifier.Notify, Notifier.NotifyWithButtons.
    reflexivity.
  - eapply Forall_impl; [exact Hanswered|].
    intros [answer|body ok|handle ok]; cbn [answered]; try exact (fun _ => I).
    intros [w' <-]. reflexivity.
Qed.

End QueueProperties.

Lemma delete_is_invoked_exactly_for_delivered_messages_witness :
  delete_handles
    (snd (snd (fst
       (Sqs.pollOnce (unit * list call)
          (journalReceive unit
             (fun w => (Some [ {| Sqs.Body := Some (Example.q "{'Message':'{}'}");
                                  Sqs.ReceiptHandle := Some "h0" |};
                               {| Sqs.Body := Some "not json";
                                  Sqs.ReceiptHandle := Some "h1" |};
                               {| Sqs.Body := Some (Example.q "{'Message':'{}'}");
                                  Sqs.ReceiptHandle := Some "h2" |} ],
                        w)))
          (journalDelete unit (fun handle w => (false, w)))
          (journalHandler unit
             (queue_handler Example.runtime (fun _ => true) "xoxb-1"
                {[ "default" := "#alerts" ]} ∅))
          0 (tt, []) []))))
  = [Some "h0"; Some "h2"].
Proof.
  rewrite (delete_is_invoked_exactly_for_delivered_messages Example.runtime (fun _ => true)
             "xoxb-1" {[ "default" := "#alerts" ]} ∅ unit
             (fun w => (Some [ {| Sqs.Body := Some (Example.q "{'Message':'{}'}");
                                  Sqs.ReceiptHandle := Some "h0" |};
                               {| Sqs.Body := Some "not json";
                                  Sqs.ReceiptHandle := Some "h1" |};
                               {| Sqs.Body := Some (Example.q "{'Message':'{}'}");
                                  Sqs.ReceiptHandle := Some "h2" |} ],
                        w))
             (fun handle w => (false, w)) 0 tt tt _ eq_refl).
  reflexivity.
Defined.

(** ** The first adapter and the current one *)

Lemma foldName_injective_on {A : Type} (h : A -> string) (l : list A) (x y : A) :
  List.NoDup (List.map h l) -> In x l -> In y l -> h x = h y -> x = y.
Proof.
  induction l as [|a l IH]; intros Hnodup Hx Hy Heq; [destruct Hx|].
  cbn [List.map] in Hnodup. inversion Hnodup as [|? ? Hnotin Hnodup']; subst.
  destruct Hx as [->|Hx], Hy as [->|Hy].
  - reflexivity.
  - exfalso. apply Hnotin. rewrite Heq. apply List.in_map. exact Hy.
  - exfalso. apply Hnotin. rewrite <- Heq. apply List.in_map. exact Hx.
  - exact (IH Hnodup' Hx Hy Heq).
Qed.

(** The field a key is stored into, for a struct that has some of the
    fields of another. *)
Lemma field_for_sub (small big : list string) (key : string) :
  incl small big ->
  List.NoDup (List.map foldName big) ->
  match field_for small key with
  | Some f => field_for big key = Some f
  | None => forall g, field_for big key = Some g -> ~ In g small
  end.
Proof.
  intros Hincl Hnodup. unfold field_for.
  destruct (List.find (String.eqb key) small) as [f|] eqn:Hexact.
  - apply List.find_some in Hexact as [Hin Heq]. apply String.eqb_eq in Heq. subst f.
    destruct (List.find (String.eqb key) big) as [g|] eqn:Hbig.
    + apply List.find_some in Hbig as [_ Heq]. apply String.eqb_eq in Heq. subst g.
      reflexivity.
    + exfalso. pose proof (List.find_none _ _ Hbig key (Hincl key Hin)) as Hno.
      rewrite String.eqb_refl in Hno. discriminate Hno.
  - destruct (List.find (fun f => String.eqb (foldName f) (foldName key)) small)
      as [f|] eqn:Hfold.
    + apply List.find_some in Hfold as [Hin Heq]. apply String.eqb_eq in Heq.
      destruct (List.find (String.eqb key) big) as [g|] eqn:Hbig.
      * exfalso. apply List.find_some in Hbig as [Hing Hg]. apply String.eqb_eq in Hg.
        subst g.
        assert (key = f)
          by (apply (foldName_injective_on foldName big); auto).
        subst f. pose proof (List.find_none _ _ Hexact key Hin) as Hno.
        rewrite String.eqb_refl in Hno. discriminate Hno.
      * destruct (List.find (fun f0 => String.eqb (foldName f0) (foldName key)) big)
          as [g|] eqn:Hbig'.
        -- apply List.find_some in Hbig' as [Hing Hg]. apply String.eqb_eq in Hg.
           f_equal. apply (foldName_injective_on foldName big); auto. congruence.
        -- exfalso. pose proof (List.find_none _ _ Hbig' f (Hincl f Hin)) as Hno.
           cbn beta in Hno. rewrite Heq, String.eqb_refl in Hno. discriminate Hno.
    + intros g Hg Hin.
      pose proof (List.find_none _ _ Hfold g Hin) as Hno. cbn beta in Hno.
      destruct (List.find (String.eqb key) big) as [g'|] eqn:Hbig.
      * injection Hg as ->. apply List.find_some in Hbig as [_ Heq].
        apply String.eqb_eq in Heq. subst g.
        rewrite String.eqb_refl in Hno. discriminate Hno.
      * apply List.find_some in Hg as [_ Heq]. rewrite Heq in Hno. discriminate Hno.
Qed.

Lemma fold_left_bind_Err {T A : Type} (step : A -> T -> result T) (l : list A)
    (e : JSON.error) :
  fold_left (fun acc x => bind acc (step x)) l (Err e) = Err e.
Proof. induction l as [|x l IH]; [reflexivity|exact IH]. Qed.

(** A struct with some of the fields of another decodes every object the
    other decodes, when the shared fields are set alike. *)
Lemma decode_object_simulation {T S : Type} (big small : list string)
    (set_big : string -> json -> T -> result T)
    (set_small : string -> json -> S -> result S) (R : T -> S -> Prop) :
  incl small big ->
  List.NoDup (List.map foldName big) ->
  (forall f v c c' s, In f small -> R c s -> set_big f v c = Ok c' ->
                      exists s', set_small f v s = Ok s' /\ R c' s') ->
  (forall g v c c' s, ~ In g small -> R c s -> set_big g v c = Ok c' -> R c' s) ->
  forall j cur s r,
    R cur s ->
    decode_object big set_big j cur = Ok r ->
    exists s', decode_object small set_small j s = Ok s' /\ R r s'.
Proof.
  intros Hincl Hnodup Hshared Hother j cur s r HR Hdec.
  destruct j as [| | | | |members]; try discriminate Hdec.
  - injection Hdec as <-. exists s. split; [reflexivity|exact HR].
  - unfold decode_object in *. revert cur s HR Hdec.
    induction members as [|[key v] members IH]; intros cur s HR Hdec;
      cbn [fold_left bind fst snd] in *.
    + injection Hdec as <-. exists s. split; [reflexivity|exact HR].
    + pose proof (field_for_sub small big key Hincl Hnodup) as Hsub.
      destruct (field_for small key) as [f|] eqn:Hsmall.
      * rewrite Hsub in Hdec.
        destruct (set_big f v cur) as [c'|e] eqn:Hset;
          [|rewrite (fold_left_bind_Err
                      (fun (kv : string * json) c =>
                         match field_for big (fst kv) with
                         | Some f0 => set_big f0 (snd kv) c
                         | None => Ok c
                         end)) in Hdec; discriminate Hdec].
        assert (Hin : In f small).
        { unfold field_for in Hsmall.
          destruct (List.find (String.eqb key) small) as [f'|] eqn:H1.
          - injection Hsmall as <-. exact (proj1 (List.find_some _ _ H1)).
          - exact (proj1 (List.find_some _ _ Hsmall)). }
        destruct (Hshared f v cur c' s Hin HR Hset) as (s' & -> & HR').
        exact (IH c' s' HR' Hdec).
      * destruct (field_for big key) as [g|] eqn:Hbig.
        -- destruct (set_big g v cur) as [c'|e] eqn:Hset;
             [|rewrite (fold_left_bind_Err
                         (fun (kv : string * json) c =>
                            match field_for big (fst kv) with
                            | Some f0 => set_big f0 (snd kv) c
                            | None => Ok c
                            end)) in Hdec; discriminate Hdec].
           exact (IH c' s (Hother g v cur c' s (Hsub g eq_refl) HR Hset) Hdec).
        -- exact (IH cur s HR Hdec).
Qed.

Lemma envelope_simulation (j : json) (envelope : Adapter.Envelope) :
  Adapter.decode_Envelope j Adapter.Envelope_zero = Ok envelope ->
  SnsAdapter.decode_envelope j "" = Ok (Adapter.env_Message envelope).
Proof.
  intros Hdec. unfold Adapter.decode_Envelope in Hdec. unfold SnsAdapter.decode_envelope.
  destruct (decode_object_simulation ["Message"; "Subject"] ["Message"]
              (fun f v e =>
                 if String.eqb f "Message"
                 then bind (decode_string v (Adapter.env_Message e))
                        (fun x => Ok {| Adapter.env_Message := x;
                                        Adapter.env_Subject := Adapter.env_Subject e |})
                 else bind (decode_string v (Adapter.env_Subject e))
                        (fun x => Ok {| Adapter.env_Message := Adapter.env_Message e;
                                        Adapter.env_Subject := x |}))
              (fun (_ : string) v message => decode_string v message)
              (fun e message => Adapter.env_Message e = message))
    with (j := j) (cur := Adapter.Envelope_zero) (s := "") (r := envelope)
    as (s' & Hs & HR).
  - intros f [<-|[]]. left. reflexivity.
  - vm_compute. repeat constructor; cbn; intuition discriminate.
  - intros f v c c' s [<-|[]] <- Hset. cbn [String.eqb Ascii.eqb Bool.eqb] in Hset.
    decoded Hset. eexists. split; reflexivity.
  - intros g v c c' s Hg <- Hset.
    destruct (String.eqb_spec g "Message") as [->|_];
      [contradiction Hg; left; reflexivity|].
    decoded Hset. reflexivity.
  - reflexivity.
  - exact Hdec.
  - rewrite Hs, HR. reflexivity.
Qed.

Lemma set_CloudWatchAlarm_keeps_NewStateReason (rt : GoRuntime) (f : string) (v : json)
    (a a' : Adapter.CloudWatchAlarm rt * list Adapter.Dimension) :
  f <> "NewStateReason" -> Adapter.set_CloudWatchAlarm rt f v a = Ok a' ->
  Adapter.cw_NewStateReason rt (fst a') = Adapter.cw_NewStateReason rt (fst a).
Proof.
  intros Hf Hset. destruct a as [[] spare]. unfold Adapter.set_CloudWatchAlarm in Hset.
  destruct (String.eqb_spec f "NewStateReason") as [->|_].
  - contradiction.
  - repeat (destruct (String.eqb f _); [decoded Hset; reflexivity|]).
    decoded Hset; reflexivity.
Qed.

(** The three fields both adapters read. *)
Lemma alarm_simulation (rt : GoRuntime) (j : json) (alarm : Adapter.CloudWatchAlarm rt) :
  Adapter.decode_CloudWatchAlarm rt j (Adapter.CloudWatchAlarm_zero rt) = Ok alarm ->
  SnsAdapter.decode_SNSMessage j SnsAdapter.SNSMessage_zero
  = Ok {| SnsAdapter.AlarmName := Adapter.cw_AlarmName rt alarm;
          SnsAdapter.NewState := Adapter.cw_NewStateValue rt alarm;
          SnsAdapter.Reason := Adapter.cw_NewStateReason rt alarm |}.
Proof.
  intros Hdec. unfold SnsAdapter.decode_SNSMessage.
  destruct (decode_CloudWatchAlarm_Ok rt _ _ _ Hdec) as [spare Hobj].
  pose (R := fun (a : Adapter.CloudWatchAlarm rt * list Adapter.Dimension)
                 (m : SnsAdapter.SNSMessage) =>
               m = {| SnsAdapter.AlarmName := Adapter.cw_AlarmName rt (fst a);
                      SnsAdapter.NewState := Adapter.cw_NewStateValue rt (fst a);
                      SnsAdapter.Reason := Adapter.cw_NewStateReason rt (fst a) |}).
  destruct (decode_object_simulation Adapter.CloudWatchAlarm_fields
              SnsAdapter.SNSMessage_fields (Adapter.set_CloudWatchAlarm rt)
              SnsAdapter.set_SNSMessage R) with (j := j)
              (cur := (Adapter.CloudWatchAlarm_zero rt, @nil Adapter.Dimension))
              (s := SnsAdapter.SNSMessage_zero)
              (r := (alarm, spare)) as (s' & Hs & HR).
  - intros f Hin. unfold SnsAdapter.SNSMessage_fields in Hin.
    unfold Adapter.CloudWatchAlarm_fields. cbn in *. intuition auto.
  - vm_compute. repeat constructor; cbn; intuition discriminate.
  - intros f v c c' s Hin -> Hset. unfold SnsAdapter.SNSMessage_fields in Hin.
    destruct c as [[an ad ac nv ov nr sc re ar tr] sp].
    destruct Hin as [<-|[<-|[<-|[]]]]; cbn in Hset |- *;
      destruct (decode_string v _) as [x|]; cbn in Hset |- *;
      try discriminate Hset; injection Hset as <-; eexists; split; reflexivity.
  - intros g v c c' s Hg -> Hset. unfold R.
    rewrite (set_CloudWatchAlarm_keeps_AlarmName rt g v c c'),
      (set_CloudWatchAlarm_keeps_NewStateValue rt g v c c'),
      (set_CloudWatchAlarm_keeps_NewStateReason rt g v c c'); auto;
      intros ->; apply Hg; cbn; auto.
  - reflexivity.
  - exact Hobj.
  - rewrite Hs, HR. reflexivity.
Qed.

(** Every body the current queue adapter accepts, the first adapter
    accepts too, and its text reports the alarm name, the new state and the
    reason the current adapter decoded. *)
Theorem first_adapter_accepts_what_the_current_accepts (rt : GoRuntime) (body : string)
    (envelope : Adapter.Envelope) (alarm : Adapter.CloudWatchAlarm rt) :
  Unmarshal Adapter.decode_Envelope body Adapter.Envelope_zero = Ok envelope ->
  Unmarshal (Adapter.decode_CloudWatchAlarm rt) (Adapter.env_Message envelope)
    (Adapter.CloudWatchAlarm_zero rt) = Ok alarm ->
  Adapter.AdaptSQSMessage rt body = Ok (Adapter.formatSlackMessage rt alarm) /\
  SnsAdapter.AdaptSQSMessage body
  = Ok ("*" +:+ Adapter.cw_AlarmName rt alarm +:+ "* is now *" +:+
        Adapter.cw_NewStateValue rt alarm +:+ "*:" +:+ Adapter.nl +:+
        Adapter.cw_NewStateReason rt alarm).
Proof.
  intros Henv Halarm. split.
  - unfold Adapter.AdaptSQSMessage. rewrite Henv. cbn [bind]. rewrite Halarm. reflexivity.
  - unfold SnsAdapter.AdaptSQSMessage, Unmarshal in *.
    destruct (parse body) as [j|]; [|discriminate Henv].
    rewrite (envelope_simulation j envelope Henv). cbn [bind].
    destruct (parse (Adapter.env_Message envelope)) as [j'|]; [|discriminate Halarm].
    rewrite (alarm_simulation rt j' alarm Halarm). reflexivity.
Qed.

Lemma first_adapter_accepts_what_the_current_accepts_witness :
  SnsAdapter.AdaptSQSMessage
    (Example.q "{'Message':'{\'alarmname\':\'disk-full\',\'NewStateValue\':\'ALARM\',\'Trigger\':{\'Period\':60}}','Subject':'ALARM'}")
  = Ok ("*disk-full* is now *ALARM*:" +:+ Adapter.nl).
Proof.
  destruct (Unmarshal Adapter.decode_Envelope
              (Example.q "{'Message':'{\'alarmname\':\'disk-full\',\'NewStateValue\':\'ALARM\',\'Trigger\':{\'Period\':60}}','Subject':'ALARM'}")
              Adapter.Envelope_zero) as [envelope|] eqn:Henv; [|discriminate Henv].
  destruct (Unmarshal (Adapter.decode_CloudWatchAlarm Example.runtime)
              (Adapter.env_Message envelope)
              (Adapter.CloudWatchAlarm_zero Example.runtime)) as [alarm|] eqn:Halarm.
  - destruct (first_adapter_accepts_what_the_current_accepts Example.runtime _ envelope
                alarm Henv Halarm) as [_ Hfirst].
    rewrite Hfirst.
    injection Henv as <-. injection Halarm as <-. reflexivity.
  - exfalso. injection Henv as <-. discriminate Halarm.
Defined.

(** ** What the extraction gives *)

Lemma strip_prefix_Forall (Q : N -> Prop) (p l l' : list N) :
  strip_prefix p l = Some l' -> Forall Q l -> Forall Q l'.
Proof.
  revert l. induction p as [|a p IH]; intros l H Hl; cbn [strip_prefix] in H.
  - injection H as <-. exact Hl.
  - destruct l as [|b l]; [discriminate H|].
    destruct (a =? b)%N; [|discriminate H].
    inversion Hl; subst. eapply IH; eassumption.
Qed.

Lemma strip_space_rune_Forall (Q : N -> Prop) (runes : list (list N)) (l l' : list N) :
  strip_space_rune runes l = Some l' -> Forall Q l -> Forall Q l'.
Proof.
  induction runes as [|r runes IH]; cbn [strip_space_rune]; intros H Hl; [discriminate H|].
  destruct (strip_prefix r l) as [l0|] eqn:Hstrip.
  - injection H as <-. exact (strip_prefix_Forall Q r l l0 Hstrip Hl).
  - exact (IH H Hl).
Qed.

Lemma trim_left_go_Forall (Q : N -> Prop) (fuel : nat) :
  forall l, Forall Q l -> Forall Q (trim_left_go fuel l).
Proof.
  induction fuel as [|fuel IH]; intros l Hl; cbn [trim_left_go]; [exact Hl|].
  destruct (strip_space_rune space_runes l) as [l'|] eqn:Hstrip; [|exact Hl].
  exact (IH l' (strip_space_rune_Forall Q _ l l' Hstrip Hl)).
Qed.

Lemma trim_right_rev_go_Forall (Q : N -> Prop) (fuel : nat) :
  forall l, Forall Q l -> Forall Q (trim_right_rev_go fuel l).
Proof.
  induction fuel as [|fuel IH]; intros l Hl; cbn [trim_right_rev_go]; [exact Hl|].
  destruct (strip_space_rune (List.map (@List.rev N) space_runes) l) as [l'|] eqn:Hstrip;
    [|exact Hl].
  exact (IH l' (strip_space_rune_Forall Q _ l l' Hstrip Hl)).
Qed.

(** TrimSpace gives bytes of its argument only. *)
Lemma TrimSpace_all_chars (p : ascii -> bool) (s : string) :
  all_chars p s = true -> all_chars p (TrimSpace s) = true.
Proof.
  intros Hs. unfold TrimSpace, trim_left, trim_right.
  assert (Hbytes : Forall (fun b => p (char_of b) = true) (bytes_of s)).
  { induction s as [|c s IH]; [constructor|].
    cbn [all_chars] in Hs. apply andb_true_iff in Hs as [Hc Hs].
    cbn [bytes_of]. constructor; [|exact (IH Hs)].
    unfold char_of, byte_of. rewrite ascii_N_embedding. exact Hc. }
  assert (Hof : forall l, Forall (fun b => p (char_of b) = true) l ->
                          all_chars p (string_of l) = true).
  { induction 1 as [|b l Hb _ IH]; [reflexivity|].
    cbn [string_of all_chars]. rewrite Hb. exact IH. }
  apply Hof, List.Forall_rev, trim_right_rev_go_Forall, List.Forall_rev,
    trim_left_go_Forall, Hbytes.
Qed.

Lemma take_until_all (stop : ascii -> bool) (s : string) :
  all_chars (fun c => negb (stop c)) (Server.take_until stop s) = true.
Proof.
  induction s as [|c s IH]; [reflexivity|].
  cbn [Server.take_until]. destruct (stop c) eqn:Hc; [reflexivity|].
  cbn [all_chars]. rewrite Hc. exact IH.
Qed.

Lemma find_submatch_group (lit : string) (stop : ascii -> bool) (text group : string) :
  Server.find_submatch lit stop text = Some group ->
  all_chars (fun c => negb (stop c)) group = true.
Proof.
  induction text as [|c text IH]; rewrite find_submatch_unfold.
  - destruct (HasPrefix "" lit); [|discriminate].
    pose proof (take_until_all stop (drop_bytes (String.length lit) "")) as Hall.
    destruct (Server.take_until stop (drop_bytes (String.length lit) "")); [discriminate|].
    intros H. injection H as <-. exact Hall.
  - destruct (HasPrefix (String c text) lit); [|exact IH].
    pose proof (take_until_all stop (drop_bytes (String.length lit) (String c text)))
      as Hall.
    destruct (Server.take_until stop (drop_bytes (String.length lit) (String c text)));
      [exact IH|].
    intros H. injection H as <-. exact Hall.
Qed.

Lemma extracted_one_line (stop : ascii -> bool) (lit text : string) :
  all_chars (fun c => negb (stop c))
    (Server.trimmed_or (Server.find_submatch lit stop text) "") = true.
Proof.
  destruct (Server.find_submatch lit stop text) as [group|] eqn:Hfind; [|reflexivity].
  cbn [Server.trimmed_or]. apply TrimSpace_all_chars.
  exact (find_submatch_group _ _ _ _ Hfind).
Qed.

Lemma extractAlertInfo_one_line (text : string) :
  name_like (Server.Name (Server.extractAlertInfo text)) = true /\
  one_line (Server.Description (Server.extractAlertInfo text)) = true.
Proof.
  unfold Server.extractAlertInfo, name_like, one_line.
  destruct (Contains text "Grafana Alert:");
    [|destruct (Contains text "CloudWatch Alarm:")];
    cbn [Server.Name Server.Description]; split;
    solve [apply extracted_one_line | reflexivity].
Qed.

(** Whatever the original message holds, the alert name the handler takes
    from it, from the text or from a section block, holds no asterisk and no
    line feed, and the description holds no line feed. *)
Theorem extracted_name_is_one_line (message : Server.SlackMessage) :
  name_like (Server.Name (Server.alertInfoOf message)) = true /\
  one_line (Server.Description (Server.alertInfoOf message)) = true.
Proof.
  unfold Server.alertInfoOf.
  destruct (String.eqb (Server.Name (Server.extractAlertInfo (Server.sm_Text message))) "");
    [|apply extractAlertInfo_one_line].
  pose proof (extractAlertInfo_one_line (Server.sm_Text message)) as Hstart.
  revert Hstart. generalize (Server.extractAlertInfo (Server.sm_Text message)).
  induction (Server.sm_Blocks message) as [|block blocks IH]; intros info Hinfo;
    cbn [Server.alertInfoFromBlocks]; [exact Hinfo|].
  destruct (String.eqb (Server.blk_Type block) "section"); [|exact (IH info Hinfo)].
  destruct (negb (String.eqb (Server.Name (Server.extractAlertInfo (Server.blk_Text block)))
                    "")).
  - apply extractAlertInfo_one_line.
  - apply IH, extractAlertInfo_one_line.
Qed.

(** ** An action that is neither acknowledge nor dismiss *)

(** For a verified request whose first action has any other action id, the
    handler still sends a message to the response URL that replaces the
    original alert in the channel; its text is "Unknown action: " followed
    by the action id. *)
Theorem unknown_action_replaces_the_alert (signingSecret : string) (now : Z)
    (formPayload : string -> option string)
    (sendSlackResponse : string -> Server.SlackResponse -> bool)
    (r : Server.Request) (body payloadStr : string) (slackPayload : Server.SlackPayload)
    (action : Server.Action) (others : list Server.Action) :
  Server.Method r = "POST" ->
  Server.verifySlackRequest signingSecret now r body = true ->
  formPayload body = Some payloadStr ->
  payloadStr <> "" ->
  Unmarshal Server.decode_SlackPayload payloadStr Server.SlackPayload_zero = Ok slackPayload ->
  Server.sp_Actions slackPayload = action :: others ->
  Server.act_ActionID action <> "acknowledge" ->
  Server.act_ActionID action <> "dismiss" ->
  Server.delivery
    (Server.handleInteractive signingSecret now formPayload sendSlackResponse r (Some body))
  = Some (Server.sp_ResponseURL slackPayload,
          {| Server.text := "Unknown action: " +:+ Server.act_ActionID action;
             Server.replace_original := true;
             Server.response_type := "in_channel" |}).
Proof.
  intros Hmethod Hverify Hform Hpayload Hdecode Hactions Hack Hdismiss.
  unfold Server.handleInteractive.
  rewrite Hmethod, Hverify, Hform. cbn [String.eqb Ascii.eqb Bool.eqb negb].
  rewrite (eqb_nonempty _ Hpayload), Hdecode, Hactions.
  unfold Server.responseTextOf.
  destruct (String.eqb_spec (Server.act_ActionID action) "acknowledge"); [contradiction|].
  destruct (String.eqb_spec (Server.act_ActionID action) "dismiss"); [contradiction|].
  destruct (sendSlackResponse _ _); reflexivity.
Qed.

Lemma unknown_action_replaces_the_alert_witness :
  Server.delivery
    (Server.handleInteractive "8f742231b10e8888abcd99yyyz7dd1e3" 1700000200
       (fun _ =>
          Some (Example.q
            "{'actions':[{'action_id':'snooze','value':'alert_61'}],'user':{'name':'bob'},'response_url':'https://hooks.example/r'}"))
       (fun _ _ => true)
       {| Server.Method := "POST";
          Server.X_Slack_Request_Timestamp := "1699999900";
          Server.X_Slack_Signature :=
            "v0=a606c9056987a0dcf97475445dc9bb9b3e20889cf51e14c6e2b44817756bcf62" |}
       (Some "payload=%7B%7D"))
  = Some ("https://hooks.example/r",
          {| Server.text := "Unknown action: snooze";
             Server.replace_original := true;
             Server.response_type := "in_channel" |}).
Proof.
  destruct (Unmarshal Server.decode_SlackPayload
              (Example.q
                 "{'actions':[{'action_id':'snooze','value':'alert_61'}],'user':{'name':'bob'},'response_url':'https://hooks.example/r'}")
              Server.SlackPayload_zero) as [slackPayload|] eqn:Hdecode;
    [|discriminate Hdecode].
  rewrite (unknown_action_replaces_the_alert "8f742231b10e8888abcd99yyyz7dd1e3" 1700000200
             (fun _ =>
                Some (Example.q
                  "{'actions':[{'action_id':'snooze','value':'alert_61'}],'user':{'name':'bob'},'response_url':'https://hooks.example/r'}"))
             (fun _ _ => true)
             {| Server.Method := "POST";
                Server.X_Slack_Request_Timestamp := "1699999900";
                Server.X_Slack_Signature :=
                  "v0=a606c9056987a0dcf97475445dc9bb9b3e20889cf51e14c6e2b44817756bcf62" |}
             "payload=%7B%7D" _ slackPayload
             {| Server.act_ActionID := "snooze"; Server.act_Value := "alert_61" |} []
             eq_refl ltac:(vm_compute; reflexivity) eq_refl ltac:(discriminate) Hdecode).
  - injection Hdecode as <-. reflexivity.
  - injection Hdecode as <-. reflexivity.
  - discriminate.
  - discriminate.
Defined.
